(** * Webviz: the experiment state machine, the simulation thread and the
      state broadcast of [CWebviz] (webviz.cpp)

    The development embeds the member functions of [CWebviz] as functions on
    an explicit state record.  Everything the class calls but does not own
    (the simulator, its loop functions, the space, the clocks, the
    per-entity JSON operations) is the abstract interface [Simulator]; the
    calls made on it, the events and snapshots handed to the web server and
    the log lines are recorded, in order and with the thread that made them,
    in a trace.

    The class has no lock.  Here each member function runs as a whole; the
    commands of the web server's thread can fall between the passes of the
    simulation thread's loop and, within a pass, just before each
    evaluation of the condition of its stepping loop, the one place where
    the code itself expects the state to change under it. *)

From Stdlib Require Import ZArith Lia Bool.
From stdpp Require Import base option list gmap strings pretty.

Set Default Proof Using "Type".
Set Warnings "-register-all".
Open Scope Z_scope.

(** ** JSON values (the part of [nlohmann::json] the class uses) *)

Module Json.

(** [Real] is ARGoS's floating-point scalar; its values are only passed
    through, so the type stays abstract. *)
Inductive json (Real : Type) : Type :=
| JNull
| JInt (z : Z)
| JReal (r : Real)
| JStr (s : string)
| JArr (l : list (json Real))
| JObj (m : gmap string (json Real)).

Arguments JNull {Real}.
Arguments JInt {Real} z.
Arguments JReal {Real} r.
Arguments JStr {Real} s.
Arguments JArr {Real} l.
Arguments JObj {Real} m.

Section Ops.
Context {Real : Type}.

(** [j != nullptr] compares with the null value. *)
Definition is_null (j : json Real) : bool :=
  match j with JNull => true | _ => false end.

(** [j[key]] used as an lvalue: a null value becomes an object, a missing
    key is created holding null, and [f] is what is then done to the
    member.  Any other kind of value raises [type_error] ([None]). *)
Definition update_key (key : string)
    (f : json Real -> option (json Real)) (j : json Real)
    : option (json Real) :=
  match j with
  | JNull => v ← f JNull; Some (JObj {[ key := v ]})
  | JObj m => v ← f (default JNull (m !! key)); Some (JObj (<[ key := v ]> m))
  | _ => None
  end.

(** [j = v]. *)
Definition assign (v : json Real) : json Real -> option (json Real) :=
  fun _ => Some v.

(** [j.push_back(x)]: null becomes a one-element array, an array grows
    at its end, anything else raises [type_error]. *)
Definition push_back (x : json Real) (j : json Real)
    : option (json Real) :=
  match j with
  | JNull => Some (JArr [x])
  | JArr l => Some (JArr (l ++ [x]))
  | _ => None
  end.

(** The members of an object; null has none. *)
Definition members (j : json Real) : gmap string (json Real) :=
  match j with
  | JObj m => m
  | _ => ∅
  end.

(** The values [operator[]] accepts: null and objects. *)
Definition objectish (j : json Real) : bool :=
  match j with
  | JNull | JObj _ => true
  | _ => false
  end.

(** Reading a member of an object (no insertion). *)
Definition get (key : string) (j : json Real) : option (json Real) :=
  match j with
  | JObj m => m !! key
  | _ => None
  end.

Definition contains (key : string) (j : json Real) : bool :=
  bool_decide (is_Some (get key j)).

End Ops.
End Json.

Import Json.

(** ** The experiment state and the environment *)

Inductive EExperimentState : Set :=
| EXPERIMENT_INITIALIZED
| EXPERIMENT_PLAYING
| EXPERIMENT_PAUSED
| EXPERIMENT_FAST_FORWARDING.

#[global] Instance EExperimentState_eq_dec : EqDecision EExperimentState.
Proof. solve_decision. Defined.

Record CVector3 (Real : Type) : Type := mkCVector3 {
  GetX : Real;
  GetY : Real;
  GetZ : Real
}.
Arguments mkCVector3 {Real}.
Arguments GetX {Real}.
Arguments GetY {Real}.
Arguments GetZ {Real}.

(** What [CWebviz] needs from the rest of ARGoS.  [World] is the simulator
    with its space and loop functions together with the clocks the code
    reads; a call that changes it is a function [World -> World]. *)
Class Simulator (Real World Entity : Type) : Type := {
  (* m_cSimulator *)
  IsExperimentFinished : World -> bool;
  UpdateSpace : World -> World;
  SimulatorReset : World -> World;
  (* m_cSimulator.GetLoopFunctions() *)
  PreStep : World -> World;
  PostStep : World -> World;
  PostExperiment : World -> World;
  (* (long int)(CPhysicsEngine::GetSimulationClockTick() * 1000.0f) *)
  SimulationClockTickMillis : World -> Z;
  (* m_cSpace *)
  GetRootEntityVector : World -> list Entity;
  GetArenaSize : World -> CVector3 Real;
  GetArenaCenter : World -> CVector3 Real;
  GetSimulationClock : World -> Z;
  (* CallEntityOperation<CWebvizOperationGenerateJSON, CWebviz, json> *)
  GenerateJSON : World -> Entity -> json Real;
  GetTypeDescription : Entity -> string;
  (* system_clock::now() in milliseconds since the epoch *)
  SystemClockMillis : World -> Z;
  (* m_cTimer.Elapsed() in milliseconds, read after m_cTimer.Stop() *)
  TimerElapsed : World -> Z;
  (* std::this_thread::sleep_for *)
  SleepFor : Z -> World -> World;
  (* Webviz::EExperimentStateToStr, declared outside webviz.cpp *)
  EExperimentStateToStr : EExperimentState -> string
}.

(** The two threads that run the member functions: the one started by the
    constructor on [SimulationThreadFunction], and the web server's, from
    which the five experiment commands are called. *)
Inductive Thread : Set := SimulationThread | ControlThread.

#[global] Instance Thread_eq_dec : EqDecision Thread.
Proof. solve_decision. Defined.

(** What the class does to its collaborators. *)
Inductive Effect (Real : Type) : Type :=
| CallPreStep
| CallUpdateSpace
| CallPostStep
| CallPostExperiment
| CallSimulatorReset
| EmitEvent (name : string) (state : EExperimentState)
| Broadcast (cStateJson : json Real)
| Log (line : string)
| LogErr (line : string)
| TimerStart
| TimerStop
| Sleep (millis : Z).

Arguments CallPreStep {Real}.
Arguments CallUpdateSpace {Real}.
Arguments CallPostStep {Real}.
Arguments CallPostExperiment {Real}.
Arguments CallSimulatorReset {Real}.
Arguments EmitEvent {Real} name state.
Arguments Broadcast {Real} cStateJson.
Arguments Log {Real} line.
Arguments LogErr {Real} line.
Arguments TimerStart {Real}.
Arguments TimerStop {Real}.
Arguments Sleep {Real} millis.

Record CWebviz (Real World : Type) : Type := mkCWebviz {
  m_eExperimentState : EExperimentState;
  m_bFastForwarding : bool;
  m_cSimulatorTickMillis : Z;
  m_unDrawFrameEvery : Z;
  m_cSimulator : World;
  trace : list (Thread * Effect Real)
}.
Arguments mkCWebviz {Real World}.
Arguments m_eExperimentState {Real World}.
Arguments m_bFastForwarding {Real World}.
Arguments m_cSimulatorTickMillis {Real World}.
Arguments m_unDrawFrameEvery {Real World}.
Arguments m_cSimulator {Real World}.
Arguments trace {Real World}.

(** An exception leaving a member function. *)
Inductive Outcome : Set :=
| Returned
| Thrown (what : string).

Inductive ControlOp : Set := OpPlay | OpPause | OpFastForward | OpStep | OpReset.

(** How one pass through the body of [while (true)] ends. *)
Inductive LoopCtl : Set := Continue | Return.

(** ** Configuration ([CWebviz::Init]) *)

(** The attributes of the [<webviz>] node that [Init] reads, each present or
    not. *)
Record TConfigurationNode : Set := mkNode {
  attr_port : option Z;
  attr_broadcast_frequency : option Z;
  attr_ff_draw_frames_every : option Z
}.

Definition GetNodeAttributeOrDefault (a : option Z) (d : Z) : Z := default d a.

Record InitResult : Set := mkInit {
  unPort : Z;
  unBroadcastFrequency : Z;
  init_unDrawFrameEvery : Z
}.

(** [Init] up to the creation of the web server: either the
    [CARGoSException] it throws or the three values it has read. *)
Definition Init (t_tree : TConfigurationNode) : string + InitResult :=
  let unPort := GetNodeAttributeOrDefault (attr_port t_tree) 3000 in
  let unBroadcastFrequency :=
    GetNodeAttributeOrDefault (attr_broadcast_frequency t_tree) 10 in
  if (unBroadcastFrequency <? 1) || (10 <? unBroadcastFrequency) then
    inl "Broadcast frequency set in configuration is out of range [1,1000]"%string
  else
    let unDrawFrameEvery :=
      GetNodeAttributeOrDefault (attr_ff_draw_frames_every t_tree) 2 in
    inr (mkInit unPort unBroadcastFrequency unDrawFrameEvery).

(** The character written for a backslash-n in the source's literals. *)
Definition newline : string := String (Ascii.ascii_of_nat 10) EmptyString.

(** ** The member functions *)

Section Machine.
Context {Real World Entity : Type} `{Sim : Simulator Real World Entity}.

Local Abbreviation webviz := (CWebviz Real World).
Local Abbreviation effect := (Effect Real).

Definition is_running (e : EExperimentState) : bool :=
  match e with
  | EXPERIMENT_PLAYING | EXPERIMENT_FAST_FORWARDING => true
  | _ => false
  end.

(** *** Field updates and recorded calls *)

Definition set_state (e : EExperimentState) (w : webviz) : webviz :=
  mkCWebviz e (m_bFastForwarding w) (m_cSimulatorTickMillis w)
            (m_unDrawFrameEvery w) (m_cSimulator w) (trace w).

Definition set_fast_forwarding (b : bool) (w : webviz) : webviz :=
  mkCWebviz (m_eExperimentState w) b (m_cSimulatorTickMillis w)
            (m_unDrawFrameEvery w) (m_cSimulator w) (trace w).

Definition set_tick_millis (d : Z) (w : webviz) : webviz :=
  mkCWebviz (m_eExperimentState w) (m_bFastForwarding w) d
            (m_unDrawFrameEvery w) (m_cSimulator w) (trace w).

Definition set_simulator (s : World) (w : webviz) : webviz :=
  mkCWebviz (m_eExperimentState w) (m_bFastForwarding w)
            (m_cSimulatorTickMillis w) (m_unDrawFrameEvery w) s (trace w).

(** Thread [t] does [e]: the trace grows at its end. *)
Definition emit (t : Thread) (e : effect) (w : webviz) : webviz :=
  mkCWebviz (m_eExperimentState w) (m_bFastForwarding w)
            (m_cSimulatorTickMillis w) (m_unDrawFrameEvery w)
            (m_cSimulator w) (trace w ++ [(t, e)]).

(** Thread [t] makes the call [e], which changes the world by [f]. *)
Definition call (t : Thread) (e : effect) (f : World -> World)
    (w : webviz) : webviz :=
  emit t e (set_simulator (f (m_cSimulator w)) w).

Definition finished (w : webviz) : bool :=
  IsExperimentFinished (m_cSimulator w).

(** The object after the constructor and [Init]: the tick length is not
    initialised by either, so its first value is whatever [tick0] is. *)
Definition constructed (unDrawFrameEvery tick0 : Z) (s : World) : webviz :=
  mkCWebviz EXPERIMENT_INITIALIZED false tick0 unDrawFrameEvery s [].

(** *** BroadcastExperimentState *)

(** One turn of the loop over the root entities, on the JSON under
    construction and the error lines written so far. *)
Definition entity_step (s : World)
    (acc : option (json Real) * list string) (e : Entity)
    : option (json Real) * list string :=
  let cEntityJSON := GenerateJSON s e in
  if negb (is_null cEntityJSON) then
    (acc.1 ≫= update_key "entities" (push_back cEntityJSON), acc.2)
  else
    (acc.1,
     acc.2 ++ ["[ERROR] Entity cannot be converted:"%string;
               GetTypeDescription e]).

Definition entities_loop (s : World) (vecEntities : list Entity)
    : option (json Real) * list string :=
  foldl (entity_step s) (Some JNull, []) vecEntities.

Definition set_vector (name : string) (v : CVector3 Real)
    (j : json Real) : option (json Real) :=
  j1 ← update_key "arena"
         (update_key name (update_key "x" (assign (JReal (GetX v))))) j;
  j2 ← update_key "arena"
         (update_key name (update_key "y" (assign (JReal (GetY v))))) j1;
  update_key "arena"
    (update_key name (update_key "z" (assign (JReal (GetZ v))))) j2.

(** The fields written after the entity loop. *)
Definition state_fields (s : World) (e : EExperimentState)
    (j : json Real) : option (json Real) :=
  j1 ← set_vector "size" (GetArenaSize s) j;
  j2 ← set_vector "center" (GetArenaCenter s) j1;
  j3 ← update_key "timestamp" (assign (JInt (SystemClockMillis s))) j2;
  j4 ← update_key "state" (assign (JStr (EExperimentStateToStr e))) j3;
  update_key "steps" (assign (JInt (GetSimulationClock s))) j4.

(** [cStateJson] as it is handed to [Broadcast]; [None] would be a
    [type_error] thrown on the way. *)
Definition build_state_json (s : World) (e : EExperimentState)
    : option (json Real) :=
  (entities_loop s (GetRootEntityVector s)).1 ≫= state_fields s e.

Definition entity_errors (s : World) : list string :=
  (entities_loop s (GetRootEntityVector s)).2.

Definition emit_all (t : Thread) (es : list effect) (w : webviz) : webviz :=
  foldl (fun w e => emit t e w) w es.

Definition BroadcastExperimentState (t : Thread) (w : webviz) : webviz :=
  let s := m_cSimulator w in
  let w := emit_all t (LogErr <$> entity_errors s) w in
  match build_state_json s (m_eExperimentState w) with
  | Some cStateJson => emit t (Broadcast cStateJson) w
  | None => w (* an uncaught type_error; see [build_state_json_total] *)
  end.

(** *** The five commands *)

Definition ResetExperiment (t : Thread) (w : webviz) : webviz :=
  let w := call t CallSimulatorReset SimulatorReset w in
  let w := set_fast_forwarding false w in
  let w := set_state EXPERIMENT_INITIALIZED w in
  let w := emit t (EmitEvent "Experiment reset" (m_eExperimentState w)) w in
  let w := BroadcastExperimentState t w in
  emit t (Log "[INFO] Experiment reset") w.

Definition PlayExperiment (t : Thread) (w : webviz) : webviz :=
  if negb (bool_decide (m_eExperimentState w = EXPERIMENT_INITIALIZED))
     && negb (bool_decide (m_eExperimentState w = EXPERIMENT_PAUSED)) then
    emit t (Log ("[WARNING] CWebviz::PlayExperiment() called in wrong state: "
                 +:+ EExperimentStateToStr (m_eExperimentState w))) w
  else
    let w := set_fast_forwarding false w in
    let w := set_tick_millis (SimulationClockTickMillis (m_cSimulator w)) w in
    let w := set_state EXPERIMENT_PLAYING w in
    let w := emit t (EmitEvent "Experiment playing" (m_eExperimentState w)) w in
    let w := emit t (Log "[INFO] Experiment playing") w in
    emit t TimerStart w.

Definition FastForwardExperiment (t : Thread) (w : webviz) : webviz :=
  let w :=
    if negb (bool_decide (m_eExperimentState w = EXPERIMENT_INITIALIZED))
       && negb (bool_decide (m_eExperimentState w = EXPERIMENT_PAUSED)) then
      emit t (Log ("[WARNING] CWebviz::FastForwardExperiment() called in wrong state:"
                   +:+ EExperimentStateToStr (m_eExperimentState w)
                   +:+ newline
                   +:+ "Running the experiment in FastForward mode")) w
    else w in
  let w := set_fast_forwarding true w in
  let w := set_tick_millis (SimulationClockTickMillis (m_cSimulator w)) w in
  let w := set_state EXPERIMENT_FAST_FORWARDING w in
  let w := emit t (EmitEvent "Experiment fast-forwarding"
                             (m_eExperimentState w)) w in
  let w := emit t (Log "[INFO] Experiment fast-forwarding") w in
  emit t TimerStart w.

Definition PauseExperiment (t : Thread) (w : webviz) : webviz * Outcome :=
  if negb (bool_decide (m_eExperimentState w = EXPERIMENT_PLAYING))
     && negb (bool_decide (m_eExperimentState w = EXPERIMENT_FAST_FORWARDING))
  then
    (emit t (Log ("[WARNING] CWebviz::PauseExperiment() called in wrong state: "
                  +:+ EExperimentStateToStr (m_eExperimentState w))) w,
     Thrown ("Cannot pause the experiment, current state : "
             +:+ EExperimentStateToStr (m_eExperimentState w)))
  else
    let w := set_fast_forwarding false w in
    let w := set_state EXPERIMENT_PAUSED w in
    let w := emit t (EmitEvent "Experiment paused" (m_eExperimentState w)) w in
    (emit t (Log "[INFO] Experiment paused") w, Returned).

Definition StepExperiment (t : Thread) (w : webviz) : webviz :=
  if bool_decide (m_eExperimentState w = EXPERIMENT_PLAYING)
     || bool_decide (m_eExperimentState w = EXPERIMENT_FAST_FORWARDING) then
    let w :=
      emit t (Log ("[WARNING] CWebviz::StepExperiment() called in wrong state: "
                   +:+ EExperimentStateToStr (m_eExperimentState w)
                   +:+ " pausing the experiment to run a step")) w in
    set_state EXPERIMENT_PAUSED w
  else
    let w := set_fast_forwarding false w in
    let w :=
      if negb (finished w) then
        let w := call t CallPreStep PreStep w in
        let w := call t CallUpdateSpace UpdateSpace w in
        let w := call t CallPostStep PostStep w in
        emit t (EmitEvent "Experiment step done" (m_eExperimentState w)) w
      else
        let w := call t CallPostExperiment PostExperiment w in
        let w := ResetExperiment t w in
        let w := emit t (EmitEvent "Experiment done" (m_eExperimentState w)) w in
        emit t (Log ("[INFO] Experiment done" +:+ newline)) w in
    BroadcastExperimentState t w.

Definition run_op (t : Thread) (op : ControlOp) (w : webviz)
    : webviz * Outcome :=
  match op with
  | OpPlay => (PlayExperiment t w, Returned)
  | OpPause => PauseExperiment t w
  | OpFastForward => (FastForwardExperiment t w, Returned)
  | OpStep => (StepExperiment t w, Returned)
  | OpReset => (ResetExperiment t w, Returned)
  end.

(** *** The simulation thread *)

(** Commands served by the web server's thread while the simulation
    thread is between two statements; an exception stays with the
    caller, the object keeps the state it had at the throw. *)
Definition interfere (ops : list ControlOp) (w : webviz) : webviz :=
  foldl (fun w op => (run_op ControlThread op w).1) w ops.

(** The stepping loop of lines 115-125.  [sched] gives, for each
    evaluation of the loop condition, the commands that arrive just
    before it.  The recursion is on [fuel]; [steps_loop] supplies
    enough of it. *)
Fixpoint steps_loop_fuel (fuel : nat) (sched : list (list ControlOp))
    (unFFStepCounter : Z) (w : webviz) : webviz * Z :=
  let w := interfere (default [] (head sched)) w in
  if (0 <? unFFStepCounter) && negb (finished w)
     && is_running (m_eExperimentState w) then
    match fuel with
    | O => (w, unFFStepCounter)
    | S fuel' =>
        steps_loop_fuel fuel' (tail sched) (unFFStepCounter - 1)
          (call SimulationThread CallUpdateSpace UpdateSpace w)
    end
  else (w, unFFStepCounter).

Definition steps_loop (sched : list (list ControlOp))
    (unFFStepCounter : Z) (w : webviz) : webviz * Z :=
  steps_loop_fuel (Z.to_nat unFFStepCounter) sched unFFStepCounter w.

(** Lines 103-131: pre-step, the steps, the broadcast, post-step, with
    commands served at the checks of the stepping loop only: the flag is
    read straight after the pre-step hook.  [step_and_broadcast_at] lets
    the other thread in before every statement. *)
Definition step_and_broadcast (sched : list (list ControlOp))
    (w : webviz) : webviz :=
  let w := call SimulationThread CallPreStep PreStep w in
  let unFFStepCounter :=
    if m_bFastForwarding w then m_unDrawFrameEvery w else 1 in
  let w := (steps_loop sched unFFStepCounter w).1 in
  let w := BroadcastExperimentState SimulationThread w in
  call SimulationThread CallPostStep PostStep w.

(** Lines 146-162: wait for the rest of the tick, or warn. *)
Definition pace (w : webviz) : webviz :=
  let w := emit SimulationThread TimerStop w in
  let elapsed := TimerElapsed (m_cSimulator w) in
  let w :=
    if elapsed <? m_cSimulatorTickMillis w then
      call SimulationThread (Sleep (m_cSimulatorTickMillis w - elapsed))
           (SleepFor (m_cSimulatorTickMillis w - elapsed)) w
    else
      emit SimulationThread
        (Log ("[WARNING] Clock tick took " +:+ pretty elapsed
              +:+ " milli-secs, more than the expected "
              +:+ pretty (m_cSimulatorTickMillis w) +:+ " milli-secs. "
              +:+ "Recovering in next cycle.")) w in
  emit SimulationThread TimerStart w.

(** One pass through the body of [while (true)]. *)
Definition loop_body (sched : list (list ControlOp)) (w : webviz)
    : webviz * LoopCtl :=
  if is_running (m_eExperimentState w) then
    if negb (finished w) then
      let w := step_and_broadcast sched w in
      if finished w then
        let w := call SimulationThread CallPostExperiment PostExperiment w in
        let w := ResetExperiment SimulationThread w in
        let w := emit SimulationThread
                   (EmitEvent "Experiment done" (m_eExperimentState w)) w in
        let w := emit SimulationThread
                   (Log ("[INFO] Experiment done" +:+ newline)) w in
        (w, Return)
      else
        (pace w, Continue)
    else
      let w := call SimulationThread CallPostExperiment PostExperiment w in
      let w := ResetExperiment SimulationThread w in
      let w := emit SimulationThread
                 (EmitEvent "Experiment done" (m_eExperimentState w)) w in
      let w := emit SimulationThread
                 (Log ("[INFO] Experiment done" +:+ newline)) w in
      (w, Continue)
  else
    let w := BroadcastExperimentState SimulationThread w in
    (call SimulationThread (Sleep 250) (SleepFor 250) w, Continue).

(** [SimulationThreadFunction], for at most as many passes as there are
    schedules in [scheds]: the state it has reached and whether it has
    returned. *)
Fixpoint SimulationThreadFunction (scheds : list (list (list ControlOp)))
    (w : webviz) : webviz * LoopCtl :=
  match scheds with
  | [] => (w, Continue)
  | sched :: scheds' =>
      match loop_body sched w with
      | (w', Return) => (w', Return)
      | (w', Continue) => SimulationThreadFunction scheds' w'
      end
  end.

(** *** Reading traces *)

(** The effects of thread [t], in order. *)
Definition effects_of (t : Thread) (tr : list (Thread * effect))
    : list effect :=
  (filter (fun p => p.1 = t) tr).*2.

Definition is_update_space (e : effect) : bool :=
  match e with CallUpdateSpace => true | _ => false end.

Definition is_pre_step (e : effect) : bool :=
  match e with CallPreStep => true | _ => false end.

Definition is_post_step (e : effect) : bool :=
  match e with CallPostStep => true | _ => false end.

Definition is_broadcast (e : effect) : bool :=
  match e with Broadcast _ => true | _ => false end.

Definition is_event (e : effect) : bool :=
  match e with EmitEvent _ _ => true | _ => false end.

Definition is_event_named (name : string) (e : effect) : bool :=
  match e with
  | EmitEvent n _ => bool_decide (n = name)
  | _ => false
  end.

Definition count (p : effect -> bool) (es : list effect) : nat :=
  length (filter (fun e => p e = true) es).

End Machine.

(** ** A small simulator to run the functions on *)

(** A world that counts its steps up to a limit; an entity is a type name
    and whether a JSON operation is registered for it. *)
Record ToyWorld : Set := mkToy {
  toy_clock : Z;
  toy_limit : Z;
  toy_entities : list (string * bool)
}.

Definition toy_state_str (e : EExperimentState) : string :=
  match e with
  | EXPERIMENT_INITIALIZED => "EXPERIMENT_INITIALIZED"
  | EXPERIMENT_PLAYING => "EXPERIMENT_PLAYING"
  | EXPERIMENT_PAUSED => "EXPERIMENT_PAUSED"
  | EXPERIMENT_FAST_FORWARDING => "EXPERIMENT_FAST_FORWARDING"
  end.

#[global] Instance ToySim : Simulator Z ToyWorld (string * bool) := {
  IsExperimentFinished s := toy_limit s <=? toy_clock s;
  UpdateSpace s := mkToy (toy_clock s + 1) (toy_limit s) (toy_entities s);
  SimulatorReset s := mkToy 0 (toy_limit s) (toy_entities s);
  PreStep s := s;
  PostStep s := s;
  PostExperiment s := s;
  SimulationClockTickMillis _ := 100;
  GetRootEntityVector := toy_entities;
  GetArenaSize _ := mkCVector3 10 10 2;
  GetArenaCenter _ := mkCVector3 0 0 1;
  GetSimulationClock := toy_clock;
  GenerateJSON _ e := if e.2 then JObj {[ "type"%string := JStr e.1 ]} else JNull;
  GetTypeDescription e := e.1;
  SystemClockMillis s := 1000 * toy_clock s;
  TimerElapsed _ := 0;
  SleepFor _ s := s;
  EExperimentStateToStr := toy_state_str
}.

Definition toy (limit : Z) (entities : list (string * bool))
    : CWebviz Z ToyWorld :=
  constructed 2 0 (mkToy 0 limit entities).

Definition toy_playing (limit : Z) : CWebviz Z ToyWorld :=
  PlayExperiment ControlThread (toy limit []).

Definition toy_fast_forwarding (limit : Z) : CWebviz Z ToyWorld :=
  FastForwardExperiment ControlThread (toy limit []).

(** A world whose experiment is never finished. *)
Record EndlessWorld : Set := mkEndless {
  endless_clock : Z
}.

Definition EndlessSim : Simulator Z EndlessWorld (string * bool) := {|
  IsExperimentFinished _ := false;
  UpdateSpace s := mkEndless (endless_clock s + 1);
  SimulatorReset _ := mkEndless 0;
  PreStep s := s;
  PostStep s := s;
  PostExperiment s := s;
  SimulationClockTickMillis _ := 100;
  GetRootEntityVector _ := [];
  GetArenaSize _ := mkCVector3 10 10 2;
  GetArenaCenter _ := mkCVector3 0 0 1;
  GetSimulationClock := endless_clock;
  GenerateJSON _ _ := JNull;
  GetTypeDescription e := e.1;
  SystemClockMillis s := 1000 * endless_clock s;
  TimerElapsed _ := 150;
  SleepFor _ s := s;
  EExperimentStateToStr := toy_state_str
|}.

Definition endless_playing : CWebviz Z EndlessWorld :=
  PlayExperiment (Sim := EndlessSim) ControlThread
    (constructed 2 0 (mkEndless 0)).

(** ** What a broadcast is expected to contain *)

Section Expected.
Context {Real World Entity : Type} `{Sim : Simulator Real World Entity}.

(** The conversions that did not come back null, in entity order. *)
Definition converted (s : World) : list (json Real) :=
  filter (fun j => is_null j = false) (GenerateJSON s <$> GetRootEntityVector s).

(** The two lines written to LOGERR for each entity that came back null. *)
Definition failure_lines (s : World) : list string :=
  e ← GetRootEntityVector s;
  if is_null (GenerateJSON s e)
  then ["[ERROR] Entity cannot be converted:"%string; GetTypeDescription e]
  else [].

Definition vector_json (v : CVector3 Real) : json Real :=
  JObj (<["z" := JReal (GetZ v)]> (<["y" := JReal (GetY v)]>
         {[ "x"%string := JReal (GetX v) ]})).

(** The JSON under construction after the entity loop has pushed [l]. *)
Definition entities_json (l : list (json Real)) : json Real :=
  match l with
  | [] => JNull
  | _ => JObj {[ "entities"%string := JArr l ]}
  end.

End Expected.

(** ** Properties of states and traces *)

Section Properties.
Context {Real World Entity : Type} `{Sim : Simulator Real World Entity}.

Local Abbreviation webviz := (CWebviz Real World).
Local Abbreviation effect := (Effect Real).

(** The effects [es], all made by thread [t]. *)
Definition by_thread (t : Thread) (es : list effect)
    : list (Thread * effect) :=
  pair t <$> es.

(** What thread [t] has done between state [w] and the later state [w']. *)
Definition effects_since (t : Thread) (w w' : webviz) : list effect :=
  drop (length (effects_of t (trace w))) (effects_of t (trace w')).

(** The flag says fast-forward exactly when the state does. *)
Definition flag_matches_state (w : webviz) : Prop :=
  m_bFastForwarding w
  = bool_decide (m_eExperimentState w = EXPERIMENT_FAST_FORWARDING).

(** The part of that relation the simulation thread relies on: while the
    experiment runs, the flag tells playing from fast-forwarding. *)
Definition flag_right_while_running (w : webviz) : Prop :=
  is_running (m_eExperimentState w) = true -> flag_matches_state w.

(** States the object can be in when neither thread is inside a call:
    after construction, after a whole command from the web server, after
    a whole pass of the simulation thread's loop in which commands are
    served at the checks of the stepping loop only.  The states in which
    a command comes in between two other statements of a pass, or between
    the two stores of another command, are not among these; [loop_body_at]
    is the pass with those. *)
Inductive reachable : webviz -> Prop :=
| reach_constructed (unDrawFrameEvery tick0 : Z) (s : World) :
    reachable (constructed unDrawFrameEvery tick0 s)
| reach_command (op : ControlOp) (w : webviz) :
    reachable w -> reachable (run_op ControlThread op w).1
| reach_loop (sched : list (list ControlOp)) (w : webviz) :
    reachable w -> reachable (loop_body sched w).1.

(** What [ResetExperiment] does, given the LOGERR lines and the snapshot of
    its broadcast. *)
Definition reset_effects (lines : list string) (j : json Real)
    : list effect :=
  [CallSimulatorReset; EmitEvent "Experiment reset" EXPERIMENT_INITIALIZED]
  ++ (LogErr <$> lines)
  ++ [Broadcast j; Log "[INFO] Experiment reset"].

(** What the block run at the end of an experiment does. *)
Definition done_effects (lines : list string) (j : json Real)
    : list effect :=
  CallPostExperiment :: reset_effects lines j
  ++ [EmitEvent "Experiment done" EXPERIMENT_INITIALIZED;
      Log ("[INFO] Experiment done" +:+ newline)].

(** Every "Experiment done" in [es] carries the initialized state and comes
    straight after the effects of a reset whose snapshot shows that state. *)
Definition done_after_reset (es : list effect) : Prop :=
  forall pre st post,
    es = pre ++ EmitEvent "Experiment done" st :: post ->
    st = EXPERIMENT_INITIALIZED /\
    exists pre' lines j,
      pre = pre' ++ CallPostExperiment :: reset_effects lines j /\
      get "state" j
      = Some (JStr (EExperimentStateToStr EXPERIMENT_INITIALIZED)).

(** No "Experiment done" among [es]. *)
Definition no_done (es : list effect) : Prop :=
  Forall (fun e => is_event_named "Experiment done" e = false) es.

(** From [w] to [w'] the trace has only grown: the simulation thread has
    added [ses] and the web server's thread [ces], interleaved in some
    way. *)
Definition grows (w w' : webviz) (ses ces : list effect) : Prop :=
  exists tr,
    trace w' = trace w ++ tr /\
    effects_of SimulationThread tr = ses /\
    effects_of ControlThread tr = ces.

(** One pass of the loop, entered fast-forwarding with the experiment not
    finished, makes at most [m_unDrawFrameEvery] engine steps and exactly
    one broadcast. *)
Definition one_broadcast_per_pass (sched : list (list ControlOp))
    (w : webviz) : Prop :=
  m_eExperimentState w = EXPERIMENT_FAST_FORWARDING ->
  finished w = false ->
  let es := effects_since SimulationThread w (loop_body sched w).1 in
  (count is_update_space es <= Z.to_nat (m_unDrawFrameEvery w))%nat /\
  count is_broadcast es = 1%nat.

(** The snapshot [j] is the one built from world [s] in state [e]. *)
Definition snapshot_of (s : World) (e : EExperimentState) (j : json Real)
    : Prop :=
  build_state_json s e = Some j.

End Properties.

(** ** JSON lemmas *)

(** ** Further properties of states and traces *)

Section MoreProperties.
Context {Real World Entity : Type} `{Sim : Simulator Real World Entity}.

Local Abbreviation webviz := (CWebviz Real World).
Local Abbreviation effect := (Effect Real).

Definition is_sleep (e : effect) : bool :=
  match e with Sleep _ => true | _ => false end.

Definition is_log (e : effect) : bool :=
  match e with Log _ => true | _ => false end.

Definition is_post_experiment (e : effect) : bool :=
  match e with CallPostExperiment => true | _ => false end.

(** The calls that make up an engine step with its two hooks. *)
Definition is_step_call (e : effect) : bool :=
  match e with
  | CallPreStep | CallUpdateSpace | CallPostStep => true
  | _ => false
  end.


(** The number of entries of the "entities" array of a snapshot, none when
    the key is missing. *)
Definition entities_in (j : json Real) : nat :=
  match get "entities" j with
  | Some (JArr l) => length l
  | _ => O
  end.

(** What the simulation thread does up to the post-step hook, given the
    number of steps, the LOGERR lines and the snapshot. *)
Definition stepping_effects (k : nat) (lines : list string) (j : json Real)
    : list effect :=
  [CallPreStep] ++ replicate k CallUpdateSpace
  ++ (LogErr <$> lines) ++ [Broadcast j; CallPostStep].

(** What [pace] does after [w]. *)
Definition pace_effects (w : webviz) : list effect :=
  let elapsed := TimerElapsed (m_cSimulator w) in
  let tick := m_cSimulatorTickMillis w in
  [TimerStop;
   if elapsed <? tick then Sleep (tick - elapsed)
   else Log ("[WARNING] Clock tick took " +:+ pretty elapsed
             +:+ " milli-secs, more than the expected "
             +:+ pretty tick +:+ " milli-secs. "
             +:+ "Recovering in next cycle.");
   TimerStart].

End MoreProperties.

(** ** Commands served inside a pass *)

(** What the web server's thread can have done to the object by the time
    the simulation thread reaches its next statement.  [Served] is a
    number of whole commands.  [Torn] is anything parts of commands can
    add up to: state, flag and tick length overwritten or not, the world
    changed, effects of that thread recorded; [m_unDrawFrameEvery] is out
    of its reach, no command writes it. *)
Inductive Interference (Real World : Type) : Type :=
| Served (ops : list ControlOp)
| Torn (st : option EExperimentState) (fl : option bool) (tick : option Z)
       (f : World -> World) (ces : list (Effect Real)).

Arguments Served {Real World} ops.
Arguments Torn {Real World} st fl tick f ces.

(** The places inside [ResetExperiment] where the other thread can come
    in, each named after the statement that follows it. *)
Record ResetSchedule (Real World : Type) : Type := mkResetSchedule {
  before_engine_reset : Interference Real World;
  before_flag_store : Interference Real World;
  before_state_store : Interference Real World;
  before_reset_emit : Interference Real World;
  before_reset_broadcast : Interference Real World;
  before_reset_log : Interference Real World
}.
Arguments mkResetSchedule {Real World}.
Arguments before_engine_reset {Real World}.
Arguments before_flag_store {Real World}.
Arguments before_state_store {Real World}.
Arguments before_reset_emit {Real World}.
Arguments before_reset_broadcast {Real World}.
Arguments before_reset_log {Real World}.

(** The same for the block that ends an experiment. *)
Record DoneSchedule (Real World : Type) : Type := mkDoneSchedule {
  before_post_experiment : Interference Real World;
  in_reset : ResetSchedule Real World;
  before_done_emit : Interference Real World;
  before_done_log : Interference Real World
}.
Arguments mkDoneSchedule {Real World}.
Arguments before_post_experiment {Real World}.
Arguments in_reset {Real World}.
Arguments before_done_emit {Real World}.
Arguments before_done_log {Real World}.

(** The same for one pass of the loop.  [in_steps] gives, for each turn of
    the stepping loop, what comes in before its condition is evaluated and
    what comes in between the condition and the engine step.  A condition
    is evaluated on one object: what the other thread does between two
    reads of one condition is a [Torn] before it, showing each read what
    it saw, and another after it. *)
Record PassSchedule (Real World : Type) : Type := mkPassSchedule {
  before_state_check : Interference Real World;
  before_finished_check : Interference Real World;
  before_pre_step : Interference Real World;
  before_flag_read : Interference Real World;
  in_steps : list (Interference Real World * Interference Real World);
  before_broadcast : Interference Real World;
  before_post_step : Interference Real World;
  before_finished_recheck : Interference Real World;
  in_done : DoneSchedule Real World;
  before_pace : Interference Real World;
  before_idle_broadcast : Interference Real World;
  before_idle_sleep : Interference Real World
}.
Arguments mkPassSchedule {Real World}.
Arguments before_state_check {Real World}.
Arguments before_finished_check {Real World}.
Arguments before_pre_step {Real World}.
Arguments before_flag_read {Real World}.
Arguments in_steps {Real World}.
Arguments before_broadcast {Real World}.
Arguments before_post_step {Real World}.
Arguments before_finished_recheck {Real World}.
Arguments in_done {Real World}.
Arguments before_pace {Real World}.
Arguments before_idle_broadcast {Real World}.
Arguments before_idle_sleep {Real World}.

Section Scheduling.
Context {Real World Entity : Type} `{Sim : Simulator Real World Entity}.

Local Abbreviation webviz := (CWebviz Real World).
Local Abbreviation effect := (Effect Real).
Local Abbreviation interference := (Interference Real World).

(** Nothing comes in. *)
Definition idle : interference := Served [].

Definition interfered (i : interference) (w : webviz) : webviz :=
  match i with
  | Served ops => interfere ops w
  | Torn st fl tick f ces =>
      mkCWebviz (default (m_eExperimentState w) st)
                (default (m_bFastForwarding w) fl)
                (default (m_cSimulatorTickMillis w) tick)
                (m_unDrawFrameEvery w)
                (f (m_cSimulator w))
                (trace w ++ by_thread ControlThread ces)
  end.

(** The interference leaves [m_eExperimentState] as it finds it. *)
Definition keeps_state (i : interference) : Prop :=
  forall w, m_eExperimentState (interfered i w) = m_eExperimentState w.

(** [ResetExperiment] as the simulation thread runs it, statement by
    statement, with the other thread coming in as [sch] says. *)
Definition ResetExperiment_at (sch : ResetSchedule Real World) (w : webviz)
    : webviz :=
  let w := interfered (before_engine_reset sch) w in
  let w := call SimulationThread CallSimulatorReset SimulatorReset w in
  let w := interfered (before_flag_store sch) w in
  let w := set_fast_forwarding false w in
  let w := interfered (before_state_store sch) w in
  let w := set_state EXPERIMENT_INITIALIZED w in
  let w := interfered (before_reset_emit sch) w in
  let w := emit SimulationThread
             (EmitEvent "Experiment reset" (m_eExperimentState w)) w in
  let w := interfered (before_reset_broadcast sch) w in
  let w := BroadcastExperimentState SimulationThread w in
  let w := interfered (before_reset_log sch) w in
  emit SimulationThread (Log "[INFO] Experiment reset") w.

(** The block of lines 136-142 and 165-171. *)
Definition experiment_done_at (sch : DoneSchedule Real World) (w : webviz)
    : webviz :=
  let w := interfered (before_post_experiment sch) w in
  let w := call SimulationThread CallPostExperiment PostExperiment w in
  let w := ResetExperiment_at (in_reset sch) w in
  let w := interfered (before_done_emit sch) w in
  let w := emit SimulationThread
             (EmitEvent "Experiment done" (m_eExperimentState w)) w in
  let w := interfered (before_done_log sch) w in
  emit SimulationThread (Log ("[INFO] Experiment done" +:+ newline)) w.

(** The stepping loop of lines 115-125. *)
Fixpoint steps_loop_at (fuel : nat)
    (sch : list (interference * interference))
    (unFFStepCounter : Z) (w : webviz) : webviz * Z :=
  let w := interfered (default idle (fst <$> head sch)) w in
  if (0 <? unFFStepCounter) && negb (finished w)
     && is_running (m_eExperimentState w) then
    match fuel with
    | O => (w, unFFStepCounter)
    | S fuel' =>
        let w := interfered (default idle (snd <$> head sch)) w in
        steps_loop_at fuel' (tail sch) (unFFStepCounter - 1)
          (call SimulationThread CallUpdateSpace UpdateSpace w)
    end
  else (w, unFFStepCounter).

(** The object when the simulation thread reads the flag at line 106. *)
Definition at_flag_read (sch : PassSchedule Real World) (w : webviz)
    : webviz :=
  let w := interfered (before_pre_step sch) w in
  let w := call SimulationThread CallPreStep PreStep w in
  interfered (before_flag_read sch) w.

(** The counter as line 108 or 111 sets it. *)
Definition counter_at (w : webviz) : Z :=
  if m_bFastForwarding w then m_unDrawFrameEvery w else 1.

(** Lines 103-131. *)
Definition step_and_broadcast_at (sch : PassSchedule Real World)
    (w : webviz) : webviz :=
  let w := at_flag_read sch w in
  let unFFStepCounter := counter_at w in
  let w := (steps_loop_at (Z.to_nat unFFStepCounter) (in_steps sch)
              unFFStepCounter w).1 in
  let w := interfered (before_broadcast sch) w in
  let w := BroadcastExperimentState SimulationThread w in
  let w := interfered (before_post_step sch) w in
  call SimulationThread CallPostStep PostStep w.

(** One pass through the body of [while (true)]. *)
Definition loop_body_at (sch : PassSchedule Real World) (w : webviz)
    : webviz * LoopCtl :=
  let w := interfered (before_state_check sch) w in
  if is_running (m_eExperimentState w) then
    let w := interfered (before_finished_check sch) w in
    if negb (finished w) then
      let w := step_and_broadcast_at sch w in
      let w := interfered (before_finished_recheck sch) w in
      if finished w then
        (experiment_done_at (in_done sch) w, Return)
      else
        (pace (interfered (before_pace sch) w), Continue)
    else
      (experiment_done_at (in_done sch) w, Continue)
  else
    let w := interfered (before_idle_broadcast sch) w in
    let w := BroadcastExperimentState SimulationThread w in
    let w := interfered (before_idle_sleep sch) w in
    (call SimulationThread (Sleep 250) (SleepFor 250) w, Continue).

Fixpoint SimulationThreadFunction_at (scheds : list (PassSchedule Real World))
    (w : webviz) : webviz * LoopCtl :=
  match scheds with
  | [] => (w, Continue)
  | sch :: scheds' =>
      match loop_body_at sch w with
      | (w', Return) => (w', Return)
      | (w', Continue) => SimulationThreadFunction_at scheds' w'
      end
  end.

(** The schedules in which the other thread comes in only where
    [loop_body] lets it, with whole commands. *)
Definition quiet_reset : ResetSchedule Real World :=
  mkResetSchedule idle idle idle idle idle idle.

Definition quiet_done : DoneSchedule Real World :=
  mkDoneSchedule idle quiet_reset idle idle.

Definition at_checks_only (sched : list (list ControlOp))
    : PassSchedule Real World :=
  mkPassSchedule idle idle idle idle
    ((fun ops => (Served ops, idle)) <$> sched)
    idle idle idle quiet_done idle idle idle.

(** What [ResetExperiment] and the block that ends an experiment add to the
    simulation thread's effects, whatever states the two events carry. *)
Definition reset_shape (st : EExperimentState) (lines : list string)
    (j : json Real) : list effect :=
  [CallSimulatorReset; EmitEvent "Experiment reset" st]
  ++ (LogErr <$> lines)
  ++ [Broadcast j; Log "[INFO] Experiment reset"].

Definition done_shape (st1 : EExperimentState) (lines : list string)
    (j : json Real) (st2 : EExperimentState) : list effect :=
  CallPostExperiment :: reset_shape st1 lines j
  ++ [EmitEvent "Experiment done" st2;
      Log ("[INFO] Experiment done" +:+ newline)].

(** Every "Experiment done" in [es] comes straight after the effects of a
    reset, itself after the post-experiment hook. *)
Definition done_follows_reset (es : list effect) : Prop :=
  forall pre st post,
    es = pre ++ EmitEvent "Experiment done" st :: post ->
    exists pre' st1 lines j,
      pre = pre' ++ CallPostExperiment :: reset_shape st1 lines j.

(** Every "Experiment done" in [es] carries the initialized state. *)
Definition done_initialized (es : list effect) : bool :=
  forallb (fun e =>
             match e with
             | EmitEvent name st =>
                 if bool_decide (name = "Experiment done"%string)
                 then bool_decide (st = EXPERIMENT_INITIALIZED)
                 else true
             | _ => true
             end) es.

(** From [w] to [w'] the simulation thread has added [ses], the other
    thread whatever it has, and [m_unDrawFrameEvery] is as it was. *)
Definition sim_adds (w w' : webviz) (ses : list effect) : Prop :=
  m_unDrawFrameEvery w' = m_unDrawFrameEvery w /\
  exists ces, grows w w' ses ces.

(** A pass entered fast-forwarding with the experiment not finished makes
    at most [m_unDrawFrameEvery] engine steps. *)
Definition at_most_frames (sch : PassSchedule Real World) (w : webviz)
    : Prop :=
  let wa := interfered (before_state_check sch) w in
  let wb := interfered (before_finished_check sch) wa in
  m_eExperimentState wa = EXPERIMENT_FAST_FORWARDING ->
  finished wb = false ->
  (count is_update_space
     (effects_since SimulationThread w (loop_body_at sch w).1)
   <= Z.to_nat (m_unDrawFrameEvery w))%nat.

End Scheduling.

(** ** Schedules on the small simulator *)

(** Fast-forwarding with no frame per burst. *)
Definition toy_no_frames : CWebviz Z ToyWorld :=
  FastForwardExperiment ControlThread (constructed 0 0 (mkToy 0 3 [])).

(** A pause and a play are served between the pre-step hook and the read
    of the flag. *)
Definition pause_play_before_flag_read : PassSchedule Z ToyWorld :=
  mkPassSchedule idle idle idle (Served [OpPause; OpPlay]) []
    idle idle idle quiet_done idle idle idle.

(** A play is served between the reset and the emit of "Experiment
    done". *)
Definition play_before_done_emit : PassSchedule Z ToyWorld :=
  mkPassSchedule idle idle idle idle [] idle idle idle
    (mkDoneSchedule idle quiet_reset (Served [OpPlay]) idle)
    idle idle idle.

Ltac json_simpl :=
  repeat (progress cbn [members from_option id mbind option_bind objectish]
          || rewrite lookup_insert_eq || rewrite insert_insert_eq).

Section JsonFacts.
Context {Real World Entity : Type} `{Sim : Simulator Real World Entity}.

Lemma push_entity (c : json Real) (l : list (json Real)) :
  update_key "entities" (push_back c) (entities_json l)
  = Some (entities_json (l ++ [c])).
Proof.
  destruct l as [|a l]; simpl.
  - reflexivity.
  - rewrite lookup_singleton_eq. simpl. by rewrite insert_singleton_eq.
Qed.

Lemma entities_loop_from (s : World) (ents : list Entity)
    (l : list (json Real)) (errs : list string) :
  foldl (entity_step s) (Some (entities_json l), errs) ents
  = (Some (entities_json
             (l ++ filter (fun j => is_null j = false) (GenerateJSON s <$> ents))),
     errs ++ (e ← ents;
              if is_null (GenerateJSON s e)
              then ["[ERROR] Entity cannot be converted:"%string;
                    GetTypeDescription e]
              else [])).
Proof.
  revert l errs. induction ents as [|e ents IH]; intros l errs.
  - simpl. by rewrite !app_nil_r.
  - cbn [foldl fmap list_fmap]. unfold entity_step at 2. cbn [fst snd].
    destruct (is_null (GenerateJSON s e)) eqn:Hnull; cbn [negb].
    + rewrite IH. rewrite filter_cons_False by congruence.
      cbn [mbind list_bind]. rewrite Hnull. by rewrite <- app_assoc.
    + cbn [mbind option_bind]. rewrite push_entity, IH.
      rewrite filter_cons_True by done.
      cbn [mbind list_bind]. rewrite Hnull. simpl.
      by rewrite <- app_assoc.
Qed.

Lemma entities_loop_eq (s : World) :
  entities_loop s (GetRootEntityVector s)
  = (Some (entities_json (converted s)), failure_lines s).
Proof.
  unfold entities_loop. change (@JNull Real) with (@entities_json Real []).
  by rewrite entities_loop_from.
Qed.


Lemma update_key_spec (key : string) (f : json Real -> option (json Real))
    (j v : json Real) :
  objectish j = true ->
  f (default JNull (members j !! key)) = Some v ->
  update_key key f j = Some (JObj (<[key := v]> (members j))).
Proof.
  destruct j as [| | | | |m]; try discriminate; intros _; simpl.
  - rewrite lookup_empty. simpl. intros ->. simpl. by rewrite insert_empty.
  - intros ->. reflexivity.
Qed.

(** [j["arena"][name][c] = r]. *)
Lemma update_component (name c : string) (r : json Real) (j : json Real) :
  let A := default JNull (members j !! "arena") in
  let V := default JNull (members A !! name) in
  objectish j = true -> objectish A = true -> objectish V = true ->
  update_key "arena" (update_key name (update_key c (assign r))) j
  = Some (JObj (<["arena" :=
                   JObj (<[name := JObj (<[c := r]> (members V))]> (members A))]>
                  (members j))).
Proof.
  intros A V Hj HA HV.
  apply update_key_spec; [done|].
  apply update_key_spec; [done|].
  apply update_key_spec; [done|].
  reflexivity.
Qed.

Lemma set_vector_spec (name : string) (v : CVector3 Real) (j : json Real) :
  objectish j = true ->
  objectish (default JNull (members j !! "arena")) = true ->
  members (default JNull (members j !! "arena")) !! name = None ->
  set_vector name v j
  = Some (JObj (<["arena" :=
                   JObj (<[name := vector_json v]>
                           (members (default JNull (members j !! "arena"))))]>
                  (members j))).
Proof.
  intros Hj Ha Hn. unfold set_vector.
  rewrite update_component; [|done|done|by rewrite Hn].
  rewrite Hn. json_simpl.
  rewrite update_component; [|by json_simpl..].
  json_simpl.
  rewrite update_component; [|by json_simpl..].
  json_simpl. rewrite insert_empty. reflexivity.
Qed.

Lemma state_fields_spec (s : World) (e : EExperimentState) (l : list (json Real)) :
  exists m, state_fields s e (entities_json l) = Some (JObj m)
   /\ m !! "entities" = (match l with [] => None | _ => Some (JArr l) end)
   /\ m !! "arena" = Some (JObj (<["center" := vector_json (GetArenaCenter s)]>
                                {[ "size"%string := vector_json (GetArenaSize s) ]}))
   /\ m !! "timestamp" = Some (JInt (SystemClockMillis s))
   /\ m !! "state" = Some (JStr (EExperimentStateToStr e))
   /\ m !! "steps" = Some (JInt (GetSimulationClock s)).
Proof.
  assert (Hobj : objectish (entities_json l) = true) by by destruct l.
  assert (Har : members (entities_json l) !! "arena" = None).
  { destruct l; simpl; [done|]. by rewrite lookup_singleton_ne. }
  unfold state_fields.
  rewrite set_vector_spec; [|done|by rewrite Har|by rewrite Har].
  rewrite Har. json_simpl.
  rewrite set_vector_spec; [|by json_simpl|by json_simpl|].
  2:{ json_simpl. by rewrite lookup_insert_ne. }
  json_simpl.
  rewrite (update_key_spec "timestamp" _ _ (JInt (SystemClockMillis s)));
    [|done|done].
  json_simpl.
  rewrite (update_key_spec "state" _ _ (JStr (EExperimentStateToStr e)));
    [|done|done].
  json_simpl.
  rewrite (update_key_spec "steps" _ _ (JInt (GetSimulationClock s)));
    [|done|done].
  json_simpl. eexists. split; [reflexivity|].
  repeat split.
  - rewrite !lookup_insert_ne by done.
    destruct l; simpl; [done|]. by rewrite lookup_singleton_eq.
  - rewrite !lookup_insert_ne by done. rewrite lookup_insert_eq.
    by rewrite insert_empty.
  - rewrite !lookup_insert_ne by done. by rewrite lookup_insert_eq.
  - rewrite !lookup_insert_ne by done. by rewrite lookup_insert_eq.
  - by rewrite lookup_insert_eq.
Qed.


End JsonFacts.

(** ** The broadcast and the reset *)

Section BroadcastFacts.
Context {Real World Entity : Type} `{Sim : Simulator Real World Entity}.

Local Abbreviation webviz := (CWebviz Real World).
Local Abbreviation effect := (Effect Real).

Lemma build_state_json_spec (s : World) (e : EExperimentState) :
  exists m,
    build_state_json s e = Some (JObj m)
    /\ m !! "entities"
       = (match converted s with [] => None | l => Some (JArr l) end)
    /\ m !! "arena"
       = Some (JObj (<["center" := vector_json (GetArenaCenter s)]>
                       {[ "size"%string := vector_json (GetArenaSize s) ]}))
    /\ m !! "timestamp" = Some (JInt (SystemClockMillis s))
    /\ m !! "state" = Some (JStr (EExperimentStateToStr e))
    /\ m !! "steps" = Some (JInt (GetSimulationClock s)).
Proof.
  unfold build_state_json. rewrite entities_loop_eq. cbn [fst mbind option_bind].
  destruct (state_fields_spec s e (converted s)) as (m & Hm & He & Hrest).
  exists m. split; [done|]. split; [|done].
  rewrite He. by destruct (converted s).
Qed.

(** No [type_error] is ever thrown while the snapshot is built. *)
Lemma build_state_json_total (s : World) (e : EExperimentState) :
  exists j, snapshot_of s e j.
Proof.
  destruct (build_state_json_spec s e) as (m & Hm & _). by exists (JObj m).
Qed.

Lemma snapshot_state (s : World) (e : EExperimentState) (j : json Real) :
  snapshot_of s e j -> get "state" j = Some (JStr (EExperimentStateToStr e)).
Proof.
  unfold snapshot_of. intros Hj.
  destruct (build_state_json_spec s e) as (m & Hm & _ & _ & _ & Hst & _).
  rewrite Hm in Hj. by injection Hj as <-.
Qed.

Lemma emit_all_eq (t : Thread) (es : list effect) (w : webviz) :
  emit_all t es w
  = mkCWebviz (m_eExperimentState w) (m_bFastForwarding w)
              (m_cSimulatorTickMillis w) (m_unDrawFrameEvery w)
              (m_cSimulator w) (trace w ++ by_thread t es).
Proof.
  unfold emit_all, by_thread. revert w.
  induction es as [|e es IH]; intros w; simpl.
  - rewrite app_nil_r. by destruct w.
  - rewrite IH. simpl. by rewrite <- app_assoc.
Qed.

Lemma BroadcastExperimentState_eq (t : Thread) (w : webviz) :
  exists j,
    snapshot_of (m_cSimulator w) (m_eExperimentState w) j /\
    BroadcastExperimentState t w
    = mkCWebviz (m_eExperimentState w) (m_bFastForwarding w)
                (m_cSimulatorTickMillis w) (m_unDrawFrameEvery w)
                (m_cSimulator w)
                (trace w ++ by_thread t
                   ((LogErr <$> failure_lines (m_cSimulator w)) ++ [Broadcast j])).
Proof.
  destruct (build_state_json_total (m_cSimulator w) (m_eExperimentState w))
    as [j Hj].
  exists j. split; [done|].
  unfold BroadcastExperimentState, entity_errors.
  rewrite entities_loop_eq. cbn [snd]. rewrite emit_all_eq. cbn.
  unfold snapshot_of in Hj. rewrite Hj. unfold emit, by_thread. cbn.
  by rewrite fmap_app, <- app_assoc.
Qed.

Lemma ResetExperiment_eq (t : Thread) (w : webviz) :
  exists j,
    snapshot_of (SimulatorReset (m_cSimulator w)) EXPERIMENT_INITIALIZED j /\
    ResetExperiment t w
    = mkCWebviz EXPERIMENT_INITIALIZED false
                (m_cSimulatorTickMillis w) (m_unDrawFrameEvery w)
                (SimulatorReset (m_cSimulator w))
                (trace w ++ by_thread t
                   (reset_effects
                      (failure_lines (SimulatorReset (m_cSimulator w))) j)).
Proof.
  unfold ResetExperiment.
  set (w1 := emit t _ (set_state _ _)).
  destruct (BroadcastExperimentState_eq t w1) as (j & Hj & ->).
  exists j. split; [exact Hj|].
  unfold emit, reset_effects, by_thread. cbn.
  rewrite !fmap_app. cbn. rewrite <- !app_assoc. reflexivity.
Qed.

End BroadcastFacts.

(** ** The five commands *)

Ltac decide_states :=
  repeat first [ rewrite bool_decide_eq_true_2 by done
               | rewrite bool_decide_eq_false_2 by done ].

Section CommandFacts.
Context {Real World Entity : Type} `{Sim : Simulator Real World Entity}.

Local Abbreviation webviz := (CWebviz Real World).
Local Abbreviation effect := (Effect Real).

Lemma PlayExperiment_eq (t : Thread) (w : webviz) :
  PlayExperiment t w
  = match m_eExperimentState w with
    | EXPERIMENT_INITIALIZED | EXPERIMENT_PAUSED =>
        mkCWebviz EXPERIMENT_PLAYING false
          (SimulationClockTickMillis (m_cSimulator w))
          (m_unDrawFrameEvery w) (m_cSimulator w)
          (trace w ++ by_thread t
             [EmitEvent "Experiment playing" EXPERIMENT_PLAYING;
              Log "[INFO] Experiment playing"; TimerStart])
    | _ =>
        mkCWebviz (m_eExperimentState w) (m_bFastForwarding w)
          (m_cSimulatorTickMillis w) (m_unDrawFrameEvery w) (m_cSimulator w)
          (trace w ++ by_thread t
             [Log ("[WARNING] CWebviz::PlayExperiment() called in wrong state: "
                   +:+ EExperimentStateToStr (m_eExperimentState w))])
    end.
Proof.
  unfold PlayExperiment, emit, by_thread.
  destruct w as [e b d n s tr]; destruct e; cbn; decide_states; cbn;
    rewrite <- ?app_assoc; reflexivity.
Qed.

Lemma FastForwardExperiment_eq (t : Thread) (w : webviz) :
  FastForwardExperiment t w
  = mkCWebviz EXPERIMENT_FAST_FORWARDING true
      (SimulationClockTickMillis (m_cSimulator w))
      (m_unDrawFrameEvery w) (m_cSimulator w)
      (trace w ++ by_thread t
         (match m_eExperimentState w with
          | EXPERIMENT_INITIALIZED | EXPERIMENT_PAUSED => []
          | _ =>
              [Log ("[WARNING] CWebviz::FastForwardExperiment() called in wrong state:"
                    +:+ EExperimentStateToStr (m_eExperimentState w)
                    +:+ newline
                    +:+ "Running the experiment in FastForward mode")]
          end
          ++ [EmitEvent "Experiment fast-forwarding" EXPERIMENT_FAST_FORWARDING;
              Log "[INFO] Experiment fast-forwarding"; TimerStart])).
Proof.
  unfold FastForwardExperiment, emit, by_thread.
  destruct w as [e b d n s tr]; destruct e; cbn; decide_states; cbn;
    rewrite <- ?app_assoc; reflexivity.
Qed.

Lemma PauseExperiment_eq (t : Thread) (w : webviz) :
  PauseExperiment t w
  = match m_eExperimentState w with
    | EXPERIMENT_PLAYING | EXPERIMENT_FAST_FORWARDING =>
        (mkCWebviz EXPERIMENT_PAUSED false
           (m_cSimulatorTickMillis w) (m_unDrawFrameEvery w) (m_cSimulator w)
           (trace w ++ by_thread t
              [EmitEvent "Experiment paused" EXPERIMENT_PAUSED;
               Log "[INFO] Experiment paused"]),
         Returned)
    | _ =>
        (mkCWebviz (m_eExperimentState w) (m_bFastForwarding w)
           (m_cSimulatorTickMillis w) (m_unDrawFrameEvery w) (m_cSimulator w)
           (trace w ++ by_thread t
              [Log ("[WARNING] CWebviz::PauseExperiment() called in wrong state: "
                    +:+ EExperimentStateToStr (m_eExperimentState w))]),
         Thrown ("Cannot pause the experiment, current state : "
                 +:+ EExperimentStateToStr (m_eExperimentState w)))
    end.
Proof.
  unfold PauseExperiment, emit, by_thread.
  destruct w as [e b d n s tr]; destruct e; cbn; decide_states; cbn;
    rewrite <- ?app_assoc; reflexivity.
Qed.

(** [StepExperiment] while the experiment runs: only the state changes. *)
Lemma StepExperiment_running (t : Thread) (w : webviz) :
  is_running (m_eExperimentState w) = true ->
  StepExperiment t w
  = mkCWebviz EXPERIMENT_PAUSED (m_bFastForwarding w)
      (m_cSimulatorTickMillis w) (m_unDrawFrameEvery w) (m_cSimulator w)
      (trace w ++ by_thread t
         [Log ("[WARNING] CWebviz::StepExperiment() called in wrong state: "
               +:+ EExperimentStateToStr (m_eExperimentState w)
               +:+ " pausing the experiment to run a step")]).
Proof.
  unfold StepExperiment, emit, by_thread.
  destruct w as [e b d n s tr]; destruct e; cbn; try discriminate;
    intros _; decide_states; reflexivity.
Qed.

(** [StepExperiment] while paused or initialized, experiment not over. *)
Lemma StepExperiment_one_step (t : Thread) (w : webviz) :
  is_running (m_eExperimentState w) = false ->
  finished w = false ->
  let s := PostStep (UpdateSpace (PreStep (m_cSimulator w))) in
  exists j,
    snapshot_of s (m_eExperimentState w) j /\
    StepExperiment t w
    = mkCWebviz (m_eExperimentState w) false
        (m_cSimulatorTickMillis w) (m_unDrawFrameEvery w) s
        (trace w ++ by_thread t
           ([CallPreStep; CallUpdateSpace; CallPostStep;
             EmitEvent "Experiment step done" (m_eExperimentState w)]
            ++ (LogErr <$> failure_lines s) ++ [Broadcast j])).
Proof.
  intros Hrun Hfin s. unfold StepExperiment.
  replace (bool_decide (m_eExperimentState w = EXPERIMENT_PLAYING)
           || bool_decide (m_eExperimentState w = EXPERIMENT_FAST_FORWARDING))
    with false by (by destruct (m_eExperimentState w)).
  cbv zeta.
  replace (finished (set_fast_forwarding false w)) with false by done.
  cbn [negb].
  set (w1 := emit t _ _).
  destruct (BroadcastExperimentState_eq t w1) as (j & Hj & ->).
  exists j. split; [exact Hj|].
  unfold by_thread. cbn. rewrite !fmap_app. cbn.
  rewrite <- !app_assoc. reflexivity.
Qed.

(** [StepExperiment] while paused or initialized, experiment over. *)
Lemma StepExperiment_done (t : Thread) (w : webviz) :
  is_running (m_eExperimentState w) = false ->
  finished w = true ->
  let s := SimulatorReset (PostExperiment (m_cSimulator w)) in
  exists j j',
    snapshot_of s EXPERIMENT_INITIALIZED j /\
    snapshot_of s EXPERIMENT_INITIALIZED j' /\
    StepExperiment t w
    = mkCWebviz EXPERIMENT_INITIALIZED false
        (m_cSimulatorTickMillis w) (m_unDrawFrameEvery w) s
        (trace w ++ by_thread t
           (done_effects (failure_lines s) j
            ++ (LogErr <$> failure_lines s) ++ [Broadcast j'])).
Proof.
  intros Hrun Hfin s. unfold StepExperiment.
  replace (bool_decide (m_eExperimentState w = EXPERIMENT_PLAYING)
           || bool_decide (m_eExperimentState w = EXPERIMENT_FAST_FORWARDING))
    with false by (by destruct (m_eExperimentState w)).
  cbv zeta.
  replace (finished (set_fast_forwarding false w)) with true by done.
  cbn [negb].
  set (w0 := call t _ _ _).
  destruct (ResetExperiment_eq t w0) as (j & Hj & ->).
  set (w1 := emit t (Log _) _).
  destruct (BroadcastExperimentState_eq t w1) as (j' & Hj' & ->).
  exists j, j'. split; [exact Hj|]. split; [exact Hj'|].
  unfold by_thread, done_effects. cbn. rewrite !fmap_app. cbn.
  rewrite <- !app_assoc. cbn. rewrite <- !app_assoc. reflexivity.
Qed.

End CommandFacts.

(** ** Reading traces *)

Section TraceFacts.
Context {Real World Entity : Type} `{Sim : Simulator Real World Entity}.

Local Abbreviation webviz := (CWebviz Real World).
Local Abbreviation effect := (Effect Real).

Lemma effects_of_app (t : Thread) (tr1 tr2 : list (Thread * effect)) :
  effects_of t (tr1 ++ tr2) = effects_of t tr1 ++ effects_of t tr2.
Proof. unfold effects_of. by rewrite filter_app, fmap_app. Qed.

Lemma effects_of_same (t : Thread) (es : list effect) :
  effects_of t (by_thread t es) = es.
Proof.
  unfold effects_of, by_thread. induction es as [|e es IH]; [done|].
  cbn [fmap list_fmap]. rewrite filter_cons_True by done.
  cbn [fmap list_fmap snd]. by f_equal.
Qed.

Lemma effects_of_other (t t' : Thread) (es : list effect) :
  t <> t' -> effects_of t (by_thread t' es) = [].
Proof.
  intros Hne. unfold effects_of, by_thread.
  induction es as [|e es IH]; [done|].
  cbn [fmap list_fmap]. rewrite filter_cons_False; [exact IH|].
  cbn. congruence.
Qed.

Lemma effects_since_app (t : Thread) (w w' : webviz)
    (tr : list (Thread * effect)) :
  trace w' = trace w ++ tr -> effects_since t w w' = effects_of t tr.
Proof.
  intros Htr. unfold effects_since. rewrite Htr, effects_of_app.
  by rewrite drop_app_length.
Qed.

Lemma effects_since_same (t : Thread) (w w' : webviz) (es : list effect) :
  trace w' = trace w ++ by_thread t es -> effects_since t w w' = es.
Proof.
  intros Htr. rewrite (effects_since_app _ _ _ _ Htr). apply effects_of_same.
Qed.

Lemma count_app (p : effect -> bool) (es1 es2 : list effect) :
  count p (es1 ++ es2) = (count p es1 + count p es2)%nat.
Proof. unfold count. by rewrite filter_app, length_app. Qed.

Lemma count_cons (p : effect -> bool) (e : effect) (es : list effect) :
  count p (e :: es) = ((if p e then 1 else 0) + count p es)%nat.
Proof.
  unfold count. destruct (p e) eqn:He.
  - by rewrite filter_cons_True.
  - rewrite filter_cons_False; [done|]. congruence.
Qed.

Lemma count_nil (p : effect -> bool) : count p [] = 0%nat.
Proof. reflexivity. Qed.

Lemma count_fmap_none {A : Type} (p : effect -> bool) (f : A -> effect)
    (l : list A) :
  (forall x, p (f x) = false) -> count p (f <$> l) = 0%nat.
Proof.
  intros Hf. induction l as [|x l IH]; [done|].
  cbn [fmap list_fmap]. rewrite count_cons, Hf. exact IH.
Qed.

Lemma count_replicate (p : effect -> bool) (e : effect) (k : nat) :
  count p (replicate k e) = if p e then k else 0%nat.
Proof.
  induction k as [|k IH]; cbn [replicate].
  - by destruct (p e).
  - rewrite count_cons, IH. by destruct (p e).
Qed.

End TraceFacts.

Ltac count_simpl :=
  repeat first
    [ rewrite count_app
    | rewrite count_cons
    | rewrite count_nil
    | rewrite count_replicate
    | rewrite (count_fmap_none _ LogErr) by done ];
  cbn [is_update_space is_pre_step is_post_step is_broadcast is_event
       is_event_named].

(** ** What the commands guarantee *)

Section CommandClaims.
Context {Real World Entity : Type} `{Sim : Simulator Real World Entity}.

Local Abbreviation webviz := (CWebviz Real World).
Local Abbreviation effect := (Effect Real).

(** C3.  Called while the state is playing or fast-forwarding,
    [StepExperiment] sets the state to paused and performs no engine step
    (its only effect is a warning in the log).  Called while the state is
    paused or initialized with the experiment not finished, it performs
    exactly one pre-step / engine step / post-step cycle, emits exactly one
    "Experiment step done" event and broadcasts exactly one snapshot. *)
Theorem StepExperiment_steps (t : Thread) (w : webviz) :
  (m_eExperimentState w = EXPERIMENT_PLAYING
   \/ m_eExperimentState w = EXPERIMENT_FAST_FORWARDING ->
   m_eExperimentState (StepExperiment t w) = EXPERIMENT_PAUSED /\
   m_cSimulator (StepExperiment t w) = m_cSimulator w /\
   trace (StepExperiment t w)
   = trace w ++ by_thread t
       [Log ("[WARNING] CWebviz::StepExperiment() called in wrong state: "
             +:+ EExperimentStateToStr (m_eExperimentState w)
             +:+ " pausing the experiment to run a step")] /\
   count is_update_space (effects_since t w (StepExperiment t w)) = 0%nat)
  /\
  (m_eExperimentState w = EXPERIMENT_PAUSED
   \/ m_eExperimentState w = EXPERIMENT_INITIALIZED ->
   finished w = false ->
   let s := PostStep (UpdateSpace (PreStep (m_cSimulator w))) in
   let es := effects_since t w (StepExperiment t w) in
   m_cSimulator (StepExperiment t w) = s /\
   m_eExperimentState (StepExperiment t w) = m_eExperimentState w /\
   (exists j,
      snapshot_of s (m_eExperimentState w) j /\
      trace (StepExperiment t w)
      = trace w ++ by_thread t
          ([CallPreStep; CallUpdateSpace; CallPostStep;
            EmitEvent "Experiment step done" (m_eExperimentState w)]
           ++ (LogErr <$> failure_lines s) ++ [Broadcast j])) /\
   count is_pre_step es = 1%nat /\
   count is_update_space es = 1%nat /\
   count is_post_step es = 1%nat /\
   count is_event es = 1%nat /\
   count (is_event_named "Experiment step done") es = 1%nat /\
   count is_broadcast es = 1%nat).
Proof.
  split.
  - intros Hst.
    assert (Hrun : is_running (m_eExperimentState w) = true)
      by (by destruct Hst as [-> | ->]).
    pose proof (StepExperiment_running t w Hrun) as Heq.
    rewrite Heq. cbn [m_eExperimentState m_cSimulator trace].
    repeat split.
    erewrite effects_since_same by reflexivity. reflexivity.
  - intros Hst Hfin s es.
    assert (Hrun : is_running (m_eExperimentState w) = false)
      by (by destruct Hst as [-> | ->]).
    destruct (StepExperiment_one_step t w Hrun Hfin) as (j & Hj & Heq).
    fold s in Hj, Heq. subst es. rewrite Heq.
    cbn [m_eExperimentState m_cSimulator trace].
    split; [done|]. split; [done|]. split; [by exists j|].
    erewrite effects_since_same by reflexivity.
    repeat split; count_simpl; reflexivity.
Qed.

(** C4.  [PauseExperiment] throws exactly when the state is neither playing
    nor fast-forwarding; then state, flag and tick length are as before and
    the only effect is a warning in the log (no event).  From playing or
    fast-forwarding it clears the flag, sets the state to paused and emits
    "Experiment paused".  No other command throws. *)
Theorem PauseExperiment_throws (t : Thread) (w : webviz) :
  ((exists what, (PauseExperiment t w).2 = Thrown what) <->
   m_eExperimentState w <> EXPERIMENT_PLAYING /\
   m_eExperimentState w <> EXPERIMENT_FAST_FORWARDING)
  /\
  (m_eExperimentState w <> EXPERIMENT_PLAYING /\
   m_eExperimentState w <> EXPERIMENT_FAST_FORWARDING ->
   let w' := (PauseExperiment t w).1 in
   m_eExperimentState w' = m_eExperimentState w /\
   m_bFastForwarding w' = m_bFastForwarding w /\
   m_cSimulatorTickMillis w' = m_cSimulatorTickMillis w /\
   m_cSimulator w' = m_cSimulator w /\
   trace w'
   = trace w ++ by_thread t
       [Log ("[WARNING] CWebviz::PauseExperiment() called in wrong state: "
             +:+ EExperimentStateToStr (m_eExperimentState w))] /\
   count is_event (effects_since t w w') = 0%nat)
  /\
  (m_eExperimentState w = EXPERIMENT_PLAYING
   \/ m_eExperimentState w = EXPERIMENT_FAST_FORWARDING ->
   PauseExperiment t w
   = (mkCWebviz EXPERIMENT_PAUSED false
        (m_cSimulatorTickMillis w) (m_unDrawFrameEvery w) (m_cSimulator w)
        (trace w ++ by_thread t
           [EmitEvent "Experiment paused" EXPERIMENT_PAUSED;
            Log "[INFO] Experiment paused"]),
      Returned))
  /\
  (forall op what, (run_op t op w).2 = Thrown what -> op = OpPause).
Proof.
  split; [|split; [|split]].
  - split.
    + intros [what Hthrown]. rewrite PauseExperiment_eq in Hthrown.
      by destruct (m_eExperimentState w).
    + intros [Hp Hf]. rewrite PauseExperiment_eq.
      destruct (m_eExperimentState w); try done; by eexists.
  - intros [Hp Hf]. cbv zeta.
    assert (Heq : (PauseExperiment t w).1
       = mkCWebviz (m_eExperimentState w) (m_bFastForwarding w)
           (m_cSimulatorTickMillis w) (m_unDrawFrameEvery w) (m_cSimulator w)
           (trace w ++ by_thread t
              [Log ("[WARNING] CWebviz::PauseExperiment() called in wrong state: "
                    +:+ EExperimentStateToStr (m_eExperimentState w))])).
    { rewrite PauseExperiment_eq. by destruct (m_eExperimentState w). }
    rewrite Heq. cbn [m_eExperimentState m_bFastForwarding
                      m_cSimulatorTickMillis m_cSimulator trace].
    repeat split.
    erewrite effects_since_same by reflexivity. reflexivity.
  - rewrite PauseExperiment_eq. intros [-> | ->]; reflexivity.
  - intros op what. destruct op; cbn [run_op snd]; try discriminate. done.
Qed.

(** C6.  From initialized or paused, [PlayExperiment] clears the flag,
    takes the tick length from the engine's clock tick, sets the state to
    playing and emits "Experiment playing".  From playing or
    fast-forwarding it only writes a warning to the log: every field is as
    before and no event is emitted. *)
Theorem PlayExperiment_plays (t : Thread) (w : webviz) :
  (m_eExperimentState w = EXPERIMENT_INITIALIZED
   \/ m_eExperimentState w = EXPERIMENT_PAUSED ->
   PlayExperiment t w
   = mkCWebviz EXPERIMENT_PLAYING false
       (SimulationClockTickMillis (m_cSimulator w))
       (m_unDrawFrameEvery w) (m_cSimulator w)
       (trace w ++ by_thread t
          [EmitEvent "Experiment playing" EXPERIMENT_PLAYING;
           Log "[INFO] Experiment playing"; TimerStart]))
  /\
  (m_eExperimentState w = EXPERIMENT_PLAYING
   \/ m_eExperimentState w = EXPERIMENT_FAST_FORWARDING ->
   PlayExperiment t w
   = mkCWebviz (m_eExperimentState w) (m_bFastForwarding w)
       (m_cSimulatorTickMillis w) (m_unDrawFrameEvery w) (m_cSimulator w)
       (trace w ++ by_thread t
          [Log ("[WARNING] CWebviz::PlayExperiment() called in wrong state: "
                +:+ EExperimentStateToStr (m_eExperimentState w))]) /\
   count is_event (effects_since t w (PlayExperiment t w)) = 0%nat).
Proof.
  rewrite PlayExperiment_eq. split.
  - intros [-> | ->]; reflexivity.
  - intros Hst. split.
    + destruct Hst as [-> | ->]; reflexivity.
    + destruct Hst as [Hst | Hst];
        (erewrite effects_since_same; [|by rewrite Hst]); reflexivity.
Qed.

(** C7.  Whatever the state, [FastForwardExperiment] returns normally with
    the state fast-forwarding, the flag set and the tick length taken from
    the engine's clock tick, and emits "Experiment fast-forwarding".  When
    the state was neither initialized nor paused it first writes a warning
    and goes on all the same, where [PlayExperiment] leaves the state as
    it was. *)
Theorem FastForwardExperiment_always (t : Thread) (w : webviz) :
  (run_op t OpFastForward w).2 = Returned /\
  FastForwardExperiment t w
  = mkCWebviz EXPERIMENT_FAST_FORWARDING true
      (SimulationClockTickMillis (m_cSimulator w))
      (m_unDrawFrameEvery w) (m_cSimulator w)
      (trace w ++ by_thread t
         ((if bool_decide (m_eExperimentState w <> EXPERIMENT_INITIALIZED
                           /\ m_eExperimentState w <> EXPERIMENT_PAUSED)
           then
             [Log ("[WARNING] CWebviz::FastForwardExperiment() called in wrong state:"
                   +:+ EExperimentStateToStr (m_eExperimentState w)
                   +:+ newline
                   +:+ "Running the experiment in FastForward mode")]
           else [])
          ++ [EmitEvent "Experiment fast-forwarding" EXPERIMENT_FAST_FORWARDING;
              Log "[INFO] Experiment fast-forwarding"; TimerStart])) /\
  (m_eExperimentState w <> EXPERIMENT_INITIALIZED ->
   m_eExperimentState w <> EXPERIMENT_PAUSED ->
   m_eExperimentState (FastForwardExperiment t w) = EXPERIMENT_FAST_FORWARDING /\
   m_eExperimentState (PlayExperiment t w) = m_eExperimentState w).
Proof.
  split; [reflexivity|]. split.
  - rewrite FastForwardExperiment_eq.
    destruct (m_eExperimentState w); decide_states; reflexivity.
  - intros Hi Hp. rewrite FastForwardExperiment_eq, PlayExperiment_eq.
    by destruct (m_eExperimentState w).
Qed.

(** C1, on the code: after [FastForwardExperiment] and then
    [StepExperiment], a state the object can reach, the state is paused
    while the flag still says fast-forward. *)
Theorem StepExperiment_leaves_flag (unDrawFrameEvery tick0 : Z) (s : World) :
  let w := StepExperiment ControlThread
             (FastForwardExperiment ControlThread
                (constructed unDrawFrameEvery tick0 s)) in
  reachable w /\
  m_eExperimentState w = EXPERIMENT_PAUSED /\
  m_bFastForwarding w = true /\
  ~ flag_matches_state w.
Proof.
  cbv zeta. split.
  - apply (reach_command OpStep), (reach_command OpFastForward).
    apply reach_constructed.
  - rewrite StepExperiment_running
      by (by rewrite FastForwardExperiment_eq).
    rewrite FastForwardExperiment_eq. unfold flag_matches_state.
    cbn [m_eExperimentState m_bFastForwarding]. by decide_states.
Qed.

(** C10.  [BroadcastExperimentState] always hands one snapshot to the web
    server.  An entity whose conversion comes back null costs two lines on
    LOGERR and is left out; the "entities" key holds the other
    conversions in order and does not exist when there are none (in
    particular when there are no entities).  The arena size and centre,
    the timestamp, the state and the step count are always there. *)
Theorem BroadcastExperimentState_snapshot (t : Thread) (w : webviz) :
  let s := m_cSimulator w in
  exists j,
    snapshot_of s (m_eExperimentState w) j /\
    BroadcastExperimentState t w
    = mkCWebviz (m_eExperimentState w) (m_bFastForwarding w)
        (m_cSimulatorTickMillis w) (m_unDrawFrameEvery w) s
        (trace w ++ by_thread t
           ((LogErr <$> failure_lines s) ++ [Broadcast j])) /\
    get "entities" j
    = (match converted s with [] => None | l => Some (JArr l) end) /\
    (Forall (fun e => GenerateJSON s e = JNull) (GetRootEntityVector s) ->
     contains "entities" j = false) /\
    get "arena" j
    = Some (JObj (<["center" := vector_json (GetArenaCenter s)]>
                    {[ "size"%string := vector_json (GetArenaSize s) ]})) /\
    get "timestamp" j = Some (JInt (SystemClockMillis s)) /\
    get "state" j = Some (JStr (EExperimentStateToStr (m_eExperimentState w))) /\
    get "steps" j = Some (JInt (GetSimulationClock s)).
Proof.
  intros s.
  destruct (BroadcastExperimentState_eq t w) as (j & Hj & Heq).
  exists j. split; [exact Hj|]. split; [exact Heq|].
  destruct (build_state_json_spec s (m_eExperimentState w))
    as (m & Hm & He & Ha & Ht & Hs & Hn).
  unfold snapshot_of in Hj. fold s in Hj. rewrite Hm in Hj.
  injection Hj as <-. cbn [get].
  split; [exact He|]. split; [|done].
  intros Hall. unfold contains. cbn [get]. rewrite He.
  assert (Hnone : converted s = []).
  { unfold converted. induction (GetRootEntityVector s) as [|e l IH]; [done|].
    inversion Hall as [|? ? Hnull Hall']; subst.
    cbn [fmap list_fmap]. rewrite filter_cons_False by (by rewrite Hnull).
    by apply IH. }
  rewrite Hnone. apply bool_decide_eq_false_2. by intros [? ?].
Qed.

End CommandClaims.

(** C8.  [Init] goes on to create the web server exactly when the broadcast
    frequency it has read (10 when the attribute is absent) lies in
    [1, 10]; for every other value it throws its [CARGoSException].  So 0
    and 11 are refused, 1 and 10 accepted. *)
Theorem Init_broadcast_frequency (t_tree : TConfigurationNode) :
  let f := GetNodeAttributeOrDefault (attr_broadcast_frequency t_tree) 10 in
  ((exists r, Init t_tree = inr r /\ unBroadcastFrequency r = f)
   <-> 1 <= f <= 10) /\
  (Init t_tree
   = inl "Broadcast frequency set in configuration is out of range [1,1000]"%string
   <-> ~ (1 <= f <= 10)) /\
  (forall p d,
     (exists msg, Init (mkNode p (Some 0) d) = inl msg) /\
     (exists msg, Init (mkNode p (Some 11) d) = inl msg) /\
     (exists r, Init (mkNode p (Some 1) d) = inr r) /\
     (exists r, Init (mkNode p (Some 10) d) = inr r)).
Proof.
  intros f. unfold Init. fold f.
  destruct (Z.ltb_spec f 1) as [H1|H1], (Z.ltb_spec 10 f) as [H2|H2];
    cbn [orb]; (split; [|split]).
  all: try (split; [intros (r & Hr & _); discriminate | lia]).
  all: try (split; [intros _; lia | reflexivity]).
  all: try (split; [intros _; lia | intros _; eexists; split; reflexivity]).
  all: try (split; [discriminate | lia]).
  all: intros p d; repeat split; eexists; reflexivity.
Qed.

(** ** "Experiment done" comes after a reset *)

Section DoneFacts.
Context {Real World Entity : Type} `{Sim : Simulator Real World Entity}.

Local Abbreviation webviz := (CWebviz Real World).
Local Abbreviation effect := (Effect Real).

Lemma no_done_split (es pre post : list effect) (st : EExperimentState) :
  no_done es -> es <> pre ++ EmitEvent "Experiment done" st :: post.
Proof.
  intros Hno ->. apply Forall_app in Hno as [_ Hno].
  apply Forall_cons in Hno as [Hd _]. cbn in Hd.
  by rewrite bool_decide_eq_true_2 in Hd.
Qed.

Lemma done_after_reset_no_done (es : list effect) :
  no_done es -> done_after_reset es.
Proof. intros Hno pre st post Heq. by destruct (no_done_split _ _ _ _ Hno Heq). Qed.

Lemma done_after_reset_nil : done_after_reset [].
Proof. apply done_after_reset_no_done. constructor. Qed.

Lemma done_after_reset_app (es1 es2 : list effect) :
  done_after_reset es1 -> done_after_reset es2 ->
  done_after_reset (es1 ++ es2).
Proof.
  intros H1 H2 pre st post Heq.
  apply List.app_eq_app in Heq as [l [[-> Hl] | [-> Hl]]].
  - destruct l as [|x l].
    + cbn in Hl. destruct (H2 [] st post) as [_ (pre' & lines & j & Hnil & _)];
        [by rewrite <- Hl|].
      by destruct pre'.
    + injection Hl as <- _. exact (H1 pre st l eq_refl).
  - destruct (H2 l st post Hl) as [Hst (pre' & lines & j & -> & Hj)].
    split; [exact Hst|]. exists (es1 ++ pre'), lines, j.
    by rewrite <- app_assoc.
Qed.

Lemma no_done_reset_effects (lines : list string) (j : json Real) :
  no_done (reset_effects lines j).
Proof.
  unfold reset_effects, no_done. repeat apply Forall_app_2.
  - by repeat constructor.
  - apply Forall_fmap. by apply Forall_true.
  - by repeat constructor.
Qed.

Lemma done_after_reset_done_effects (lines : list string) (j : json Real) :
  get "state" j = Some (JStr (EExperimentStateToStr EXPERIMENT_INITIALIZED)) ->
  done_after_reset (done_effects lines j).
Proof.
  intros Hj pre st post Heq. unfold done_effects in Heq.
  change (CallPostExperiment :: reset_effects lines j
          ++ [EmitEvent "Experiment done" EXPERIMENT_INITIALIZED;
              Log ("[INFO] Experiment done" +:+ newline)])
    with ((CallPostExperiment :: reset_effects lines j)
          ++ EmitEvent "Experiment done" EXPERIMENT_INITIALIZED
             :: [Log ("[INFO] Experiment done" +:+ newline)]) in Heq.
  assert (Hpre : no_done (CallPostExperiment :: reset_effects lines j)).
  { constructor; [done|]. apply no_done_reset_effects. }
  apply List.app_eq_app in Heq as [l [[Hl1 Hl2] | [Hl1 Hl2]]].
  - destruct l as [|x l].
    + cbn in Hl2. injection Hl2 as Hst _. rewrite app_nil_r in Hl1.
      split; [done|]. exists [], lines, j. split; [by rewrite <- Hl1|done].
    + injection Hl2 as Hx _. subst x.
      by destruct (no_done_split _ _ _ _ Hpre Hl1).
  - destruct l as [|x l].
    + cbn in Hl2. injection Hl2 as Hst _. rewrite app_nil_r in Hl1.
      split; [done|]. exists [], lines, j. split; [by rewrite Hl1|done].
    + injection Hl2 as _ Hl2.
      assert (Hlog : no_done [Log ("[INFO] Experiment done" +:+ newline)
                              : effect]) by by repeat constructor.
      by destruct (no_done_split _ _ _ _ Hlog Hl2).
Qed.

(** *** Growth of the trace, thread by thread *)

Lemma grows_refl (w : webviz) : grows w w [] [].
Proof. exists []. by rewrite app_nil_r. Qed.

Lemma grows_trans (w w' w'' : webviz) (s1 s2 c1 c2 : list effect) :
  grows w w' s1 c1 -> grows w' w'' s2 c2 ->
  grows w w'' (s1 ++ s2) (c1 ++ c2).
Proof.
  intros (tr1 & H1 & <- & <-) (tr2 & H2 & <- & <-).
  exists (tr1 ++ tr2). rewrite H2, H1, <- app_assoc.
  by rewrite !effects_of_app.
Qed.

Lemma grows_eq (w w' : webviz) (s s' c c' : list effect) :
  grows w w' s c -> s = s' -> c = c' -> grows w w' s' c'.
Proof. by intros Hg <- <-. Qed.

Lemma grows_simulation (w w' : webviz) (es : list effect) :
  trace w' = trace w ++ by_thread SimulationThread es -> grows w w' es [].
Proof.
  intros Htr. exists (by_thread SimulationThread es).
  rewrite effects_of_same, effects_of_other by done. done.
Qed.

Lemma grows_control (w w' : webviz) (es : list effect) :
  trace w' = trace w ++ by_thread ControlThread es -> grows w w' [] es.
Proof.
  intros Htr. exists (by_thread ControlThread es).
  rewrite effects_of_same, effects_of_other by done. done.
Qed.

Lemma grows_since (w w' : webviz) (ses ces : list effect) :
  grows w w' ses ces ->
  effects_since SimulationThread w w' = ses /\
  effects_since ControlThread w w' = ces.
Proof.
  intros (tr & Htr & <- & <-).
  by rewrite !(effects_since_app _ _ _ _ Htr).
Qed.

End DoneFacts.

(** ** The simulation thread *)

Section DriverFacts.
Context {Real World Entity : Type} `{Sim : Simulator Real World Entity}.

Local Abbreviation webviz := (CWebviz Real World).
Local Abbreviation effect := (Effect Real).

(** What every command does to the trace and leaves alone. *)
Lemma run_op_summary (t : Thread) (op : ControlOp) (w : webviz) :
  exists es,
    trace (run_op t op w).1 = trace w ++ by_thread t es /\
    done_after_reset es /\
    m_unDrawFrameEvery (run_op t op w).1 = m_unDrawFrameEvery w /\
    (flag_right_while_running w ->
     flag_right_while_running (run_op t op w).1).
Proof.
  unfold flag_right_while_running, flag_matches_state.
  destruct op; cbn [run_op fst].
  - rewrite PlayExperiment_eq.
    destruct (m_eExperimentState w) eqn:He; eexists;
      (split; [reflexivity|]);
      (split; [apply done_after_reset_no_done; by repeat constructor|]);
      (split; [reflexivity|]); cbn; rewrite ?He; done.
  - rewrite PauseExperiment_eq.
    destruct (m_eExperimentState w) eqn:He; eexists;
      (split; [reflexivity|]);
      (split; [apply done_after_reset_no_done; by repeat constructor|]);
      (split; [reflexivity|]); cbn; rewrite ?He; done.
  - rewrite FastForwardExperiment_eq. eexists.
    split; [reflexivity|].
    split; [apply done_after_reset_no_done;
            destruct (m_eExperimentState w); by repeat constructor|].
    split; [reflexivity|]. by cbn.
  - destruct (is_running (m_eExperimentState w)) eqn:Hrun.
    + rewrite (StepExperiment_running t w Hrun). eexists.
      split; [reflexivity|].
      split; [apply done_after_reset_no_done; by repeat constructor|].
      split; [reflexivity|]. by cbn.
    + destruct (finished w) eqn:Hfin.
      * destruct (StepExperiment_done t w Hrun Hfin) as (j & j' & Hj & Hj' & ->).
        eexists. split; [reflexivity|].
        split; [|split; [reflexivity|by cbn]].
        apply done_after_reset_app.
        -- apply done_after_reset_done_effects. by eapply snapshot_state.
        -- apply done_after_reset_no_done. apply Forall_app_2.
           ++ apply Forall_fmap. by apply Forall_true.
           ++ by repeat constructor.
      * destruct (StepExperiment_one_step t w Hrun Hfin) as (j & Hj & ->).
        eexists. split; [reflexivity|].
        split; [|split; [reflexivity|cbn; by rewrite Hrun]].
        apply done_after_reset_no_done. apply Forall_app_2.
        -- by repeat constructor.
        -- apply Forall_app_2.
           ++ apply Forall_fmap. by apply Forall_true.
           ++ by repeat constructor.
  - destruct (ResetExperiment_eq t w) as (j & Hj & ->).
    eexists. split; [reflexivity|].
    split; [|split; [reflexivity|by cbn]].
    apply done_after_reset_no_done, no_done_reset_effects.
Qed.

(** Every command keeps the flag in step with the state, except
    [StepExperiment] called while the experiment runs. *)
Lemma run_op_keeps_flag (t : Thread) (op : ControlOp) (w : webviz) :
  flag_matches_state w ->
  (op = OpStep -> is_running (m_eExperimentState w) = false) ->
  flag_matches_state (run_op t op w).1.
Proof.
  unfold flag_matches_state. intros Hw Hstep.
  destruct op; cbn [run_op fst].
  - rewrite PlayExperiment_eq.
    destruct (m_eExperimentState w) eqn:He; cbn; rewrite ?He; done.
  - rewrite PauseExperiment_eq.
    destruct (m_eExperimentState w) eqn:He; cbn; rewrite ?He; done.
  - by rewrite FastForwardExperiment_eq.
  - specialize (Hstep eq_refl). destruct (finished w) eqn:Hfin.
    + by destruct (StepExperiment_done t w Hstep Hfin) as (j & j' & _ & _ & ->).
    + destruct (StepExperiment_one_step t w Hstep Hfin) as (j & _ & ->).
      cbn. by destruct (m_eExperimentState w).
  - by destruct (ResetExperiment_eq t w) as (j & _ & ->).
Qed.

Lemma interfere_summary (ops : list ControlOp) (w : webviz) :
  exists ces,
    grows w (interfere ops w) [] ces /\
    done_after_reset ces /\
    m_unDrawFrameEvery (interfere ops w) = m_unDrawFrameEvery w /\
    (flag_right_while_running w ->
     flag_right_while_running (interfere ops w)).
Proof.
  unfold interfere. revert w. induction ops as [|op ops IH]; intros w.
  - exists []. split; [apply grows_refl|].
    split; [apply done_after_reset_nil|done].
  - cbn [foldl].
    destruct (run_op_summary ControlThread op w) as (es & Htr & Hes & Hn & Hfl).
    destruct (IH (run_op ControlThread op w).1) as (ces & Hg & Hces & Hn' & Hfl').
    exists (es ++ ces). split.
    + change (@nil effect) with (@nil effect ++ []).
      eapply grows_trans; [by apply grows_control|exact Hg].
    + split; [by apply done_after_reset_app|].
      split; [by rewrite Hn'|auto].
Qed.

(** The stepping loop adds [k] engine steps for the simulation thread,
    counts its counter down by [k], and never makes more steps than the
    counter allowed at entry. *)
Lemma steps_loop_fuel_summary (fuel : nat) (sched : list (list ControlOp))
    (n : Z) (w : webviz) :
  exists k ces,
    grows w (steps_loop_fuel fuel sched n w).1
          (replicate k CallUpdateSpace) ces /\
    done_after_reset ces /\
    (steps_loop_fuel fuel sched n w).2 = n - Z.of_nat k /\
    (k <= Z.to_nat n)%nat /\
    m_unDrawFrameEvery (steps_loop_fuel fuel sched n w).1
    = m_unDrawFrameEvery w /\
    (flag_right_while_running w ->
     flag_right_while_running (steps_loop_fuel fuel sched n w).1).
Proof.
  revert sched n w. induction fuel as [|fuel IH]; intros sched n w;
    cbn [steps_loop_fuel];
    destruct (interfere_summary (default [] (head sched)) w)
      as (ces & Hg & Hces & Hn & Hfl);
    set (w0 := interfere (default [] (head sched)) w) in *.
  - exists 0%nat, ces.
    destruct (_ && _ && _); cbn [fst snd replicate];
      (split; [exact Hg|]); (split; [exact Hces|]);
      (split; [lia|]); (split; [lia|]); done.
  - destruct ((0 <? n) && negb (finished w0)
              && is_running (m_eExperimentState w0)) eqn:Hc.
    + apply andb_true_iff in Hc as [Hc _].
      apply andb_true_iff in Hc as [Hpos _]. apply Z.ltb_lt in Hpos.
      destruct (IH (tail sched) (n - 1)
                  (call SimulationThread CallUpdateSpace UpdateSpace w0))
        as (k & ces' & Hg' & Hces' & Hn2 & Hk & Hn' & Hfl').
      exists (S k), (ces ++ ces'). split.
      * change (replicate (S k) CallUpdateSpace)
          with (([] ++ [@CallUpdateSpace Real]) ++ replicate k CallUpdateSpace).
        rewrite <- (app_nil_r ces) at 1.
        eapply grows_trans; [|exact Hg'].
        eapply grows_trans; [exact Hg|]. by apply grows_simulation.
      * split; [by apply done_after_reset_app|].
        split; [rewrite Hn2; lia|]. split; [lia|].
        split; [by rewrite Hn'|]. intros Hw. apply Hfl', Hfl, Hw.
    + exists 0%nat, ces. cbn [fst snd replicate].
      split; [exact Hg|]. split; [exact Hces|].
      split; [lia|]. split; [lia|]. done.
Qed.

(** With the fuel [steps_loop] gives it, the loop ends because its
    condition is false. *)
Lemma steps_loop_fuel_exit (fuel : nat) (sched : list (list ControlOp))
    (n : Z) (w : webviz) :
  (Z.to_nat n <= fuel)%nat ->
  let r := steps_loop_fuel fuel sched n w in
  (0 <? r.2) && negb (finished r.1) && is_running (m_eExperimentState r.1)
  = false.
Proof.
  revert sched n w. induction fuel as [|fuel IH]; intros sched n w Hfuel;
    cbn [steps_loop_fuel];
    set (w0 := interfere (default [] (head sched)) w).
  - assert (Hn : (0 <? n) = false) by (apply Z.ltb_ge; lia).
    rewrite Hn. cbn [andb fst snd]. by rewrite Hn.
  - destruct ((0 <? n) && negb (finished w0)
              && is_running (m_eExperimentState w0)) eqn:Hc.
    + apply IH. lia.
    + exact Hc.
Qed.

(** More fuel than that changes nothing. *)
Lemma steps_loop_fuel_enough (fuel : nat) (sched : list (list ControlOp))
    (n : Z) (w : webviz) :
  (Z.to_nat n <= fuel)%nat ->
  steps_loop_fuel fuel sched n w = steps_loop sched n w.
Proof.
  unfold steps_loop. revert sched n w.
  induction fuel as [|fuel IH]; intros sched n w Hfuel.
  - by replace (Z.to_nat n) with 0%nat by lia.
  - destruct (Z.to_nat n) as [|m] eqn:Hm.
    + cbn [steps_loop_fuel].
      replace (0 <? n) with false by (symmetry; apply Z.ltb_ge; lia).
      reflexivity.
    + cbn [steps_loop_fuel].
      destruct (_ && _ && _); [|reflexivity].
      rewrite IH by lia. symmetry.
      replace m with (Z.to_nat (n - 1)) by lia. reflexivity.
Qed.

End DriverFacts.

(** ** One pass of the loop *)

Ltac trace_norm :=
  cbn; repeat progress (rewrite ?fmap_app; cbn; rewrite <- ?app_assoc; cbn).

Section LoopFacts.
Context {Real World Entity : Type} `{Sim : Simulator Real World Entity}.

Local Abbreviation webviz := (CWebviz Real World).
Local Abbreviation effect := (Effect Real).

(** The block run when the experiment is over, at any of its three
    places. *)
Lemma experiment_done_eq (t : Thread) (w : webviz) :
  let s := SimulatorReset (PostExperiment (m_cSimulator w)) in
  let w1 := ResetExperiment t (call t CallPostExperiment PostExperiment w) in
  exists j,
    snapshot_of s EXPERIMENT_INITIALIZED j /\
    emit t (Log ("[INFO] Experiment done" +:+ newline))
      (emit t (EmitEvent "Experiment done" (m_eExperimentState w1)) w1)
    = mkCWebviz EXPERIMENT_INITIALIZED false
        (m_cSimulatorTickMillis w) (m_unDrawFrameEvery w) s
        (trace w ++ by_thread t (done_effects (failure_lines s) j)).
Proof.
  intros s w1. subst w1.
  destruct (ResetExperiment_eq t (call t CallPostExperiment PostExperiment w))
    as (j & Hj & ->).
  exists j. split; [exact Hj|].
  unfold by_thread, done_effects, emit. trace_norm. reflexivity.
Qed.

Lemma pace_eq (w : webviz) :
  let elapsed := TimerElapsed (m_cSimulator w) in
  let tick := m_cSimulatorTickMillis w in
  pace w
  = mkCWebviz (m_eExperimentState w) (m_bFastForwarding w) tick
      (m_unDrawFrameEvery w)
      (if elapsed <? tick then SleepFor (tick - elapsed) (m_cSimulator w)
       else m_cSimulator w)
      (trace w ++ by_thread SimulationThread
         [TimerStop;
          if elapsed <? tick then Sleep (tick - elapsed)
          else Log ("[WARNING] Clock tick took " +:+ pretty elapsed
                    +:+ " milli-secs, more than the expected "
                    +:+ pretty tick +:+ " milli-secs. "
                    +:+ "Recovering in next cycle.");
          TimerStart]).
Proof.
  intros elapsed tick. unfold pace, call, emit, by_thread.
  cbn [m_cSimulator m_cSimulatorTickMillis set_simulator trace
       m_eExperimentState m_bFastForwarding m_unDrawFrameEvery].
  fold elapsed. fold tick.
  destruct (elapsed <? tick);
    cbn [m_cSimulator m_cSimulatorTickMillis set_simulator trace
         m_eExperimentState m_bFastForwarding m_unDrawFrameEvery
         fmap list_fmap];
    rewrite <- !app_assoc; reflexivity.
Qed.

(** Pre-step, the steps, the broadcast, post-step. *)
Lemma step_and_broadcast_summary (sched : list (list ControlOp)) (w : webviz) :
  let n := if m_bFastForwarding w then m_unDrawFrameEvery w else 1 in
  let r := steps_loop sched n (call SimulationThread CallPreStep PreStep w) in
  let w1 := step_and_broadcast sched w in
  exists k ces j,
    grows w w1
      ([CallPreStep] ++ replicate k CallUpdateSpace
       ++ (LogErr <$> failure_lines (m_cSimulator r.1))
       ++ [Broadcast j; CallPostStep]) ces /\
    snapshot_of (m_cSimulator r.1) (m_eExperimentState r.1) j /\
    done_after_reset ces /\
    r.2 = n - Z.of_nat k /\
    (k <= Z.to_nat n)%nat /\
    m_unDrawFrameEvery w1 = m_unDrawFrameEvery w /\
    (flag_right_while_running w -> flag_right_while_running w1).
Proof.
  intros n r w1.
  set (w0 := call SimulationThread CallPreStep PreStep w).
  destruct (steps_loop_fuel_summary (Z.to_nat n) sched n w0)
    as (k & ces & Hg & Hces & Hn & Hk & Hd & Hfl).
  fold (steps_loop sched n w0) in Hg, Hn, Hd, Hfl. fold r in Hg, Hn, Hd, Hfl.
  destruct (BroadcastExperimentState_eq SimulationThread r.1) as (j & Hj & Hb).
  exists k, ces, j.
  assert (Hw1 : w1 = call SimulationThread CallPostStep PostStep
                       (BroadcastExperimentState SimulationThread r.1))
    by reflexivity.
  split; [|split; [exact Hj|split; [exact Hces|split; [exact Hn|split; [exact Hk|]]]]].
  - eapply grows_eq.
    + eapply grows_trans; [eapply grows_trans; [|exact Hg]|].
      * by apply (grows_simulation w w0 [CallPreStep]).
      * apply (grows_simulation _ _
                 ((LogErr <$> failure_lines (m_cSimulator r.1))
                  ++ [Broadcast j; CallPostStep])).
        rewrite Hw1, Hb. unfold call, emit, by_thread.
        trace_norm. reflexivity.
    + by rewrite <- !app_assoc.
    + by rewrite app_nil_r.
  - rewrite Hw1, Hb. cbn. split; [exact Hd|].
    intros Hw. specialize (Hfl Hw). exact Hfl.
Qed.

(** The four ways through the loop body. *)
Lemma loop_body_idle (sched : list (list ControlOp)) (w : webviz) :
  is_running (m_eExperimentState w) = false ->
  loop_body sched w
  = (call SimulationThread (Sleep 250) (SleepFor 250)
       (BroadcastExperimentState SimulationThread w), Continue).
Proof. intros Hrun. unfold loop_body. by rewrite Hrun. Qed.

Lemma loop_body_already_done (sched : list (list ControlOp)) (w : webviz) :
  is_running (m_eExperimentState w) = true ->
  finished w = true ->
  let s := SimulatorReset (PostExperiment (m_cSimulator w)) in
  exists j,
    snapshot_of s EXPERIMENT_INITIALIZED j /\
    loop_body sched w
    = (mkCWebviz EXPERIMENT_INITIALIZED false
         (m_cSimulatorTickMillis w) (m_unDrawFrameEvery w) s
         (trace w ++ by_thread SimulationThread
            (done_effects (failure_lines s) j)),
       Continue).
Proof.
  intros Hrun Hfin s. unfold loop_body. rewrite Hrun, Hfin. cbn [negb].
  destruct (experiment_done_eq SimulationThread w) as (j & Hj & Heq).
  exists j. split; [exact Hj|]. cbv zeta. f_equal. exact Heq.
Qed.

Lemma loop_body_done_after_step (sched : list (list ControlOp)) (w : webviz) :
  is_running (m_eExperimentState w) = true ->
  finished w = false ->
  let w1 := step_and_broadcast sched w in
  finished w1 = true ->
  let s := SimulatorReset (PostExperiment (m_cSimulator w1)) in
  exists j,
    snapshot_of s EXPERIMENT_INITIALIZED j /\
    loop_body sched w
    = (mkCWebviz EXPERIMENT_INITIALIZED false
         (m_cSimulatorTickMillis w1) (m_unDrawFrameEvery w1) s
         (trace w1 ++ by_thread SimulationThread
            (done_effects (failure_lines s) j)),
       Return).
Proof.
  intros Hrun Hfin w1 Hfin1 s. unfold loop_body.
  rewrite Hrun, Hfin. cbn [negb]. cbv zeta. fold w1. rewrite Hfin1.
  destruct (experiment_done_eq SimulationThread w1) as (j & Hj & Heq).
  exists j. split; [exact Hj|]. f_equal. exact Heq.
Qed.

Lemma loop_body_paced (sched : list (list ControlOp)) (w : webviz) :
  is_running (m_eExperimentState w) = true ->
  finished w = false ->
  finished (step_and_broadcast sched w) = false ->
  loop_body sched w = (pace (step_and_broadcast sched w), Continue).
Proof.
  intros Hrun Hfin Hfin1. unfold loop_body.
  rewrite Hrun, Hfin. cbn [negb]. cbv zeta. by rewrite Hfin1.
Qed.

Lemma no_done_broadcast (lines : list string) (j : json Real)
    (rest : list effect) :
  no_done rest -> no_done ((LogErr <$> lines) ++ Broadcast j :: rest).
Proof.
  intros Hrest. apply Forall_app_2.
  - apply Forall_fmap. by apply Forall_true.
  - by constructor.
Qed.

(** What every pass does to the trace and leaves alone. *)
Lemma loop_body_summary (sched : list (list ControlOp)) (w : webviz) :
  exists ses ces,
    grows w (loop_body sched w).1 ses ces /\
    done_after_reset ses /\
    done_after_reset ces /\
    m_unDrawFrameEvery (loop_body sched w).1 = m_unDrawFrameEvery w /\
    (flag_right_while_running w ->
     flag_right_while_running (loop_body sched w).1).
Proof.
  destruct (is_running (m_eExperimentState w)) eqn:Hrun.
  - destruct (finished w) eqn:Hfin.
    + destruct (loop_body_already_done sched w Hrun Hfin) as (j & Hj & ->).
      eexists _, []. split; [by apply grows_simulation|].
      split; [apply done_after_reset_done_effects; by eapply snapshot_state|].
      split; [apply done_after_reset_nil|]. split; [reflexivity|].
      by unfold flag_right_while_running.
    + destruct (step_and_broadcast_summary sched w)
        as (k & ces & j & Hg & Hj & Hces & _ & _ & Hd & Hfl).
      assert (Hsteps : done_after_reset
                ([CallPreStep] ++ replicate k (@CallUpdateSpace Real)
                 ++ (LogErr <$> failure_lines
                       (m_cSimulator
                          (steps_loop sched
                             (if m_bFastForwarding w
                              then m_unDrawFrameEvery w else 1)
                             (call SimulationThread CallPreStep PreStep w)).1))
                 ++ [Broadcast j; CallPostStep])).
      { apply done_after_reset_no_done. apply Forall_app_2; [by repeat constructor|].
        apply Forall_app_2; [by apply Forall_replicate|].
        apply no_done_broadcast. by repeat constructor. }
      destruct (finished (step_and_broadcast sched w)) eqn:Hfin1.
      * destruct (loop_body_done_after_step sched w Hrun Hfin Hfin1)
          as (j' & Hj' & ->).
        eexists _, ces. split.
        { eapply grows_eq; [eapply grows_trans; [exact Hg|];
                            by apply grows_simulation|reflexivity|].
          by rewrite app_nil_r. }
        split.
        { apply done_after_reset_app; [exact Hsteps|].
          apply done_after_reset_done_effects. by eapply snapshot_state. }
        split; [exact Hces|]. split; [exact Hd|].
        by unfold flag_right_while_running.
      * rewrite (loop_body_paced sched w Hrun Hfin Hfin1), pace_eq.
        eexists _, ces. split.
        { eapply grows_eq; [eapply grows_trans; [exact Hg|];
                            by apply grows_simulation|reflexivity|].
          by rewrite app_nil_r. }
        split.
        { apply done_after_reset_app; [exact Hsteps|].
          apply done_after_reset_no_done.
          destruct (_ <? _); by repeat constructor. }
        split; [exact Hces|]. split; [exact Hd|].
        exact Hfl.
  - rewrite (loop_body_idle sched w Hrun).
    destruct (BroadcastExperimentState_eq SimulationThread w) as (j & Hj & ->).
    exists ((LogErr <$> failure_lines (m_cSimulator w))
            ++ [Broadcast j; Sleep 250]), [].
    split.
    { apply grows_simulation. unfold call, emit, by_thread.
      trace_norm. reflexivity. }
    split.
    { apply done_after_reset_no_done.
      apply no_done_broadcast. by repeat constructor. }
    split; [apply done_after_reset_nil|]. split; [reflexivity|].
    unfold flag_right_while_running. cbn. by rewrite Hrun.
Qed.


End LoopFacts.

(** ** What the simulation thread guarantees *)

Section LoopClaims.
Context {Real World Entity : Type} `{Sim : Simulator Real World Entity}.

Local Abbreviation webviz := (CWebviz Real World).
Local Abbreviation effect := (Effect Real).

(** C2.  In a pass entered playing or fast-forwarding there are two ways
    to the end of the experiment.  If the engine is not finished at entry
    but is after pre-step, steps, broadcast and post-step, the thread calls
    the post-experiment hook, resets, emits "Experiment done" and returns
    from [SimulationThreadFunction]: no later pass is made.  If the engine
    is finished at entry, the thread does the same four things to the
    state it found and goes round the loop again.  Apart from the state
    they start from, the two differ only in [Return] against
    [Continue]. *)
Theorem loop_body_completion (sched : list (list ControlOp)) (w : webviz) :
  m_eExperimentState w = EXPERIMENT_PLAYING
  \/ m_eExperimentState w = EXPERIMENT_FAST_FORWARDING ->
  (finished w = false ->
   let w1 := step_and_broadcast sched w in
   finished w1 = true ->
   let s := SimulatorReset (PostExperiment (m_cSimulator w1)) in
   exists j,
     snapshot_of s EXPERIMENT_INITIALIZED j /\
     let w' := mkCWebviz EXPERIMENT_INITIALIZED false
                 (m_cSimulatorTickMillis w1) (m_unDrawFrameEvery w1) s
                 (trace w1 ++ by_thread SimulationThread
                    (done_effects (failure_lines s) j)) in
     loop_body sched w = (w', Return) /\
     forall scheds,
       SimulationThreadFunction (sched :: scheds) w = (w', Return))
  /\
  (finished w = true ->
   let s := SimulatorReset (PostExperiment (m_cSimulator w)) in
   exists j,
     snapshot_of s EXPERIMENT_INITIALIZED j /\
     let w' := mkCWebviz EXPERIMENT_INITIALIZED false
                 (m_cSimulatorTickMillis w) (m_unDrawFrameEvery w) s
                 (trace w ++ by_thread SimulationThread
                    (done_effects (failure_lines s) j)) in
     loop_body sched w = (w', Continue) /\
     forall scheds,
       SimulationThreadFunction (sched :: scheds) w
       = SimulationThreadFunction scheds w').
Proof.
  intros Hst.
  assert (Hrun : is_running (m_eExperimentState w) = true)
    by (by destruct Hst as [-> | ->]).
  split.
  - intros Hfin w1 Hfin1 s.
    destruct (loop_body_done_after_step sched w Hrun Hfin Hfin1)
      as (j & Hj & Heq).
    exists j. split; [exact Hj|]. cbv zeta. split; [exact Heq|].
    intros scheds. cbn [SimulationThreadFunction]. by rewrite Heq.
  - intros Hfin s.
    destruct (loop_body_already_done sched w Hrun Hfin) as (j & Hj & Heq).
    exists j. split; [exact Hj|]. cbv zeta. split; [exact Heq|].
    intros scheds. cbn [SimulationThreadFunction]. by rewrite Heq.
Qed.

End LoopClaims.

(** ** The theorems at concrete inputs *)


Lemma toy_fast_forwarding_reachable (limit : Z) :
  reachable (toy_fast_forwarding limit).
Proof.
  exact (reach_command OpFastForward _
           (reach_constructed 2 0 (mkToy 0 limit []))).
Qed.

Lemma StepExperiment_steps_witness :
  m_eExperimentState (StepExperiment ControlThread (toy_playing 3))
  = EXPERIMENT_PAUSED /\
  count is_update_space
    (effects_since ControlThread (toy 3 [])
       (StepExperiment ControlThread (toy 3 []))) = 1%nat.
Proof.
  split.
  - destruct (StepExperiment_steps ControlThread (toy_playing 3)) as [H _].
    destruct (H (or_introl eq_refl)) as [Hst _]. exact Hst.
  - destruct (StepExperiment_steps ControlThread (toy 3 [])) as [_ H].
    destruct (H (or_intror eq_refl) eq_refl)
      as (_ & _ & _ & _ & Hone & _).
    exact Hone.
Defined.

Lemma PauseExperiment_throws_witness :
  (exists what, (PauseExperiment ControlThread (toy 3 [])).2 = Thrown what) /\
  (PauseExperiment ControlThread (toy_playing 3)).2 = Returned.
Proof.
  split.
  - destruct (PauseExperiment_throws ControlThread (toy 3 [])) as [H _].
    apply H. split; discriminate.
  - destruct (PauseExperiment_throws ControlThread (toy_playing 3))
      as (_ & _ & H & _).
    rewrite (H (or_introl eq_refl)). reflexivity.
Defined.

Lemma PlayExperiment_plays_witness :
  m_eExperimentState (PlayExperiment ControlThread (toy 3 []))
  = EXPERIMENT_PLAYING /\
  m_eExperimentState (PlayExperiment ControlThread (toy_fast_forwarding 3))
  = EXPERIMENT_FAST_FORWARDING.
Proof.
  split.
  - destruct (PlayExperiment_plays ControlThread (toy 3 [])) as [H _].
    rewrite (H (or_introl eq_refl)). reflexivity.
  - destruct (PlayExperiment_plays ControlThread (toy_fast_forwarding 3))
      as [_ H].
    destruct (H (or_intror eq_refl)) as [Heq _]. rewrite Heq. reflexivity.
Defined.

Lemma FastForwardExperiment_always_witness :
  m_eExperimentState (FastForwardExperiment ControlThread (toy_playing 3))
  = EXPERIMENT_FAST_FORWARDING /\
  m_eExperimentState (PlayExperiment ControlThread (toy_playing 3))
  = EXPERIMENT_PLAYING.
Proof.
  destruct (FastForwardExperiment_always ControlThread (toy_playing 3))
    as (_ & _ & H).
  apply H; discriminate.
Defined.

Lemma BroadcastExperimentState_snapshot_witness :
  exists j,
    trace (BroadcastExperimentState SimulationThread
             (toy 3 [("box"%string, false)]))
    = by_thread SimulationThread
        [LogErr "[ERROR] Entity cannot be converted:"; LogErr "box";
         Broadcast j] /\
    contains "entities" j = false.
Proof.
  destruct (BroadcastExperimentState_snapshot SimulationThread
              (toy 3 [("box"%string, false)]))
    as (j & _ & Heq & _ & Hnone & _).
  exists j. split.
  - rewrite Heq. reflexivity.
  - apply Hnone. repeat constructor.
Defined.

Lemma Init_broadcast_frequency_witness :
  (exists r, Init (mkNode None (Some 7) None) = inr r /\
             unBroadcastFrequency r = 7) /\
  Init (mkNode None (Some 1000) None)
  = inl "Broadcast frequency set in configuration is out of range [1,1000]"%string.
Proof.
  split.
  - destruct (Init_broadcast_frequency (mkNode None (Some 7) None)) as [H _].
    apply H. cbn. lia.
  - destruct (Init_broadcast_frequency (mkNode None (Some 1000) None))
      as (_ & H & _).
    apply H. cbn. lia.
Defined.

Lemma loop_body_completion_witness :
  (loop_body [] (toy_playing 1)).2 = Return /\
  (loop_body [] (toy_playing 0)).2 = Continue.
Proof.
  split.
  - destruct (loop_body_completion [] (toy_playing 1) (or_introl eq_refl))
      as [H _].
    assert (Hfin : finished (step_and_broadcast [] (toy_playing 1)) = true)
      by (vm_compute; reflexivity).
    destruct (H eq_refl Hfin) as (j & _ & Heq & _). rewrite Heq. reflexivity.
  - destruct (loop_body_completion [] (toy_playing 0) (or_introl eq_refl))
      as [_ H].
    destruct (H eq_refl) as (j & _ & Heq & _). rewrite Heq. reflexivity.
Defined.

(** ** More on the commands *)

Section MoreCommandFacts.
Context {Real World Entity : Type} `{Sim : Simulator Real World Entity}.

Local Abbreviation webviz := (CWebviz Real World).
Local Abbreviation effect := (Effect Real).

(** X1.  [ResetExperiment] works from every state: afterwards the state
    is initialized, the flag is cleared, the tick length is untouched and
    the engine has been reset.  It emits one event and one broadcast, and
    the snapshot of that broadcast is taken after the reset: it shows the
    initialized state and the step count of the reset engine. *)
Theorem ResetExperiment_resets (t : Thread) (w : webviz) :
  let w' := ResetExperiment t w in
  let s := SimulatorReset (m_cSimulator w) in
  m_eExperimentState w' = EXPERIMENT_INITIALIZED /\
  m_bFastForwarding w' = false /\
  m_cSimulatorTickMillis w' = m_cSimulatorTickMillis w /\
  m_cSimulator w' = s /\
  flag_matches_state w' /\
  count is_event (effects_since t w w') = 1%nat /\
  count is_broadcast (effects_since t w w') = 1%nat /\
  count is_step_call (effects_since t w w') = 0%nat /\
  exists j,
    effects_since t w w' = reset_effects (failure_lines s) j /\
    get "state" j = Some (JStr (EExperimentStateToStr EXPERIMENT_INITIALIZED)) /\
    get "steps" j = Some (JInt (GetSimulationClock s)).
Proof.
  intros w' s. subst w'.
  destruct (ResetExperiment_eq t w) as (j & Hj & Heq). fold s in Hj, Heq.
  rewrite Heq. cbn [m_eExperimentState m_bFastForwarding
                    m_cSimulatorTickMillis m_cSimulator].
  erewrite effects_since_same by reflexivity.
  repeat split; try done.
  1-3: unfold reset_effects; count_simpl; reflexivity.
  exists j. split; [done|]. split; [by eapply snapshot_state|].
  destruct (build_state_json_spec s EXPERIMENT_INITIALIZED)
    as (m & Hm & _ & _ & _ & _ & Hsteps).
  unfold snapshot_of in Hj. rewrite Hm in Hj. by injection Hj as <-.
Qed.

(** X2.  [StepExperiment] called while paused or initialized on a
    finished experiment makes no engine step: it calls the
    post-experiment hook, resets, emits "Experiment reset" and then
    "Experiment done", and broadcasts twice, once inside the reset and
    once at its own end; both snapshots show the initialized state. *)
Theorem StepExperiment_on_finished (t : Thread) (w : webviz) :
  is_running (m_eExperimentState w) = false ->
  finished w = true ->
  let w' := StepExperiment t w in
  let es := effects_since t w w' in
  m_eExperimentState w' = EXPERIMENT_INITIALIZED /\
  m_bFastForwarding w' = false /\
  m_cSimulator w' = SimulatorReset (PostExperiment (m_cSimulator w)) /\
  count is_step_call es = 0%nat /\
  count is_post_experiment es = 1%nat /\
  count is_event es = 2%nat /\
  count (is_event_named "Experiment step done") es = 0%nat /\
  count is_broadcast es = 2%nat /\
  Forall (fun e => forall j, e = Broadcast j ->
            get "state" j
            = Some (JStr (EExperimentStateToStr EXPERIMENT_INITIALIZED))) es.
Proof.
  intros Hrun Hfin w' es. subst es w'.
  destruct (StepExperiment_done t w Hrun Hfin) as (j & j' & Hj & Hj' & Heq).
  rewrite Heq. cbn [m_eExperimentState m_bFastForwarding m_cSimulator].
  erewrite effects_since_same by reflexivity.
  repeat split; try done.
  1-5: unfold done_effects, reset_effects; count_simpl; reflexivity.
  apply snapshot_state in Hj, Hj'.
  unfold done_effects, reset_effects.
  repeat first [ apply Forall_app_2 | apply Forall_cons_2 | apply Forall_nil_2
               | apply Forall_fmap, Forall_true; intros ? ?; discriminate ];
    intros j0 Hj0; try discriminate; by injection Hj0 as <-.
Qed.

(** X3.  A [StepExperiment] called while the experiment runs only pauses
    it; called again straight away it makes the step: with the
    experiment not finished, the two calls together make exactly one
    pre-step / engine step / post-step cycle, leave the state paused and
    the flag cleared, so that the flag again agrees with the state. *)
Theorem StepExperiment_twice (t : Thread) (w : webviz) :
  is_running (m_eExperimentState w) = true ->
  finished w = false ->
  let w' := StepExperiment t (StepExperiment t w) in
  let es := effects_since t w w' in
  m_eExperimentState w' = EXPERIMENT_PAUSED /\
  m_bFastForwarding w' = false /\
  flag_matches_state w' /\
  m_cSimulator w' = PostStep (UpdateSpace (PreStep (m_cSimulator w))) /\
  count is_update_space es = 1%nat /\
  count is_step_call es = 3%nat /\
  count (is_event_named "Experiment step done") es = 1%nat /\
  count is_broadcast es = 1%nat.
Proof.
  intros Hrun Hfin w' es. subst es w'.
  rewrite (StepExperiment_running t w Hrun).
  set (w1 := mkCWebviz _ _ _ _ _ _).
  destruct (StepExperiment_one_step t w1 eq_refl Hfin) as (j & Hj & Heq).
  rewrite Heq. cbn [m_eExperimentState m_bFastForwarding m_cSimulator w1].
  erewrite effects_since_same
    by (cbn [trace w1]; rewrite <- app_assoc; unfold by_thread;
        rewrite <- fmap_app; reflexivity).
  repeat split; try done.
  all: count_simpl; reflexivity.
Qed.

(** X4.  Doing a command twice.  A second [PauseExperiment] straight
    after one that succeeded always throws, naming the paused state.  A
    second [PlayExperiment] after one that was accepted is refused: it
    changes no field and emits no event.  [FastForwardExperiment] is
    accepted again and leaves the same fields. *)
Theorem commands_twice (t : Thread) (w : webviz) :
  (is_running (m_eExperimentState w) = true ->
   (PauseExperiment t (PauseExperiment t w).1).2
   = Thrown ("Cannot pause the experiment, current state : "
             +:+ EExperimentStateToStr EXPERIMENT_PAUSED))
  /\
  (is_running (m_eExperimentState w) = false ->
   let w1 := PlayExperiment t w in
   let w2 := PlayExperiment t w1 in
   m_eExperimentState w2 = EXPERIMENT_PLAYING /\
   m_bFastForwarding w2 = m_bFastForwarding w1 /\
   m_cSimulatorTickMillis w2 = m_cSimulatorTickMillis w1 /\
   m_cSimulator w2 = m_cSimulator w1 /\
   count is_event (effects_since t w1 w2) = 0%nat)
  /\
  (let w1 := FastForwardExperiment t w in
   let w2 := FastForwardExperiment t w1 in
   m_eExperimentState w2 = m_eExperimentState w1 /\
   m_bFastForwarding w2 = m_bFastForwarding w1 /\
   m_cSimulatorTickMillis w2 = m_cSimulatorTickMillis w1 /\
   m_cSimulator w2 = m_cSimulator w1 /\
   count is_event (effects_since t w1 w2) = 1%nat).
Proof.
  split; [|split].
  - intros Hrun. rewrite !PauseExperiment_eq.
    destruct (m_eExperimentState w); try discriminate; reflexivity.
  - intros Hrun w1 w2. subst w2 w1. rewrite !PlayExperiment_eq.
    destruct (m_eExperimentState w); try discriminate;
      cbn [m_eExperimentState m_bFastForwarding m_cSimulatorTickMillis
           m_cSimulator];
      (erewrite effects_since_same by reflexivity); done.
  - intros w1 w2. subst w2 w1. rewrite !FastForwardExperiment_eq.
    cbn [m_eExperimentState m_bFastForwarding m_cSimulatorTickMillis
         m_cSimulator].
    erewrite effects_since_same by reflexivity. done.
Qed.

(** X5.  While the experiment does not run, every command but
    [PauseExperiment] leaves the flag in agreement with the state,
    whatever the flag was before; [PauseExperiment] throws there and
    leaves the flag as it found it. *)
Theorem idle_command_restores_flag (t : Thread) (op : ControlOp) (w : webviz) :
  is_running (m_eExperimentState w) = false ->
  (op <> OpPause -> flag_matches_state (run_op t op w).1) /\
  (op = OpPause ->
   m_bFastForwarding (run_op t op w).1 = m_bFastForwarding w /\
   exists what, (run_op t op w).2 = Thrown what).
Proof.
  intros Hrun. unfold flag_matches_state. split.
  - intros Hop. destruct op; cbn [run_op fst].
    + rewrite PlayExperiment_eq.
      by destruct (m_eExperimentState w).
    + done.
    + by rewrite FastForwardExperiment_eq.
    + destruct (finished w) eqn:Hfin.
      * by destruct (StepExperiment_done t w Hrun Hfin) as (j & j' & _ & _ & ->).
      * destruct (StepExperiment_one_step t w Hrun Hfin) as (j & _ & ->).
        cbn. by destruct (m_eExperimentState w).
    + by destruct (ResetExperiment_eq t w) as (j & _ & ->).
  - intros ->. cbn [run_op]. rewrite PauseExperiment_eq.
    destruct (m_eExperimentState w); try discriminate; cbn; eauto.
Qed.

End MoreCommandFacts.

(** ** More on the simulation thread *)

Section MoreLoopFacts.
Context {Real World Entity : Type} `{Sim : Simulator Real World Entity}.

Local Abbreviation webviz := (CWebviz Real World).
Local Abbreviation effect := (Effect Real).

(** A pass entered running with the experiment not finished. *)
Lemma loop_body_running (sched : list (list ControlOp)) (w : webviz) :
  is_running (m_eExperimentState w) = true ->
  finished w = false ->
  let n := if m_bFastForwarding w then m_unDrawFrameEvery w else 1 in
  let r := steps_loop sched n (call SimulationThread CallPreStep PreStep w) in
  let w1 := step_and_broadcast sched w in
  let s' := SimulatorReset (PostExperiment (m_cSimulator w1)) in
  exists k ces j tail,
    grows w w1 (stepping_effects k (failure_lines (m_cSimulator r.1)) j) ces /\
    grows w (loop_body sched w).1
      (stepping_effects k (failure_lines (m_cSimulator r.1)) j ++ tail) ces /\
    snapshot_of (m_cSimulator r.1) (m_eExperimentState r.1) j /\
    r.2 = n - Z.of_nat k /\
    (k <= Z.to_nat n)%nat /\
    ((finished w1 = true /\ (loop_body sched w).2 = Return /\
      m_eExperimentState (loop_body sched w).1 = EXPERIMENT_INITIALIZED /\
      m_bFastForwarding (loop_body sched w).1 = false /\
      m_cSimulator (loop_body sched w).1 = s' /\
      exists j', snapshot_of s' EXPERIMENT_INITIALIZED j' /\
                 tail = done_effects (failure_lines s') j')
     \/
     (finished w1 = false /\ (loop_body sched w).2 = Continue /\
      m_eExperimentState (loop_body sched w).1 = m_eExperimentState w1 /\
      m_bFastForwarding (loop_body sched w).1 = m_bFastForwarding w1 /\
      tail = pace_effects w1)).
Proof.
  intros Hrun Hfin n r w1 s'.
  destruct (step_and_broadcast_summary sched w)
    as (k & ces & j & Hg & Hj & _ & Hr & Hk & _ & _).
  fold n in Hr, Hk. fold r in Hg, Hj, Hr. fold w1 in Hg.
  destruct (finished w1) eqn:Hfin1.
  - destruct (loop_body_done_after_step sched w Hrun Hfin Hfin1)
      as (j' & Hj' & Heq).
    fold w1 in Hj', Heq. fold s' in Hj', Heq.
    exists k, ces, j, (done_effects (failure_lines s') j').
    split; [exact Hg|]. rewrite Heq. cbn [fst snd]. split.
    { eapply grows_eq;
        [eapply grows_trans; [exact Hg|]; by apply grows_simulation
        |reflexivity|by rewrite app_nil_r]. }
    split; [exact Hj|]. split; [exact Hr|]. split; [exact Hk|].
    left. repeat split. by exists j'.
  - rewrite (loop_body_paced sched w Hrun Hfin Hfin1). fold w1.
    exists k, ces, j, (pace_effects w1).
    split; [exact Hg|]. cbn [fst snd]. split.
    { eapply grows_eq;
        [eapply grows_trans; [exact Hg|]; apply grows_simulation;
         rewrite pace_eq; reflexivity
        |reflexivity|by rewrite app_nil_r]. }
    split; [exact Hj|]. split; [exact Hr|]. split; [exact Hk|].
    right. rewrite pace_eq. by repeat split.
Qed.

Lemma count_pace_effects (w : webviz) :
  count is_update_space (pace_effects w) = 0%nat /\
  count is_step_call (pace_effects w) = 0%nat /\
  count is_broadcast (pace_effects w) = 0%nat /\
  count is_post_experiment (pace_effects w) = 0%nat.
Proof.
  unfold pace_effects. cbv zeta.
  repeat split; count_simpl; cbn [is_step_call is_post_experiment];
    by destruct (_ <? _).
Qed.

Lemma count_done_effects (lines : list string) (j : json Real) :
  count is_update_space (done_effects lines j) = 0%nat /\
  count is_step_call (done_effects lines j) = 0%nat /\
  count is_broadcast (done_effects lines j) = 1%nat /\
  count is_post_experiment (done_effects lines j) = 1%nat.
Proof.
  unfold done_effects, reset_effects.
  repeat split; count_simpl; cbn [is_step_call is_post_experiment];
    reflexivity.
Qed.

Lemma count_stepping_effects (k : nat) (lines : list string) (j : json Real) :
  count is_update_space (stepping_effects k lines j) = k /\
  count is_step_call (stepping_effects k lines j) = (k + 2)%nat /\
  count is_broadcast (stepping_effects k lines j) = 1%nat /\
  count is_post_experiment (stepping_effects k lines j) = 0%nat /\
  count is_pre_step (stepping_effects k lines j) = 1%nat /\
  count is_post_step (stepping_effects k lines j) = 1%nat.
Proof.
  unfold stepping_effects.
  repeat split; count_simpl; cbn [is_step_call is_post_experiment]; lia.
Qed.

End MoreLoopFacts.

Section MoreLoopClaims.
Context {Real World Entity : Type} `{Sim : Simulator Real World Entity}.

Local Abbreviation webviz := (CWebviz Real World).
Local Abbreviation effect := (Effect Real).

(** Passes that make no engine step. *)
Lemma pass_without_step_aux (sched : list (list ControlOp)) (w : webviz) :
  is_running (m_eExperimentState w) = false \/ finished w = true ->
  let w' := (loop_body sched w).1 in
  let es := effects_since SimulationThread w w' in
  (loop_body sched w).2 = Continue /\
  count is_step_call es = 0%nat /\
  count is_broadcast es = 1%nat /\
  effects_since ControlThread w w' = [] /\
  (is_running (m_eExperimentState w) = false ->
   m_eExperimentState w' = m_eExperimentState w /\
   m_bFastForwarding w' = m_bFastForwarding w /\
   m_cSimulator w' = SleepFor 250 (m_cSimulator w) /\
   count is_post_experiment es = 0%nat /\
   last es = Some (Sleep 250)) /\
  (is_running (m_eExperimentState w) = true ->
   m_eExperimentState w' = EXPERIMENT_INITIALIZED /\
   m_bFastForwarding w' = false /\
   m_cSimulator w' = SimulatorReset (PostExperiment (m_cSimulator w)) /\
   count is_post_experiment es = 1%nat /\
   count is_sleep es = 0%nat).
Proof.
  intros Hcase w' es. subst es w'.
  destruct (is_running (m_eExperimentState w)) eqn:Hrun.
  - destruct Hcase as [|Hfin]; [done|].
    destruct (loop_body_already_done sched w Hrun Hfin) as (j & Hj & ->).
    cbn [fst snd m_eExperimentState m_bFastForwarding m_cSimulator].
    erewrite effects_since_same by reflexivity.
    erewrite (effects_since_app ControlThread) by reflexivity.
    rewrite effects_of_other by done.
    destruct (count_done_effects
                (failure_lines (SimulatorReset (PostExperiment (m_cSimulator w))))
                j) as (_ & Hc & Hb & Hp).
    repeat split; try done.
    unfold done_effects, reset_effects. count_simpl. reflexivity.
  - rewrite (loop_body_idle sched w Hrun).
    destruct (BroadcastExperimentState_eq SimulationThread w) as (j & Hj & ->).
    cbn [fst snd]. unfold call, emit.
    cbn [m_eExperimentState m_bFastForwarding m_cSimulator set_simulator
         trace m_cSimulatorTickMillis m_unDrawFrameEvery].
    assert (Htr : (trace w
                   ++ by_thread SimulationThread
                        ((LogErr <$> failure_lines (m_cSimulator w))
                         ++ [Broadcast j]))
                  ++ [(SimulationThread, Sleep 250)]
                  = trace w
                    ++ by_thread SimulationThread
                         (((LogErr <$> failure_lines (m_cSimulator w))
                           ++ [Broadcast j]) ++ [Sleep 250])).
    { unfold by_thread. rewrite (fmap_app _ _ [Sleep 250]).
      by rewrite <- app_assoc. }
    rewrite Htr.
    erewrite effects_since_same by reflexivity.
    erewrite (effects_since_app ControlThread) by reflexivity.
    rewrite effects_of_other by done.
    repeat split; try done.
    + count_simpl. cbn [is_step_call]. reflexivity.
    + count_simpl. reflexivity.
    + count_simpl. cbn [is_post_experiment]. reflexivity.
    + by rewrite last_snoc.
Qed.


(** X7.  Every pass of the loop broadcasts: the simulation thread makes
    two broadcasts in the pass after which it returns and exactly one in
    every other pass. *)
Theorem broadcasts_per_pass (sched : list (list ControlOp)) (w : webviz) :
  count is_broadcast
    (effects_since SimulationThread w (loop_body sched w).1)
  = match (loop_body sched w).2 with
    | Return => 2%nat
    | Continue => 1%nat
    end.
Proof.
  destruct (is_running (m_eExperimentState w)) eqn:Hrun;
    [destruct (finished w) eqn:Hfin|].
  - destruct (pass_without_step_aux sched w (or_intror Hfin))
      as (Hc & _ & Hb & _).
    cbv zeta in Hc, Hb. by rewrite Hc, Hb.
  - destruct (loop_body_running sched w Hrun Hfin)
      as (k & ces & j & tail & _ & Hg & _ & _ & _ & Hcase).
    destruct (grows_since _ _ _ _ Hg) as [-> _]. rewrite count_app.
    destruct (count_stepping_effects k
                (failure_lines
                   (m_cSimulator
                      (steps_loop sched
                         (if m_bFastForwarding w then m_unDrawFrameEvery w
                          else 1)
                         (call SimulationThread CallPreStep PreStep w)).1)) j)
      as (_ & _ & -> & _).
    destruct Hcase as [(_ & -> & _ & _ & _ & j' & _ & ->)
                      | (_ & -> & _ & _ & ->)].
    + by destruct (count_done_effects
                     (failure_lines
                        (SimulatorReset
                           (PostExperiment
                              (m_cSimulator (step_and_broadcast sched w)))))
                     j') as (_ & _ & -> & _).
    + by destruct (count_pace_effects (step_and_broadcast sched w))
        as (_ & _ & -> & _).
  - destruct (pass_without_step_aux sched w (or_introl Hrun))
      as (Hc & _ & Hb & _).
    cbv zeta in Hc, Hb. by rewrite Hc, Hb.
Qed.

End MoreLoopClaims.

Section ThreadExit.
Context {Real World Entity : Type} `{Sim : Simulator Real World Entity}.

Local Abbreviation webviz := (CWebviz Real World).
Local Abbreviation effect := (Effect Real).

(** A pass returns only on the way through the steps. *)
Lemma loop_body_return_inv (sched : list (list ControlOp)) (w : webviz) :
  (loop_body sched w).2 = Return ->
  is_running (m_eExperimentState w) = true /\
  finished w = false /\
  finished (step_and_broadcast sched w) = true /\
  m_eExperimentState (loop_body sched w).1 = EXPERIMENT_INITIALIZED /\
  m_bFastForwarding (loop_body sched w).1 = false /\
  exists pre lines j,
    effects_of SimulationThread (trace (loop_body sched w).1)
    = pre ++ done_effects lines j.
Proof.
  intros Hret.
  destruct (is_running (m_eExperimentState w)) eqn:Hrun;
    [destruct (finished w) eqn:Hfin|].
  - destruct (pass_without_step_aux sched w (or_intror Hfin)) as (Hc & _).
    congruence.
  - destruct (loop_body_running sched w Hrun Hfin)
      as (k & ces & j & tail & _ & (tr & Htr & Hs & _) & _ & _ & _ & Hcase).
    destruct Hcase as [(Hf1 & _ & Hst & Hfl & _ & j' & _ & ->)
                      | (_ & Hc & _)]; [|congruence].
    repeat split; try done.
    eexists _, _, j'. rewrite Htr, effects_of_app, Hs, app_assoc. reflexivity.
  - destruct (pass_without_step_aux sched w (or_introl Hrun)) as (Hc & _).
    congruence.
Qed.


(** X10.  If the engine never reports the experiment finished,
    [SimulationThreadFunction] never returns, whatever commands arrive
    and however many passes it makes. *)
Theorem SimulationThreadFunction_never_returns
    (scheds : list (list (list ControlOp))) (w : webviz) :
  (forall s, IsExperimentFinished s = false) ->
  (SimulationThreadFunction scheds w).2 = Continue.
Proof.
  intros Hnever. revert w.
  induction scheds as [|sched scheds IH]; intros w; [done|].
  cbn [SimulationThreadFunction].
  destruct (loop_body sched w) as [w1 c] eqn:Hbody. destruct c; [apply IH|].
  assert (Hret : (loop_body sched w).2 = Return) by by rewrite Hbody.
  destruct (loop_body_return_inv sched w Hret) as (_ & _ & Hfin & _).
  unfold finished in Hfin. by rewrite Hnever in Hfin.
Qed.

(** X11.  [m_unDrawFrameEvery] is fixed once the object is set up: no
    command, no pass of the loop and no run of
    [SimulationThreadFunction] changes it. *)
Theorem unDrawFrameEvery_constant :
  (forall (t : Thread) (op : ControlOp) (w : webviz),
     m_unDrawFrameEvery (run_op t op w).1 = m_unDrawFrameEvery w) /\
  (forall (sched : list (list ControlOp)) (w : webviz),
     m_unDrawFrameEvery (loop_body sched w).1 = m_unDrawFrameEvery w) /\
  (forall (scheds : list (list (list ControlOp))) (w : webviz),
     m_unDrawFrameEvery (SimulationThreadFunction scheds w).1
     = m_unDrawFrameEvery w).
Proof.
  assert (Hpass : forall (sched : list (list ControlOp)) (w : webviz),
             m_unDrawFrameEvery (loop_body sched w).1 = m_unDrawFrameEvery w).
  { intros sched w.
    by destruct (loop_body_summary sched w) as (_ & _ & _ & _ & _ & ? & _). }
  split; [|split; [exact Hpass|]].
  - intros t op w.
    by destruct (run_op_summary t op w) as (_ & _ & _ & ? & _).
  - intros scheds. induction scheds as [|sched scheds IH]; intros w; [done|].
    cbn [SimulationThreadFunction]. specialize (Hpass sched w).
    destruct (loop_body sched w) as [w1 c]. cbn [fst] in Hpass.
    destruct c; [by rewrite IH|done].
Qed.

End ThreadExit.

Section Bursts.
Context {Real World Entity : Type} `{Sim : Simulator Real World Entity}.

Local Abbreviation webviz := (CWebviz Real World).
Local Abbreviation effect := (Effect Real).





(** The stepping loop makes no step at a check where the experiment is
    finished or no longer runs. *)
Lemma steps_loop_fuel_stop (fuel : nat) (sched : list (list ControlOp))
    (n : Z) (w : webviz) :
  let w' := interfere (default [] (head sched)) w in
  finished w' = true \/ is_running (m_eExperimentState w') = false ->
  steps_loop_fuel fuel sched n w = (w', n).
Proof.
  intros w' Hstop.
  assert (Hc : (0 <? n) && negb (finished w')
               && is_running (m_eExperimentState w') = false).
  { destruct Hstop as [-> | ->]; cbn [negb]; by rewrite ?andb_false_r. }
  destruct fuel; cbn [steps_loop_fuel]; fold w'; by rewrite Hc.
Qed.


(** X14.  A [PauseExperiment] or [StepExperiment] that arrives after the
    pre-step hook and before the first check of the stepping loop stops
    the pass from stepping: the simulation thread makes no engine step,
    but it has run the pre-step hook and still broadcasts and runs the
    post-step hook, and the snapshot shows the paused state. *)
Theorem pause_before_first_check (op : ControlOp)
    (rest : list (list ControlOp)) (w : webviz) :
  is_running (m_eExperimentState w) = true ->
  finished w = false ->
  op = OpPause \/ op = OpStep ->
  let w1 := step_and_broadcast ([op] :: rest) w in
  let es := effects_since SimulationThread w w1 in
  m_eExperimentState w1 = EXPERIMENT_PAUSED /\
  m_cSimulator w1 = PostStep (PreStep (m_cSimulator w)) /\
  count is_update_space es = 0%nat /\
  count is_pre_step es = 1%nat /\
  count is_post_step es = 1%nat /\
  count is_broadcast es = 1%nat /\
  Forall (fun e => forall j, e = Broadcast j ->
            get "state" j
            = Some (JStr (EExperimentStateToStr EXPERIMENT_PAUSED))) es.
Proof.
  intros Hrun Hfin Hop w1 es. subst es w1.
  set (w0 := call SimulationThread CallPreStep PreStep w).
  set (w3 := (run_op ControlThread op w0).1).
  assert (Hw3 : exists ces,
             w3 = mkCWebviz EXPERIMENT_PAUSED (m_bFastForwarding w3)
                    (m_cSimulatorTickMillis w) (m_unDrawFrameEvery w)
                    (PreStep (m_cSimulator w))
                    ((trace w ++ by_thread SimulationThread [CallPreStep])
                     ++ by_thread ControlThread ces)).
  { subst w3. destruct Hop as [-> | ->]; cbn [run_op fst].
    - rewrite PauseExperiment_eq. subst w0. unfold call, emit.
      cbn [m_eExperimentState m_bFastForwarding m_cSimulatorTickMillis
           m_unDrawFrameEvery m_cSimulator trace set_simulator].
      destruct (m_eExperimentState w); try discriminate;
        cbn [fst m_bFastForwarding]; by eexists.
    - rewrite (StepExperiment_running ControlThread w0) by done.
      cbn [m_bFastForwarding]. by eexists. }
  destruct Hw3 as (ces & Hw3).
  assert (Hloop : forall n, steps_loop ([op] :: rest) n w0 = (w3, n)).
  { intros n. apply steps_loop_fuel_stop. right.
    cbn [head default from_option id interfere foldl]. fold w3.
    by rewrite Hw3. }
  unfold step_and_broadcast. cbv zeta. fold w0. rewrite Hloop. cbn [fst].
  destruct (BroadcastExperimentState_eq SimulationThread w3) as (j & Hj & ->).
  rewrite Hw3 in Hj |- *. unfold call, emit, set_simulator.
  cbn [m_eExperimentState m_bFastForwarding m_cSimulatorTickMillis
       m_unDrawFrameEvery m_cSimulator trace] in Hj |- *.
  split; [done|]. split; [done|].
  erewrite (effects_since_app SimulationThread w) by
    (cbn [trace]; rewrite <- !app_assoc; reflexivity).
  rewrite !effects_of_app, !effects_of_same.
  rewrite (effects_of_other SimulationThread ControlThread) by done.
  change [(SimulationThread, @CallPostStep Real)]
    with (by_thread SimulationThread [@CallPostStep Real]).
  rewrite effects_of_same.
  split; [count_simpl; reflexivity|].
  split; [count_simpl; reflexivity|].
  split; [count_simpl; reflexivity|].
  split; [count_simpl; reflexivity|].
  apply snapshot_state in Hj.
  repeat first [ apply Forall_app_2 | apply Forall_cons_2 | apply Forall_nil_2
               | apply Forall_fmap, Forall_true; intros ? ?; discriminate ];
    intros j0 Hj0; try discriminate; by injection Hj0 as <-.
Qed.

End Bursts.

Section Pacing.
Context {Real World Entity : Type} `{Sim : Simulator Real World Entity}.

Local Abbreviation webviz := (CWebviz Real World).
Local Abbreviation effect := (Effect Real).

(** X18.  [pace] leaves state, flag, tick length and [m_unDrawFrameEvery]
    alone.  It stops the timer first and starts it again last, on both
    branches.  It sleeps exactly when the elapsed time is below the tick
    length, once, for the positive difference, which is at most the tick
    length when the elapsed time is not negative; otherwise it does not
    sleep and writes one warning to the log. *)
Theorem pace_waits (w : webviz) :
  let elapsed := TimerElapsed (m_cSimulator w) in
  let tick := m_cSimulatorTickMillis w in
  let es := effects_since SimulationThread w (pace w) in
  m_eExperimentState (pace w) = m_eExperimentState w /\
  m_bFastForwarding (pace w) = m_bFastForwarding w /\
  m_cSimulatorTickMillis (pace w) = tick /\
  m_unDrawFrameEvery (pace w) = m_unDrawFrameEvery w /\
  head es = Some TimerStop /\
  last es = Some TimerStart /\
  length es = 3%nat /\
  (elapsed < tick ->
   es !! 1%nat = Some (Sleep (tick - elapsed)) /\
   0 < tick - elapsed /\ (0 <= elapsed -> tick - elapsed <= tick) /\
   m_cSimulator (pace w) = SleepFor (tick - elapsed) (m_cSimulator w)) /\
  (tick <= elapsed ->
   count is_sleep es = 0%nat /\ count is_log es = 1%nat /\
   m_cSimulator (pace w) = m_cSimulator w).
Proof.
  intros elapsed tick es. subst es. rewrite pace_eq.
  fold elapsed. fold tick.
  cbn [m_eExperimentState m_bFastForwarding m_cSimulatorTickMillis
       m_unDrawFrameEvery m_cSimulator].
  erewrite effects_since_same by reflexivity.
  repeat split; try done.
  - destruct (Z.ltb_spec elapsed tick); [done|lia].
  - lia.
  - lia.
  - destruct (Z.ltb_spec elapsed tick); [done|lia].
  - destruct (Z.ltb_spec elapsed tick); [lia|]. count_simpl. reflexivity.
  - destruct (Z.ltb_spec elapsed tick); [lia|]. count_simpl. reflexivity.
  - destruct (Z.ltb_spec elapsed tick); [lia|done].
Qed.

End Pacing.

(** ** The further theorems at concrete inputs *)

Lemma StepExperiment_on_finished_witness :
  m_eExperimentState (StepExperiment ControlThread (toy 0 []))
  = EXPERIMENT_INITIALIZED /\
  count is_broadcast
    (effects_since ControlThread (toy 0 [])
       (StepExperiment ControlThread (toy 0 []))) = 2%nat.
Proof.
  assert (Hrun : is_running (m_eExperimentState (toy 0 [])) = false)
    by reflexivity.
  assert (Hfin : finished (toy 0 []) = true) by reflexivity.
  destruct (StepExperiment_on_finished ControlThread (toy 0 []) Hrun Hfin)
    as (Hst & _ & _ & _ & _ & _ & _ & Hb & _).
  split; [exact Hst|exact Hb].
Defined.

Lemma StepExperiment_twice_witness :
  flag_matches_state
    (StepExperiment ControlThread
       (StepExperiment ControlThread (toy_fast_forwarding 3))) /\
  count is_update_space
    (effects_since ControlThread (toy_fast_forwarding 3)
       (StepExperiment ControlThread
          (StepExperiment ControlThread (toy_fast_forwarding 3)))) = 1%nat.
Proof.
  assert (Hrun : is_running (m_eExperimentState (toy_fast_forwarding 3)) = true)
    by reflexivity.
  assert (Hfin : finished (toy_fast_forwarding 3) = false) by reflexivity.
  destruct (StepExperiment_twice ControlThread (toy_fast_forwarding 3)
              Hrun Hfin)
    as (_ & _ & Hflag & _ & Hone & _).
  split; [exact Hflag|exact Hone].
Defined.

Lemma commands_twice_witness :
  (PauseExperiment ControlThread
     (PauseExperiment ControlThread (toy_playing 3)).1).2
  = Thrown "Cannot pause the experiment, current state : EXPERIMENT_PAUSED" /\
  count is_event
    (effects_since ControlThread (toy_playing 3)
       (PlayExperiment ControlThread (toy_playing 3))) = 0%nat.
Proof.
  split.
  - destruct (commands_twice ControlThread (toy_playing 3)) as [H _].
    apply H. reflexivity.
  - destruct (commands_twice ControlThread (toy 3 [])) as (_ & H & _).
    destruct H as (_ & _ & _ & _ & Hnone); [reflexivity|]. exact Hnone.
Defined.

Lemma idle_command_restores_flag_witness :
  ~ flag_matches_state (StepExperiment ControlThread (toy_fast_forwarding 3)) /\
  flag_matches_state
    (PlayExperiment ControlThread
       (StepExperiment ControlThread (toy_fast_forwarding 3))).
Proof.
  split; [discriminate|].
  assert (Hidle : is_running
                    (m_eExperimentState
                       (StepExperiment ControlThread (toy_fast_forwarding 3)))
                  = false) by reflexivity.
  destruct (idle_command_restores_flag ControlThread OpPlay
              (StepExperiment ControlThread (toy_fast_forwarding 3)) Hidle)
    as [H _].
  apply H. discriminate.
Defined.


Lemma SimulationThreadFunction_never_returns_witness :
  (SimulationThreadFunction (Sim := EndlessSim)
     [[]; [[OpPause]]; [[OpFastForward]]; []] endless_playing).2 = Continue.
Proof.
  apply (SimulationThreadFunction_never_returns (Sim := EndlessSim)).
  intros s. reflexivity.
Defined.


Lemma pause_before_first_check_witness :
  m_eExperimentState (step_and_broadcast [[OpPause]] (toy_playing 3))
  = EXPERIMENT_PAUSED /\
  count is_update_space
    (effects_since SimulationThread (toy_playing 3)
       (step_and_broadcast [[OpPause]] (toy_playing 3))) = 0%nat.
Proof.
  assert (Hrun : is_running (m_eExperimentState (toy_playing 3)) = true)
    by reflexivity.
  assert (Hfin : finished (toy_playing 3) = false) by reflexivity.
  destruct (pause_before_first_check OpPause [] (toy_playing 3)
              Hrun Hfin (or_introl eq_refl))
    as (Hst & _ & Hnone & _).
  split; [exact Hst|exact Hnone].
Defined.

Lemma pace_waits_witness :
  effects_since SimulationThread (toy_playing 3) (pace (toy_playing 3)) !! 1%nat
  = Some (Sleep 100) /\
  count is_sleep
    (effects_since SimulationThread endless_playing
       (pace (Sim := EndlessSim) endless_playing)) = 0%nat.
Proof.
  split.
  - destruct (pace_waits (toy_playing 3)) as (_ & _ & _ & _ & _ & _ & _ & H & _).
    destruct H as [Hs _]; [vm_compute; reflexivity|]. exact Hs.
  - destruct (pace_waits (Sim := EndlessSim) endless_playing)
      as (_ & _ & _ & _ & _ & _ & _ & _ & H).
    destruct H as [Hs _]; [vm_compute; discriminate|]. exact Hs.
Defined.

(** ** The pass with the other thread coming in at every statement *)

Section SchedulingFacts.
Context {Real World Entity : Type} `{Sim : Simulator Real World Entity}.

Local Abbreviation webviz := (CWebviz Real World).
Local Abbreviation effect := (Effect Real).
Local Abbreviation interference := (Interference Real World).

Lemma interfered_idle (w : webviz) : interfered idle w = w.
Proof. reflexivity. Qed.

Lemma keeps_state_idle : keeps_state idle.
Proof. intros w. reflexivity. Qed.

Lemma sim_adds_refl (w : webviz) : sim_adds w w [].
Proof. split; [done|]. exists []. apply grows_refl. Qed.

Lemma sim_adds_eq (w w' : webviz) (ses ses' : list effect) :
  sim_adds w w' ses -> ses = ses' -> sim_adds w w' ses'.
Proof. by intros H <-. Qed.

Lemma sim_adds_trans (w w' w'' : webviz) (s1 s2 : list effect) :
  sim_adds w w' s1 -> sim_adds w' w'' s2 -> sim_adds w w'' (s1 ++ s2).
Proof.
  intros [Hd1 [c1 Hg1]] [Hd2 [c2 Hg2]]. split; [by rewrite Hd2|].
  exists (c1 ++ c2). by eapply grows_trans.
Qed.

Lemma sim_adds_interfered (i : interference) (w : webviz) :
  sim_adds w (interfered i w) [].
Proof.
  destruct i as [ops | st fl tick f ces]; cbn [interfered].
  - destruct (interfere_summary ops w) as (ces & Hg & _ & Hd & _).
    split; [exact Hd|]. by exists ces.
  - split; [done|]. exists ces. by apply grows_control.
Qed.

Lemma sim_adds_own (w w' : webviz) (es : list effect) :
  trace w' = trace w ++ by_thread SimulationThread es ->
  m_unDrawFrameEvery w' = m_unDrawFrameEvery w ->
  sim_adds w w' es.
Proof.
  intros Htr Hd. split; [exact Hd|]. exists []. by apply grows_simulation.
Qed.

Lemma then_interfered (w w' : webviz) (ses : list effect) (i : interference) :
  sim_adds w w' ses -> sim_adds w (interfered i w') ses.
Proof.
  intros H. eapply sim_adds_eq;
    [eapply sim_adds_trans; [exact H|apply sim_adds_interfered]|].
  apply app_nil_r.
Qed.

Lemma then_emit (w w' : webviz) (ses : list effect) (e : effect) :
  sim_adds w w' ses -> sim_adds w (emit SimulationThread e w') (ses ++ [e]).
Proof.
  intros H. eapply sim_adds_trans; [exact H|]. by apply sim_adds_own.
Qed.

Lemma then_call (w w' : webviz) (ses : list effect) (e : effect)
    (f : World -> World) :
  sim_adds w w' ses ->
  sim_adds w (call SimulationThread e f w') (ses ++ [e]).
Proof.
  intros H. eapply sim_adds_trans; [exact H|]. by apply sim_adds_own.
Qed.

Lemma then_set_state (w w' : webviz) (ses : list effect)
    (e : EExperimentState) :
  sim_adds w w' ses -> sim_adds w (set_state e w') ses.
Proof.
  intros H. eapply sim_adds_eq;
    [eapply sim_adds_trans; [exact H|apply (sim_adds_own _ _ [])]|];
    try done.
  - cbn. by rewrite app_nil_r.
  - apply app_nil_r.
Qed.

Lemma then_set_fast_forwarding (w w' : webviz) (ses : list effect)
    (b : bool) :
  sim_adds w w' ses -> sim_adds w (set_fast_forwarding b w') ses.
Proof.
  intros H. eapply sim_adds_eq;
    [eapply sim_adds_trans; [exact H|apply (sim_adds_own _ _ [])]|];
    try done.
  - cbn. by rewrite app_nil_r.
  - apply app_nil_r.
Qed.

Lemma then_broadcast (w w' : webviz) (ses : list effect) :
  sim_adds w w' ses ->
  exists j,
    snapshot_of (m_cSimulator w') (m_eExperimentState w') j /\
    sim_adds w (BroadcastExperimentState SimulationThread w')
      (ses ++ (LogErr <$> failure_lines (m_cSimulator w')) ++ [Broadcast j]).
Proof.
  intros H.
  destruct (BroadcastExperimentState_eq SimulationThread w') as (j & Hj & ->).
  exists j. split; [exact Hj|].
  eapply sim_adds_trans; [exact H|]. by apply sim_adds_own.
Qed.

Lemma BroadcastExperimentState_fields (t : Thread) (w : webviz) :
  m_eExperimentState (BroadcastExperimentState t w) = m_eExperimentState w /\
  m_bFastForwarding (BroadcastExperimentState t w) = m_bFastForwarding w /\
  m_cSimulator (BroadcastExperimentState t w) = m_cSimulator w.
Proof. by destruct (BroadcastExperimentState_eq t w) as (j & _ & ->). Qed.

(** *** "Experiment done" after the effects of a reset *)

Lemma done_follows_reset_no_done (es : list effect) :
  no_done es -> done_follows_reset es.
Proof.
  intros Hno pre st post Heq. by destruct (no_done_split _ _ _ _ Hno Heq).
Qed.

Lemma done_follows_reset_app (es1 es2 : list effect) :
  done_follows_reset es1 -> done_follows_reset es2 ->
  done_follows_reset (es1 ++ es2).
Proof.
  intros H1 H2 pre st post Heq.
  apply List.app_eq_app in Heq as [l [[-> Hl] | [-> Hl]]].
  - destruct l as [|x l].
    + cbn in Hl. destruct (H2 [] st post) as (pre' & st1 & lines & j & Hnil);
        [by rewrite <- Hl|].
      by destruct pre'.
    + injection Hl as <- _. exact (H1 pre st l eq_refl).
  - destruct (H2 l st post Hl) as (pre' & st1 & lines & j & ->).
    exists (es1 ++ pre'), st1, lines, j. by rewrite <- app_assoc.
Qed.

Lemma no_done_reset_shape (st : EExperimentState) (lines : list string)
    (j : json Real) :
  no_done (reset_shape st lines j).
Proof.
  unfold reset_shape, no_done. repeat apply Forall_app_2.
  - by repeat constructor.
  - apply Forall_fmap. by apply Forall_true.
  - by repeat constructor.
Qed.

Lemma done_follows_reset_done_shape (st1 : EExperimentState)
    (lines : list string) (j : json Real) (st2 : EExperimentState) :
  done_follows_reset (done_shape st1 lines j st2).
Proof.
  intros pre st post Heq. unfold done_shape in Heq.
  change (CallPostExperiment :: reset_shape st1 lines j
          ++ [EmitEvent "Experiment done" st2;
              Log ("[INFO] Experiment done" +:+ newline)])
    with ((CallPostExperiment :: reset_shape st1 lines j)
          ++ EmitEvent "Experiment done" st2
             :: [Log ("[INFO] Experiment done" +:+ newline)]) in Heq.
  assert (Hpre : no_done (CallPostExperiment :: reset_shape st1 lines j)).
  { constructor; [done|]. apply no_done_reset_shape. }
  apply List.app_eq_app in Heq as [l [[Hl1 Hl2] | [Hl1 Hl2]]].
  - destruct l as [|x l].
    + rewrite app_nil_r in Hl1. exists [], st1, lines, j. by rewrite <- Hl1.
    + injection Hl2 as Hx _. subst x.
      by destruct (no_done_split _ _ _ _ Hpre Hl1).
  - destruct l as [|x l].
    + rewrite app_nil_r in Hl1. exists [], st1, lines, j. by rewrite Hl1.
    + injection Hl2 as _ Hl2.
      assert (Hlog : no_done [Log ("[INFO] Experiment done" +:+ newline)
                              : effect]) by by repeat constructor.
      by destruct (no_done_split _ _ _ _ Hlog Hl2).
Qed.

(** *** The reset and the block that ends an experiment *)

Lemma ResetExperiment_at_adds (sch : ResetSchedule Real World)
    (w0 w : webviz) (ses : list effect) :
  sim_adds w0 w ses ->
  exists st1 lines j,
    sim_adds w0 (ResetExperiment_at sch w) (ses ++ reset_shape st1 lines j) /\
    (keeps_state (before_reset_emit sch) -> st1 = EXPERIMENT_INITIALIZED) /\
    (keeps_state (before_reset_emit sch) ->
     keeps_state (before_reset_broadcast sch) ->
     get "state" j
     = Some (JStr (EExperimentStateToStr EXPERIMENT_INITIALIZED))) /\
    (keeps_state (before_reset_emit sch) ->
     keeps_state (before_reset_broadcast sch) ->
     keeps_state (before_reset_log sch) ->
     m_eExperimentState (ResetExperiment_at sch w) = EXPERIMENT_INITIALIZED).
Proof.
  intros H0. unfold ResetExperiment_at.
  set (w1 := interfered (before_engine_reset sch) w).
  set (w2 := call SimulationThread CallSimulatorReset SimulatorReset w1).
  set (w3 := interfered (before_flag_store sch) w2).
  set (w4 := set_fast_forwarding false w3).
  set (w5 := interfered (before_state_store sch) w4).
  set (w6 := set_state EXPERIMENT_INITIALIZED w5).
  set (w7 := interfered (before_reset_emit sch) w6).
  set (w8 := emit SimulationThread _ w7).
  set (w9 := interfered (before_reset_broadcast sch) w8).
  set (w10 := BroadcastExperimentState SimulationThread w9).
  set (w11 := interfered (before_reset_log sch) w10).
  assert (H8 : sim_adds w0 w8
                 ((ses ++ [CallSimulatorReset])
                  ++ [EmitEvent "Experiment reset" (m_eExperimentState w7)])).
  { apply then_emit, then_interfered, then_set_state, then_interfered,
      then_set_fast_forwarding, then_interfered, then_call, then_interfered.
    exact H0. }
  destruct (then_broadcast w0 w9 _ (then_interfered _ _ _ _ H8))
    as (j & Hj & H10).
  fold w10 in H10.
  exists (m_eExperimentState w7), (failure_lines (m_cSimulator w9)), j.
  split; [|split; [|split]].
  - eapply sim_adds_eq; [apply then_emit, then_interfered, H10|].
    unfold reset_shape. rewrite <- !app_assoc. reflexivity.
  - intros K7. subst w7. by rewrite K7.
  - intros K7 K9. apply snapshot_state in Hj. rewrite Hj.
    subst w9 w8. rewrite K9. cbn [emit m_eExperimentState].
    subst w7. by rewrite K7.
  - intros K7 K9 K11. cbn [emit m_eExperimentState]. subst w11. rewrite K11.
    subst w10. destruct (BroadcastExperimentState_fields SimulationThread w9)
      as [-> _].
    subst w9 w8. rewrite K9. cbn [emit m_eExperimentState].
    subst w7. by rewrite K7.
Qed.

(** The state "Experiment done" is emitted with is the one read at the
    emit. *)
Lemma experiment_done_at_adds (sch : DoneSchedule Real World)
    (w0 w : webviz) (ses : list effect) :
  sim_adds w0 w ses ->
  let wr := ResetExperiment_at (in_reset sch)
              (call SimulationThread CallPostExperiment PostExperiment
                 (interfered (before_post_experiment sch) w)) in
  let st2 := m_eExperimentState (interfered (before_done_emit sch) wr) in
  exists st1 lines j,
    sim_adds w0 (experiment_done_at sch w)
      (ses ++ done_shape st1 lines j st2) /\
    (keeps_state (before_reset_emit (in_reset sch)) ->
     st1 = EXPERIMENT_INITIALIZED) /\
    (keeps_state (before_reset_emit (in_reset sch)) ->
     keeps_state (before_reset_broadcast (in_reset sch)) ->
     get "state" j
     = Some (JStr (EExperimentStateToStr EXPERIMENT_INITIALIZED))) /\
    (keeps_state (before_reset_emit (in_reset sch)) ->
     keeps_state (before_reset_broadcast (in_reset sch)) ->
     keeps_state (before_reset_log (in_reset sch)) ->
     keeps_state (before_done_emit sch) ->
     st2 = EXPERIMENT_INITIALIZED /\
     (keeps_state (before_done_log sch) ->
      m_eExperimentState (experiment_done_at sch w) = EXPERIMENT_INITIALIZED)).
Proof.
  intros H0 wr st2.
  destruct (ResetExperiment_at_adds (in_reset sch) w0
              (call SimulationThread CallPostExperiment PostExperiment
                 (interfered (before_post_experiment sch) w))
              (ses ++ [CallPostExperiment]))
    as (st1 & lines & j & Hr & Hst1 & Hj & Hend).
  { apply then_call, then_interfered, H0. }
  fold wr in Hr, Hend.
  exists st1, lines, j. split; [|split; [exact Hst1|split; [exact Hj|]]].
  - unfold experiment_done_at. cbv zeta. fold wr.
    eapply sim_adds_eq;
      [apply then_emit, then_interfered, then_emit, then_interfered, Hr|].
    unfold done_shape. fold st2. rewrite <- !app_assoc. reflexivity.
  - intros K7 K9 K11 Kd.
    assert (Hst2 : st2 = EXPERIMENT_INITIALIZED).
    { subst st2. rewrite Kd. by apply Hend. }
    split; [exact Hst2|]. intros Kl.
    unfold experiment_done_at. cbv zeta. fold wr.
    cbn [emit m_eExperimentState]. rewrite Kl. cbn [emit m_eExperimentState].
    exact Hst2.
Qed.

End SchedulingFacts.

Section ScheduledPass.
Context {Real World Entity : Type} `{Sim : Simulator Real World Entity}.

Local Abbreviation webviz := (CWebviz Real World).
Local Abbreviation effect := (Effect Real).
Local Abbreviation interference := (Interference Real World).

Lemma steps_loop_at_adds (fuel : nat)
    (sch : list (interference * interference)) (n : Z)
    (w0 w : webviz) (ses : list effect) :
  sim_adds w0 w ses ->
  exists k,
    sim_adds w0 (steps_loop_at fuel sch n w).1
      (ses ++ replicate k CallUpdateSpace) /\
    (steps_loop_at fuel sch n w).2 = n - Z.of_nat k /\
    (k <= Z.to_nat n)%nat.
Proof.
  revert sch n w ses. induction fuel as [|fuel IH]; intros sch n w ses H0;
    cbn [steps_loop_at];
    set (w1 := interfered (default idle (fst <$> head sch)) w);
    assert (H1 : sim_adds w0 w1 ses) by by apply then_interfered.
  - exists 0%nat. destruct (_ && _ && _); cbn [fst snd replicate];
      rewrite app_nil_r; (split; [exact H1|]); lia.
  - destruct ((0 <? n) && negb (finished w1)
              && is_running (m_eExperimentState w1)) eqn:Hc.
    + apply andb_true_iff in Hc as [Hc _].
      apply andb_true_iff in Hc as [Hpos _]. apply Z.ltb_lt in Hpos.
      destruct (IH (tail sch) (n - 1)
                  (call SimulationThread CallUpdateSpace UpdateSpace
                     (interfered (default idle (snd <$> head sch)) w1))
                  (ses ++ [CallUpdateSpace]))
        as (k & Hk & Hn & Hle).
      { by apply then_call, then_interfered. }
      exists (S k). split; [|split; [rewrite Hn; lia|lia]].
      eapply sim_adds_eq; [exact Hk|]. by rewrite <- app_assoc.
    + exists 0%nat. cbn [fst snd replicate]. rewrite app_nil_r.
      split; [exact H1|]. lia.
Qed.

Lemma steps_loop_at_exit (fuel : nat)
    (sch : list (interference * interference)) (n : Z) (w : webviz) :
  (Z.to_nat n <= fuel)%nat ->
  let r := steps_loop_at fuel sch n w in
  (0 <? r.2) && negb (finished r.1) && is_running (m_eExperimentState r.1)
  = false.
Proof.
  revert sch n w. induction fuel as [|fuel IH]; intros sch n w Hfuel;
    cbn [steps_loop_at];
    set (w1 := interfered (default idle (fst <$> head sch)) w).
  - assert (Hn : (0 <? n) = false) by (apply Z.ltb_ge; lia).
    rewrite Hn. cbn [andb fst snd]. by rewrite Hn.
  - destruct ((0 <? n) && negb (finished w1)
              && is_running (m_eExperimentState w1)) eqn:Hc.
    + apply IH. lia.
    + exact Hc.
Qed.

Lemma steps_loop_at_stop (fuel : nat)
    (sch : list (interference * interference)) (n : Z) (w : webviz) :
  let w' := interfered (default idle (fst <$> head sch)) w in
  finished w' = true \/ is_running (m_eExperimentState w') = false ->
  steps_loop_at fuel sch n w = (w', n).
Proof.
  intros w' Hstop.
  assert (Hc : (0 <? n) && negb (finished w')
               && is_running (m_eExperimentState w') = false).
  { destruct Hstop as [-> | ->]; cbn [negb]; by rewrite ?andb_false_r. }
  destruct fuel; cbn [steps_loop_at]; fold w'; by rewrite Hc.
Qed.

Lemma at_flag_read_adds (sch : PassSchedule Real World)
    (w0 w : webviz) (ses : list effect) :
  sim_adds w0 w ses -> sim_adds w0 (at_flag_read sch w) (ses ++ [CallPreStep]).
Proof.
  intros H0. unfold at_flag_read. by apply then_interfered, then_call, then_interfered.
Qed.

Lemma step_and_broadcast_at_adds (sch : PassSchedule Real World)
    (w0 w : webviz) (ses : list effect) :
  sim_adds w0 w ses ->
  let wc := at_flag_read sch w in
  let r := steps_loop_at (Z.to_nat (counter_at wc)) (in_steps sch)
             (counter_at wc) wc in
  exists k lines j,
    sim_adds w0 (step_and_broadcast_at sch w)
      (ses ++ stepping_effects k lines j) /\
    r.2 = counter_at wc - Z.of_nat k /\
    (k <= Z.to_nat (counter_at wc))%nat.
Proof.
  intros H0 wc r.
  destruct (steps_loop_at_adds (Z.to_nat (counter_at wc)) (in_steps sch)
              (counter_at wc) w0 wc (ses ++ [CallPreStep]))
    as (k & Hk & Hn & Hle); [by apply at_flag_read_adds|].
  fold r in Hk, Hn.
  destruct (then_broadcast w0 (interfered (before_broadcast sch) r.1) _
              (then_interfered _ _ _ _ Hk)) as (j & _ & Hb).
  exists k, (failure_lines
               (m_cSimulator (interfered (before_broadcast sch) r.1))), j.
  split; [|by split].
  unfold step_and_broadcast_at. cbv zeta. fold wc. fold r.
  eapply sim_adds_eq; [apply then_call, then_interfered, Hb|].
  unfold stepping_effects. rewrite <- !app_assoc. reflexivity.
Qed.

(** The ways through a pass. *)
Lemma loop_body_at_idle (sch : PassSchedule Real World) (w : webviz) :
  is_running (m_eExperimentState (interfered (before_state_check sch) w))
  = false ->
  loop_body_at sch w
  = (call SimulationThread (Sleep 250) (SleepFor 250)
       (interfered (before_idle_sleep sch)
          (BroadcastExperimentState SimulationThread
             (interfered (before_idle_broadcast sch)
                (interfered (before_state_check sch) w)))), Continue).
Proof. intros Hrun. unfold loop_body_at. cbv zeta. by rewrite Hrun. Qed.

Lemma loop_body_at_already_done (sch : PassSchedule Real World) (w : webviz) :
  let wa := interfered (before_state_check sch) w in
  let wb := interfered (before_finished_check sch) wa in
  is_running (m_eExperimentState wa) = true ->
  finished wb = true ->
  loop_body_at sch w = (experiment_done_at (in_done sch) wb, Continue).
Proof.
  intros wa wb Hrun Hfin. unfold loop_body_at. cbv zeta.
  fold wa. rewrite Hrun. fold wb. by rewrite Hfin.
Qed.

Lemma loop_body_at_done_after_step (sch : PassSchedule Real World)
    (w : webviz) :
  let wa := interfered (before_state_check sch) w in
  let wb := interfered (before_finished_check sch) wa in
  let wr := interfered (before_finished_recheck sch)
              (step_and_broadcast_at sch wb) in
  is_running (m_eExperimentState wa) = true ->
  finished wb = false ->
  finished wr = true ->
  loop_body_at sch w = (experiment_done_at (in_done sch) wr, Return).
Proof.
  intros wa wb wr Hrun Hfin Hfin1. unfold loop_body_at. cbv zeta.
  fold wa. rewrite Hrun. fold wb. rewrite Hfin. cbn [negb]. fold wr.
  by rewrite Hfin1.
Qed.

Lemma loop_body_at_paced (sch : PassSchedule Real World) (w : webviz) :
  let wa := interfered (before_state_check sch) w in
  let wb := interfered (before_finished_check sch) wa in
  let wr := interfered (before_finished_recheck sch)
              (step_and_broadcast_at sch wb) in
  is_running (m_eExperimentState wa) = true ->
  finished wb = false ->
  finished wr = false ->
  loop_body_at sch w = (pace (interfered (before_pace sch) wr), Continue).
Proof.
  intros wa wb wr Hrun Hfin Hfin1. unfold loop_body_at. cbv zeta.
  fold wa. rewrite Hrun. fold wb. rewrite Hfin. cbn [negb]. fold wr.
  by rewrite Hfin1.
Qed.

Lemma then_pace (w w' : webviz) (ses : list effect) :
  sim_adds w w' ses -> sim_adds w (pace w') (ses ++ pace_effects w').
Proof.
  intros H. eapply sim_adds_trans; [exact H|].
  apply sim_adds_own; by rewrite pace_eq.
Qed.

(** A pass entered running with the experiment not finished. *)
Lemma loop_body_at_running (sch : PassSchedule Real World) (w : webviz) :
  let wa := interfered (before_state_check sch) w in
  let wb := interfered (before_finished_check sch) wa in
  let wc := at_flag_read sch wb in
  let r := steps_loop_at (Z.to_nat (counter_at wc)) (in_steps sch)
             (counter_at wc) wc in
  let w1 := step_and_broadcast_at sch wb in
  is_running (m_eExperimentState wa) = true ->
  finished wb = false ->
  exists k lines j tail,
    sim_adds w w1 (stepping_effects k lines j) /\
    sim_adds w (loop_body_at sch w).1 (stepping_effects k lines j ++ tail) /\
    r.2 = counter_at wc - Z.of_nat k /\
    (k <= Z.to_nat (counter_at wc))%nat /\
    (((loop_body_at sch w).2 = Return /\
      exists st1 lines' j' st2, tail = done_shape st1 lines' j' st2)
     \/
     ((loop_body_at sch w).2 = Continue /\
      exists wp, tail = pace_effects wp)).
Proof.
  intros wa wb wc r w1 Hrun Hfin.
  assert (Hb : sim_adds w wb [])
    by apply then_interfered, then_interfered, sim_adds_refl.
  destruct (step_and_broadcast_at_adds sch w wb [] Hb)
    as (k & lines & j & H1 & Hn & Hle).
  fold wc in Hn, Hle. fold r in Hn. fold w1 in H1. cbn [app] in H1.
  set (wr := interfered (before_finished_recheck sch) w1).
  destruct (finished wr) eqn:Hfin1.
  - rewrite (loop_body_at_done_after_step sch w Hrun Hfin Hfin1).
    fold wa wb w1 wr. cbn [fst snd].
    destruct (experiment_done_at_adds (in_done sch) w wr _
                (then_interfered _ _ _ _ H1))
      as (st1 & lines' & j' & Hd & _).
    eexists k, lines, j, _. split; [exact H1|]. split; [exact Hd|].
    split; [exact Hn|]. split; [exact Hle|]. left. split; [done|]. eauto.
  - rewrite (loop_body_at_paced sch w Hrun Hfin Hfin1).
    fold wa wb w1 wr. cbn [fst snd].
    eexists k, lines, j, _. split; [exact H1|].
    split; [apply then_pace, then_interfered, (then_interfered _ _ _ _ H1)|].
    split; [exact Hn|]. split; [exact Hle|]. right. split; [done|]. eauto.
Qed.

Lemma no_done_stepping_effects (k : nat) (lines : list string)
    (j : json Real) :
  no_done (stepping_effects k lines j).
Proof.
  unfold stepping_effects. apply Forall_app_2; [by repeat constructor|].
  apply Forall_app_2; [by apply Forall_replicate|].
  apply no_done_broadcast. by repeat constructor.
Qed.

Lemma no_done_pace_effects (w : webviz) : no_done (pace_effects w).
Proof.
  unfold pace_effects. cbv zeta. destruct (_ <? _); by repeat constructor.
Qed.

(** What every pass adds to the simulation thread's effects. *)
Lemma loop_body_at_summary (sch : PassSchedule Real World) (w : webviz) :
  exists ses,
    sim_adds w (loop_body_at sch w).1 ses /\ done_follows_reset ses.
Proof.
  set (wa := interfered (before_state_check sch) w).
  set (wb := interfered (before_finished_check sch) wa).
  assert (Hb : sim_adds w wb [])
    by apply then_interfered, then_interfered, sim_adds_refl.
  destruct (is_running (m_eExperimentState wa)) eqn:Hrun;
    [destruct (finished wb) eqn:Hfin|].
  - rewrite (loop_body_at_already_done sch w Hrun Hfin). fold wa wb.
    destruct (experiment_done_at_adds (in_done sch) w wb [] Hb)
      as (st1 & lines & j & Hd & _).
    eexists. split; [exact Hd|]. apply done_follows_reset_done_shape.
  - destruct (loop_body_at_running sch w Hrun Hfin)
      as (k & lines & j & tail & _ & H' & _ & _ & Hcase).
    eexists. split; [exact H'|].
    apply done_follows_reset_app.
    + apply done_follows_reset_no_done, no_done_stepping_effects.
    + destruct Hcase as [(_ & st1 & lines' & j' & st2 & ->) | (_ & wp & ->)].
      * apply done_follows_reset_done_shape.
      * apply done_follows_reset_no_done, no_done_pace_effects.
  - rewrite (loop_body_at_idle sch w Hrun). fold wa.
    destruct (then_broadcast w (interfered (before_idle_broadcast sch) wa) []
                (then_interfered _ _ _ _
                   (then_interfered _ _ _ (before_state_check sch)
                      (sim_adds_refl w))))
      as (j & _ & H1).
    eexists. split; [apply then_call, then_interfered, H1|].
    apply done_follows_reset_no_done. cbn [app]. rewrite <- app_assoc.
    apply no_done_broadcast. by repeat constructor.
Qed.

Lemma SimulationThreadFunction_at_summary
    (scheds : list (PassSchedule Real World)) (w : webviz) :
  exists ses,
    sim_adds w (SimulationThreadFunction_at scheds w).1 ses /\
    done_follows_reset ses.
Proof.
  revert w. induction scheds as [|sch scheds IH]; intros w.
  - exists []. split; [apply sim_adds_refl|].
    apply done_follows_reset_no_done. constructor.
  - cbn [SimulationThreadFunction_at].
    destruct (loop_body_at_summary sch w) as (ses & H1 & Hd1).
    destruct (loop_body_at sch w) as [w1 c]. cbn [fst] in H1. destruct c.
    + destruct (IH w1) as (ses2 & H2 & Hd2).
      exists (ses ++ ses2). split; [by eapply sim_adds_trans|].
      by apply done_follows_reset_app.
    + by exists ses.
Qed.

Lemma sim_adds_since (w w' : webviz) (ses : list effect) :
  sim_adds w w' ses -> effects_since SimulationThread w w' = ses.
Proof.
  intros [_ [ces Hg]]. by destruct (grows_since _ _ _ _ Hg).
Qed.

(** With the other thread coming in only at the checks of the stepping
    loop, and with whole commands, the pass is the one of [loop_body]. *)
Lemma steps_loop_at_checks_only (fuel : nat) (sched : list (list ControlOp))
    (n : Z) (w : webviz) :
  steps_loop_at fuel ((fun ops => (Served ops, idle)) <$> sched) n w
  = steps_loop_fuel fuel sched n w.
Proof.
  revert sched n w. induction fuel as [|fuel IH]; intros sched n w;
    cbn [steps_loop_at steps_loop_fuel];
    destruct sched as [|ops sched]; cbn; try reflexivity.
  - destruct (_ && _ && _); [|reflexivity]. apply (IH []).
  - destruct (_ && _ && _); [|reflexivity]. apply IH.
Qed.

Lemma loop_body_at_checks_only (sched : list (list ControlOp)) (w : webviz) :
  loop_body_at (at_checks_only sched) w = loop_body sched w.
Proof.
  unfold loop_body_at, loop_body, step_and_broadcast_at, step_and_broadcast,
    at_flag_read, counter_at, steps_loop.
  cbn [at_checks_only before_state_check before_finished_check
       before_pre_step before_flag_read in_steps before_broadcast
       before_post_step before_finished_recheck in_done before_pace
       before_idle_broadcast before_idle_sleep].
  rewrite ?interfered_idle. cbv zeta. rewrite ?interfered_idle.
  rewrite steps_loop_at_checks_only. reflexivity.
Qed.

End ScheduledPass.

(** ** What holds however the other thread comes in *)

Section ScheduledClaims.
Context {Real World Entity : Type} `{Sim : Simulator Real World Entity}.

Local Abbreviation webviz := (CWebviz Real World).
Local Abbreviation effect := (Effect Real).
Local Abbreviation interference := (Interference Real World).

Lemma count_done_shape (st1 : EExperimentState) (lines : list string)
    (j : json Real) (st2 : EExperimentState) :
  count is_update_space (done_shape st1 lines j st2) = 0%nat /\
  count is_broadcast (done_shape st1 lines j st2) = 1%nat /\
  count is_pre_step (done_shape st1 lines j st2) = 0%nat /\
  count is_post_step (done_shape st1 lines j st2) = 0%nat.
Proof.
  unfold done_shape, reset_shape. repeat split; count_simpl; reflexivity.
Qed.

Lemma count_pace_hooks (w : webviz) :
  count is_pre_step (pace_effects w) = 0%nat /\
  count is_post_step (pace_effects w) = 0%nat.
Proof.
  unfold pace_effects. cbv zeta.
  split; count_simpl; by destruct (_ <? _).
Qed.

(** The counts of a pass entered running with the experiment not
    finished. *)
Lemma loop_body_at_counts (sch : PassSchedule Real World) (w : webviz) :
  let wa := interfered (before_state_check sch) w in
  let wb := interfered (before_finished_check sch) wa in
  let wc := at_flag_read sch wb in
  let r := steps_loop_at (Z.to_nat (counter_at wc)) (in_steps sch)
             (counter_at wc) wc in
  let w1 := step_and_broadcast_at sch wb in
  let es := effects_since SimulationThread w (loop_body_at sch w).1 in
  is_running (m_eExperimentState wa) = true ->
  finished wb = false ->
  counter_at wc = (if m_bFastForwarding wc then m_unDrawFrameEvery w else 1) /\
  (count is_update_space es <= Z.to_nat (counter_at wc))%nat /\
  Z.of_nat (count is_update_space es) = counter_at wc - r.2 /\
  count is_pre_step es = 1%nat /\
  count is_post_step es = 1%nat /\
  count is_broadcast (effects_since SimulationThread w w1) = 1%nat /\
  count is_broadcast es
  = match (loop_body_at sch w).2 with
    | Return => 2%nat
    | Continue => 1%nat
    end.
Proof.
  intros wa wb wc r w1 es Hrun Hfin.
  destruct (loop_body_at_running sch w Hrun Hfin)
    as (k & lines & j & tail & H1 & H' & Hn & Hle & Hcase).
  subst es w1 r wc wb wa.
  rewrite (sim_adds_since _ _ _ H1), (sim_adds_since _ _ _ H').
  set (wc := at_flag_read sch _) in *.
  assert (Hd : m_unDrawFrameEvery wc = m_unDrawFrameEvery w).
  { assert (Hc : sim_adds w wc ([] ++ [CallPreStep])).
    { apply at_flag_read_adds, then_interfered, then_interfered,
        sim_adds_refl. }
    by destruct Hc. }
  split; [unfold counter_at; by rewrite Hd|].
  rewrite !count_app.
  destruct (count_stepping_effects k lines j) as (-> & _ & -> & _ & -> & ->).
  destruct Hcase as [(-> & st1 & lines' & j' & st2 & ->) | (-> & wp & ->)].
  - destruct (count_done_shape st1 lines' j' st2) as (-> & -> & -> & ->).
    repeat split; lia.
  - destruct (count_pace_effects wp) as (-> & _ & -> & _).
    destruct (count_pace_hooks wp) as (-> & ->).
    repeat split; lia.
Qed.

(** C5, as the code has it.  In a pass that finds the state
    fast-forwarding and the experiment not finished, the simulation
    thread makes at most as many engine steps as the counter it sets from
    the flag read at line 106: [m_unDrawFrameEvery] if the flag is set,
    one if a command has cleared it in the meantime.  So it makes at most
    [m_unDrawFrameEvery] steps whenever the flag is read set, as it is
    when the flag agreed with the state at entry and no command is served
    before the read, and never more than the larger of
    [m_unDrawFrameEvery] and one.  Up to and including the post-step
    hook it broadcasts exactly once, however many steps it made; in the
    pass after which it returns, the reset broadcasts once more, so that
    pass has two broadcasts and every other one.  The stepping loop ends
    with steps left over only if the engine has finished or the state is
    no longer playing or fast-forwarding, and it makes no step at a check
    where one of the two holds.  All this whatever the other thread does
    between any two statements of the pass. *)
Theorem fast_forward_pass_at (sch : PassSchedule Real World) (w : webviz) :
  let wa := interfered (before_state_check sch) w in
  let wb := interfered (before_finished_check sch) wa in
  m_eExperimentState wa = EXPERIMENT_FAST_FORWARDING ->
  finished wb = false ->
  let N := m_unDrawFrameEvery w in
  let wc := at_flag_read sch wb in
  let r := steps_loop_at (Z.to_nat (counter_at wc)) (in_steps sch)
             (counter_at wc) wc in
  let w1 := step_and_broadcast_at sch wb in
  let w' := (loop_body_at sch w).1 in
  let steps := count is_update_space (effects_since SimulationThread w w') in
  counter_at wc = (if m_bFastForwarding wc then N else 1) /\
  (steps <= Z.to_nat (counter_at wc))%nat /\
  Z.of_nat steps = counter_at wc - r.2 /\
  (m_bFastForwarding wc = true -> (steps <= Z.to_nat N)%nat) /\
  (steps <= Z.to_nat (Z.max N 1))%nat /\
  (flag_matches_state w ->
   before_state_check sch = idle -> before_finished_check sch = idle ->
   before_pre_step sch = idle -> before_flag_read sch = idle ->
   (steps <= Z.to_nat N)%nat) /\
  count is_broadcast (effects_since SimulationThread w w1) = 1%nat /\
  count is_broadcast (effects_since SimulationThread w w')
  = match (loop_body_at sch w).2 with
    | Return => 2%nat
    | Continue => 1%nat
    end /\
  (0 < r.2 ->
   finished r.1 = true \/ is_running (m_eExperimentState r.1) = false) /\
  (forall fuel sch' n w2,
     let w3 := interfered (default idle (fst <$> head sch')) w2 in
     finished w3 = true \/ is_running (m_eExperimentState w3) = false ->
     steps_loop_at fuel sch' n w2 = (w3, n)).
Proof.
  intros wa wb Hst Hfin N wc r w1 w' steps.
  assert (Hrun : is_running (m_eExperimentState wa) = true) by by rewrite Hst.
  destruct (loop_body_at_counts sch w Hrun Hfin)
    as (Hcnt & Hle & Hsteps & _ & _ & Hb1 & Hb).
  change (counter_at wc = (if m_bFastForwarding wc then N else 1)) in Hcnt.
  change (steps <= Z.to_nat (counter_at wc))%nat in Hle.
  change (Z.of_nat steps = counter_at wc - r.2) in Hsteps.
  assert (Hflag : m_bFastForwarding wc = true -> (steps <= Z.to_nat N)%nat).
  { intros Hf. rewrite Hcnt, Hf in Hle. exact Hle. }
  split; [exact Hcnt|]. split; [exact Hle|]. split; [exact Hsteps|].
  split; [exact Hflag|].
  split.
  { rewrite Hcnt in Hle. destruct (m_bFastForwarding wc); lia. }
  split.
  { intros Hw Ha Hb' Hp Hf. apply Hflag.
    assert (Hst' : m_eExperimentState w = EXPERIMENT_FAST_FORWARDING).
    { subst wa. by rewrite Ha, interfered_idle in Hst. }
    subst wc wb wa. unfold at_flag_read.
    rewrite Hp, Hf, Hb', Ha. rewrite !interfered_idle.
    cbn [call emit set_simulator m_bFastForwarding].
    rewrite Hw, Hst'. by decide_states. }
  split; [exact Hb1|]. split; [exact Hb|].
  split.
  - intros Hleft.
    pose proof (steps_loop_at_exit (Z.to_nat (counter_at wc)) (in_steps sch)
                  (counter_at wc) wc (le_n _)) as Hexit.
    cbv zeta in Hexit. fold r in Hexit.
    replace (0 <? r.2) with true in Hexit by (symmetry; by apply Z.ltb_lt).
    cbn [andb] in Hexit. apply andb_false_iff in Hexit as [Hf | Hr'].
    + left. by apply negb_false_iff.
    + by right.
  - intros fuel sch' n w2. apply steps_loop_at_stop.
Qed.

(** C9, as the code has it.  Every "Experiment done" the simulation thread
    emits, on either completion path and whatever the other thread does
    between any two statements, comes in that thread's effects straight
    after the effects of [ResetExperiment] (engine reset, "Experiment
    reset", the broadcast of a snapshot, the log line), themselves
    straight after the post-experiment hook.  It carries the state read at
    the emit.  When nothing that is served between the store of the state
    inside the reset and the emit changes the state, that state is
    initialized, "Experiment reset" carries it and the snapshot shows it;
    a command served in between can make it another.  [StepExperiment]
    run on its own on a finished experiment emits it the same way, with
    the initialized state. *)
Theorem done_event_follows_reset :
  (forall (scheds : list (PassSchedule Real World)) (w : webviz),
     done_follows_reset
       (effects_since SimulationThread w
          (SimulationThreadFunction_at scheds w).1)) /\
  (forall (sch : PassSchedule Real World) (w : webviz),
     let wa := interfered (before_state_check sch) w in
     let wb := interfered (before_finished_check sch) wa in
     let wr := interfered (before_finished_recheck sch)
                 (step_and_broadcast_at sch wb) in
     is_running (m_eExperimentState wa) = true ->
     (finished wb = true ->
      loop_body_at sch w = (experiment_done_at (in_done sch) wb, Continue)) /\
     (finished wb = false -> finished wr = true ->
      loop_body_at sch w = (experiment_done_at (in_done sch) wr, Return))) /\
  (forall (sch : DoneSchedule Real World) (w : webviz),
     let wr := ResetExperiment_at (in_reset sch)
                 (call SimulationThread CallPostExperiment PostExperiment
                    (interfered (before_post_experiment sch) w)) in
     let st2 := m_eExperimentState (interfered (before_done_emit sch) wr) in
     exists st1 lines j,
       effects_since SimulationThread w (experiment_done_at sch w)
       = done_shape st1 lines j st2 /\
       (keeps_state (before_reset_emit (in_reset sch)) ->
        keeps_state (before_reset_broadcast (in_reset sch)) ->
        keeps_state (before_reset_log (in_reset sch)) ->
        keeps_state (before_done_emit sch) ->
        st1 = EXPERIMENT_INITIALIZED /\
        st2 = EXPERIMENT_INITIALIZED /\
        get "state" j
        = Some (JStr (EExperimentStateToStr EXPERIMENT_INITIALIZED)))) /\
  (forall (t : Thread) (w : webviz),
     is_running (m_eExperimentState w) = false ->
     finished w = true ->
     exists lines j rest,
       effects_since t w (StepExperiment t w)
       = done_shape EXPERIMENT_INITIALIZED lines j EXPERIMENT_INITIALIZED
         ++ rest /\
       get "state" j
       = Some (JStr (EExperimentStateToStr EXPERIMENT_INITIALIZED)) /\
       no_done rest).
Proof.
  split; [|split; [|split]].
  - intros scheds w.
    destruct (SimulationThreadFunction_at_summary scheds w) as (ses & H & Hd).
    by rewrite (sim_adds_since _ _ _ H).
  - intros sch w wa wb wr Hrun. split.
    + intros Hfin. by apply loop_body_at_already_done.
    + intros Hfin Hfin1. by apply loop_body_at_done_after_step.
  - intros sch w wr st2.
    destruct (experiment_done_at_adds sch w w [] (sim_adds_refl w))
      as (st1 & lines & j & H & Hst1 & Hj & Hst2).
    fold wr in Hst2. fold st2 in H, Hst2. cbn [app] in H.
    exists st1, lines, j. split; [by rewrite (sim_adds_since _ _ _ H)|].
    intros K7 K9 K11 Kd. split; [by apply Hst1|].
    split; [by destruct (Hst2 K7 K9 K11 Kd)|by apply Hj].
  - intros t w Hrun Hfin.
    destruct (StepExperiment_done t w Hrun Hfin) as (j & j' & Hj & Hj' & Heq).
    eexists _, j, _. split; [|split; [by eapply snapshot_state|]].
    + erewrite effects_since_same by (rewrite Heq; reflexivity). reflexivity.
    + apply no_done_broadcast. constructor.
Qed.

(** A pass returns only on the way through the steps. *)
Lemma loop_body_at_return_inv (sch : PassSchedule Real World) (w : webviz) :
  let wa := interfered (before_state_check sch) w in
  let wb := interfered (before_finished_check sch) wa in
  let wr := interfered (before_finished_recheck sch)
              (step_and_broadcast_at sch wb) in
  (loop_body_at sch w).2 = Return ->
  is_running (m_eExperimentState wa) = true /\
  finished wb = false /\
  finished wr = true /\
  (loop_body_at sch w).1 = experiment_done_at (in_done sch) wr.
Proof.
  intros wa wb wr Hret.
  destruct (is_running (m_eExperimentState wa)) eqn:Hrun;
    [destruct (finished wb) eqn:Hfin; [|destruct (finished wr) eqn:Hfin1]|].
  - by rewrite (loop_body_at_already_done sch w Hrun Hfin) in Hret.
  - by rewrite (loop_body_at_done_after_step sch w Hrun Hfin Hfin1).
  - by rewrite (loop_body_at_paced sch w Hrun Hfin Hfin1) in Hret.
  - by rewrite (loop_body_at_idle sch w Hrun) in Hret.
Qed.

(** X9.  When [SimulationThreadFunction] has returned, whatever the other
    thread did between any two of its statements, the last thing the
    simulation thread did is the block that ends an experiment
    (post-experiment hook, engine reset, "Experiment reset", the reset's
    broadcast, "Experiment done"), and schedules for further passes change
    nothing: no pass is made after the return.  The pass that returns
    leaves the state initialized when nothing served after the store of
    the state inside the reset changes it. *)
Theorem SimulationThreadFunction_at_returned
    (scheds : list (PassSchedule Real World)) (w w' : webviz) :
  SimulationThreadFunction_at scheds w = (w', Return) ->
  (exists pre st1 lines j st2,
     effects_of SimulationThread (trace w')
     = pre ++ done_shape st1 lines j st2) /\
  (forall more,
     SimulationThreadFunction_at (scheds ++ more) w = (w', Return)) /\
  (forall sch w0,
     (loop_body_at sch w0).2 = Return ->
     keeps_state (before_reset_emit (in_reset (in_done sch))) ->
     keeps_state (before_reset_broadcast (in_reset (in_done sch))) ->
     keeps_state (before_reset_log (in_reset (in_done sch))) ->
     keeps_state (before_done_emit (in_done sch)) ->
     keeps_state (before_done_log (in_done sch)) ->
     m_eExperimentState (loop_body_at sch w0).1 = EXPERIMENT_INITIALIZED).
Proof.
  intros Heq. split; [|split].
  - revert w Heq. induction scheds as [|sch scheds IH]; intros w Heq;
      [discriminate|].
    cbn [SimulationThreadFunction_at] in Heq.
    destruct (loop_body_at sch w) as [w1 c] eqn:Hbody. destruct c.
    + by apply (IH w1).
    + injection Heq as <-.
      assert (Hret : (loop_body_at sch w).2 = Return) by by rewrite Hbody.
      destruct (loop_body_at_return_inv sch w Hret) as (_ & _ & _ & Hw1).
      rewrite Hbody in Hw1. cbn [fst] in Hw1. rewrite Hw1.
      set (wr := interfered _ _).
      destruct (experiment_done_at_adds (in_done sch) wr wr []
                  (sim_adds_refl wr))
        as (st1 & lines & j & [_ [ces (tr & Htr & Hs & _)]] & _).
      eexists _, st1, lines, j, _. rewrite Htr, effects_of_app, Hs.
      reflexivity.
  - revert w Heq. induction scheds as [|sch scheds IH]; intros w Heq more;
      [discriminate|].
    cbn [SimulationThreadFunction_at app] in *.
    destruct (loop_body_at sch w) as [w1 c]. destruct c; [by apply IH|done].
  - intros sch w0 Hret K7 K9 K11 Kd Kl.
    destruct (loop_body_at_return_inv sch w0 Hret) as (_ & _ & _ & ->).
    set (wr := interfered _ _).
    destruct (experiment_done_at_adds (in_done sch) wr wr []
                (sim_adds_refl wr)) as (st1 & lines & j & _ & _ & _ & Hend).
    destruct (Hend K7 K9 K11 Kd) as [_ Hst]. by apply Hst.
Qed.

(** X15.  [Init] does not check [ff_draw_frames_every]: it accepts 0.
    With [m_unDrawFrameEvery] at 0 (or below), a pass that finds the
    experiment running and not finished runs the pre-step hook and the
    post-step hook once each; if it reads the flag set at line 106 it
    makes no engine step, whatever the other thread does afterwards, and
    if it reads it cleared it makes at most one. *)
Theorem zero_frames_no_step :
  (forall t_tree,
     attr_ff_draw_frames_every t_tree = Some 0 ->
     1 <= GetNodeAttributeOrDefault (attr_broadcast_frequency t_tree) 10 <= 10 ->
     exists r, Init t_tree = inr r /\ init_unDrawFrameEvery r = 0) /\
  (forall (sch : PassSchedule Real World) (w : webviz),
     let wa := interfered (before_state_check sch) w in
     let wb := interfered (before_finished_check sch) wa in
     let es := effects_since SimulationThread w (loop_body_at sch w).1 in
     is_running (m_eExperimentState wa) = true ->
     finished wb = false ->
     m_unDrawFrameEvery w <= 0 ->
     count is_pre_step es = 1%nat /\
     count is_post_step es = 1%nat /\
     (m_bFastForwarding (at_flag_read sch wb) = true ->
      count is_update_space es = 0%nat) /\
     (m_bFastForwarding (at_flag_read sch wb) = false ->
      (count is_update_space es <= 1)%nat)).
Proof.
  split.
  - intros t_tree Hd Hf. unfold Init.
    replace (_ <? 1) with false by (symmetry; apply Z.ltb_ge; lia).
    replace (10 <? _) with false by (symmetry; apply Z.ltb_ge; lia).
    cbn [orb]. eexists. split; [reflexivity|]. cbn. by rewrite Hd.
  - intros sch w wa wb es Hrun Hfin Hzero. subst es.
    destruct (loop_body_at_counts sch w Hrun Hfin)
      as (Hcnt & Hle & _ & Hpre & Hpost & _).
    subst wb wa.
    split; [exact Hpre|]. split; [exact Hpost|]. split.
    + intros Hf. rewrite Hcnt, Hf in Hle. lia.
    + intros Hf. rewrite Hcnt, Hf in Hle. exact Hle.
Qed.

(** X17.  Every root entity is accounted for by a broadcast, one by one
    and in order: an entity whose conversion is null contributes the two
    LOGERR lines (the fixed text, then its type description) and no entry
    of the "entities" array; any other contributes its conversion as one
    entry and no line.  The entries of the array are exactly the
    contributions put together, and so are the LOGERR lines, which the
    broadcast writes before it sends the snapshot; the key is missing
    exactly when there is no entry. *)
Theorem entities_accounted (s : World) (e : EExperimentState) (j : json Real) :
  snapshot_of s e j ->
  exists parts : list (list (json Real) * list string),
    Forall2
      (fun x p =>
         (GenerateJSON s x = JNull /\
          p = ([], ["[ERROR] Entity cannot be converted:"%string;
                    GetTypeDescription x]))
         \/
         (GenerateJSON s x <> JNull /\ p = ([GenerateJSON s x], [])))
      (GetRootEntityVector s) parts /\
    entity_errors s = concat (snd <$> parts) /\
    get "entities" j
    = (match concat (fst <$> parts) with
       | [] => None
       | l => Some (JArr l)
       end) /\
    entities_in j = length (concat (fst <$> parts)) /\
    (forall (t : Thread) (w : webviz),
       m_cSimulator w = s -> m_eExperimentState w = e ->
       effects_since t w (BroadcastExperimentState t w)
       = (LogErr <$> concat (snd <$> parts)) ++ [Broadcast j]).
Proof.
  intros Hj.
  assert (Hparts : exists parts : list (list (json Real) * list string),
    Forall2
      (fun x p =>
         (GenerateJSON s x = JNull /\
          p = ([], ["[ERROR] Entity cannot be converted:"%string;
                    GetTypeDescription x]))
         \/
         (GenerateJSON s x <> JNull /\ p = ([GenerateJSON s x], [])))
      (GetRootEntityVector s) parts /\
    failure_lines s = concat (snd <$> parts) /\
    converted s = concat (fst <$> parts)).
  { unfold failure_lines, converted.
    induction (GetRootEntityVector s) as [|x l IH].
    - exists []. split; [constructor|done].
    - destruct IH as (parts & Hall & Herr & Hconv).
      cbn [fmap list_fmap mbind list_bind].
      destruct (GenerateJSON s x) eqn:Hx; cbn [is_null].
      1: { exists (([], ["[ERROR] Entity cannot be converted:"%string;
                         GetTypeDescription x]) :: parts).
           split; [constructor; [by left|exact Hall]|].
           rewrite filter_cons_False by done. cbn. by rewrite <- Herr, <- Hconv. }
      all: eexists (([_], []) :: parts);
        (split; [constructor; [right; split; [congruence|reflexivity]
                              |exact Hall]|]);
        rewrite filter_cons_True by done; cbn; rewrite <- Herr, <- Hconv;
        by rewrite Hx. }
  destruct Hparts as (parts & Hall & Herr & Hconv).
  exists parts. rewrite <- Hconv, <- Herr. split; [exact Hall|].
  split; [unfold entity_errors; by rewrite entities_loop_eq|].
  assert (Hget : get "entities" j
                 = match converted s with [] => None | l => Some (JArr l) end).
  { unfold snapshot_of in Hj.
    destruct (build_state_json_spec s e) as (m & Hm & He & _).
    rewrite Hm in Hj. injection Hj as <-. cbn [get]. exact He. }
  split; [exact Hget|].
  split; [unfold entities_in; rewrite Hget; by destruct (converted s)|].
  intros t w Hs He.
  destruct (BroadcastExperimentState_eq t w) as (j' & Hj' & Heq).
  rewrite Hs, He in Hj'. unfold snapshot_of in Hj, Hj'.
  rewrite Hj in Hj'. injection Hj' as <-.
  apply effects_since_same. rewrite Heq, Hs. reflexivity.
Qed.

End ScheduledClaims.

(** ** The scheduled pass on the small simulator *)

Lemma fast_forward_pass_at_witness :
  (count is_update_space
     (effects_since SimulationThread (toy_fast_forwarding 5)
        (loop_body_at (at_checks_only []) (toy_fast_forwarding 5)).1)
   <= 2)%nat /\
  count is_broadcast
    (effects_since SimulationThread (toy_fast_forwarding 5)
       (step_and_broadcast_at (at_checks_only []) (toy_fast_forwarding 5)))
  = 1%nat.
Proof.
  assert (Hst : m_eExperimentState
                  (interfered (before_state_check (at_checks_only []))
                     (toy_fast_forwarding 5))
                = EXPERIMENT_FAST_FORWARDING) by reflexivity.
  assert (Hfin : finished
                   (interfered (before_finished_check (at_checks_only []))
                      (interfered (before_state_check (at_checks_only []))
                         (toy_fast_forwarding 5))) = false) by reflexivity.
  destruct (fast_forward_pass_at (at_checks_only []) (toy_fast_forwarding 5)
              Hst Hfin) as (_ & _ & _ & _ & _ & Hidle & Hone & _).
  split; [|exact Hone].
  apply Hidle; reflexivity.
Defined.

(** C5 as it is claimed fails: fast-forwarding towards a limit of one step,
    the pass that reaches the limit broadcasts twice. *)
Lemma one_broadcast_per_pass_fails :
  reachable (toy_fast_forwarding 1) /\
  ~ one_broadcast_per_pass [] (toy_fast_forwarding 1).
Proof.
  split; [apply toy_fast_forwarding_reachable|].
  intros H. destruct (H eq_refl eq_refl) as [_ Hb].
  vm_compute in Hb. discriminate.
Qed.

(** The bound on the steps fails too when [m_unDrawFrameEvery] is 0: the
    pass finds the state fast-forwarding, a pause and a play are served
    before it reads the flag, it reads the flag cleared and makes one
    step. *)
Lemma at_most_frames_fails :
  flag_matches_state toy_no_frames /\
  m_unDrawFrameEvery toy_no_frames = 0 /\
  count is_update_space
    (effects_since SimulationThread toy_no_frames
       (loop_body_at pause_play_before_flag_read toy_no_frames).1) = 1%nat /\
  ~ at_most_frames pause_play_before_flag_read toy_no_frames.
Proof.
  split; [reflexivity|]. split; [reflexivity|].
  split; [vm_compute; reflexivity|].
  intros H. specialize (H eq_refl eq_refl). vm_compute in H. lia.
Qed.

Lemma done_event_follows_reset_witness :
  done_follows_reset
    (effects_since SimulationThread (toy_playing 0)
       (SimulationThreadFunction_at [play_before_done_emit]
          (toy_playing 0)).1) /\
  exists lines j,
    effects_since SimulationThread (toy_playing 0)
      (experiment_done_at quiet_done (toy_playing 0))
    = done_shape EXPERIMENT_INITIALIZED lines j EXPERIMENT_INITIALIZED.
Proof.
  destruct (done_event_follows_reset (Sim := ToySim))
    as (Hshape & _ & Hblock & _).
  split; [apply Hshape|].
  destruct (Hblock quiet_done (toy_playing 0))
    as (st1 & lines & j & Heq & Hst).
  destruct Hst as (-> & Hst2 & _); try apply keeps_state_idle.
  exists lines, j. rewrite Heq, Hst2. reflexivity.
Defined.

(** C9 as it is claimed fails: the pass finds the experiment finished,
    resets it, and a play is served before it emits "Experiment done";
    the event carries the playing state. *)
Lemma done_event_carries_playing :
  let es := effects_since SimulationThread (toy_playing 0)
              (loop_body_at play_before_done_emit (toy_playing 0)).1 in
  es !! 5%nat = Some (EmitEvent "Experiment done" EXPERIMENT_PLAYING) /\
  done_initialized es = false /\
  m_eExperimentState (loop_body_at play_before_done_emit (toy_playing 0)).1
  = EXPERIMENT_PLAYING.
Proof.
  cbv zeta. split; [vm_compute; reflexivity|].
  split; vm_compute; reflexivity.
Qed.

Lemma SimulationThreadFunction_at_returned_witness :
  (exists pre st1 lines j st2,
     effects_of SimulationThread
       (trace (SimulationThreadFunction_at [at_checks_only []]
                 (toy_playing 1)).1)
     = pre ++ done_shape st1 lines j st2) /\
  SimulationThreadFunction_at
    ([at_checks_only []] ++ [play_before_done_emit]) (toy_playing 1)
  = SimulationThreadFunction_at [at_checks_only []] (toy_playing 1).
Proof.
  assert (Hret : SimulationThreadFunction_at [at_checks_only []]
                   (toy_playing 1)
                 = ((SimulationThreadFunction_at [at_checks_only []]
                       (toy_playing 1)).1, Return)).
  { assert (Hsnd : (SimulationThreadFunction_at [at_checks_only []]
                      (toy_playing 1)).2 = Return)
      by (vm_compute; reflexivity).
    rewrite <- Hsnd. apply surjective_pairing. }
  destruct (SimulationThreadFunction_at_returned [at_checks_only []]
              (toy_playing 1) _ Hret) as (Hlast & Hmore & _).
  split; [exact Hlast|].
  rewrite (Hmore [play_before_done_emit]). symmetry. exact Hret.
Defined.

Lemma zero_frames_no_step_witness :
  (exists r, Init (mkNode None None (Some 0)) = inr r /\
             init_unDrawFrameEvery r = 0) /\
  count is_update_space
    (effects_since SimulationThread toy_no_frames
       (loop_body_at (at_checks_only [[OpFastForward]; [OpPlay]])
          toy_no_frames).1) = 0%nat /\
  (count is_update_space
     (effects_since SimulationThread toy_no_frames
        (loop_body_at pause_play_before_flag_read toy_no_frames).1)
   <= 1)%nat.
Proof.
  destruct (zero_frames_no_step (Sim := ToySim)) as [Hinit Hpass].
  split; [|split].
  - apply Hinit; [reflexivity|].
    cbv. split; discriminate.
  - assert (Hrun : is_running
                     (m_eExperimentState
                        (interfered
                           (before_state_check
                              (at_checks_only [[OpFastForward]; [OpPlay]]))
                           toy_no_frames)) = true) by reflexivity.
    destruct (Hpass (at_checks_only [[OpFastForward]; [OpPlay]])
                toy_no_frames Hrun)
      as (_ & _ & Hnone & _);
      [reflexivity|vm_compute; discriminate|].
    apply Hnone. reflexivity.
  - assert (Hrun : is_running
                     (m_eExperimentState
                        (interfered
                           (before_state_check pause_play_before_flag_read)
                           toy_no_frames)) = true) by reflexivity.
    destruct (Hpass pause_play_before_flag_read toy_no_frames Hrun)
      as (_ & _ & _ & Hone);
      [reflexivity|vm_compute; discriminate|].
    apply Hone. vm_compute. reflexivity.
Defined.

Lemma entities_accounted_witness :
  exists j,
    snapshot_of (mkToy 0 3 [("box"%string, false); ("bot"%string, true)])
      EXPERIMENT_INITIALIZED j /\
    entities_in j = 1%nat /\
    entity_errors (mkToy 0 3 [("box"%string, false); ("bot"%string, true)])
    = ["[ERROR] Entity cannot be converted:"%string; "box"%string] /\
    effects_since SimulationThread
      (toy 3 [("box"%string, false); ("bot"%string, true)])
      (BroadcastExperimentState SimulationThread
         (toy 3 [("box"%string, false); ("bot"%string, true)]))
    = [LogErr "[ERROR] Entity cannot be converted:"; LogErr "box";
       Broadcast j].
Proof.
  destruct (build_state_json_total
              (mkToy 0 3 [("box"%string, false); ("bot"%string, true)])
              EXPERIMENT_INITIALIZED) as [j Hj].
  exists j. split; [exact Hj|].
  destruct (entities_accounted _ _ _ Hj)
    as (parts & Hall & Herr & _ & Hn & Hb).
  rewrite Herr, Hn,
    (Hb SimulationThread
        (toy 3 [("box"%string, false); ("bot"%string, true)])
        eq_refl eq_refl).
  clear Herr Hn Hb Hj.
  cbn [GetRootEntityVector ToySim toy_entities] in Hall.
  apply Forall2_cons_inv_l in Hall as (p1 & k1 & H1 & Hall & ->).
  apply Forall2_cons_inv_l in Hall as (p2 & k2 & H2 & Hall & ->).
  apply Forall2_nil_inv_l in Hall as ->.
  destruct H1 as [[_ ->] | [H1 _]]; [|by destruct H1].
  destruct H2 as [[H2 _] | [_ ->]]; [discriminate H2|].
  repeat split; reflexivity.
Defined.
